(* ===== verification/_CoqProject ===== *)
-Q . S2P
Prelude.v
OpenAI.v
Config.v
Store.v
Ingest.v
Prompts.v
Chain.v
Refine.v
Csv.v
Pandas.v
Pipeline.v
Server.v
