(* ===== verification/Prelude.v ===== *)
(** * A verification development of AI-program-reco

    The repository is a small retrieval-augmented question answering service
    over a catalogue of travel-subsidy programmes.  It has three Python
    scripts, and this development models each of them in Rocq, shallowly,
    so that every definition computes.

    ** The program and how its parts interact

    - [src/refineData.py] (one-shot ETL) reads the raw programme table
      with [pd.read_csv] (which infers a type per column), keeps 35 columns, strips HTML from [detail_text], maps twelve boolean
      columns to the words "가능"/"불가능" by Python truthiness and renames
      every column to its Korean label.  Its output table is the input of
    - [src/embeddingPrograms.py] (ingestion), which loads the refined table
      as one LangChain document per row ([csv_loader]) and runs
      [create_vector_store]: a loop over [range(0, total_docs, batch_size)]
      that slices 150 documents at a time, creates the Chroma store under
      "./db" from the first slice, adds every later slice with
      [add_documents], and sleeps 61 seconds between slices.  Every slice
      costs one request to the OpenAI embedding endpoint.
    - [src/main.py] (the chat application, a Streamlit script) opens the
      same Chroma directory as a retriever with [k = 5] ([get_retriever]),
      builds the LangChain pipeline in [initialize_components] (a
      history-aware retriever whose rewriting prompt is anchored to today's
      date, and a "stuff documents" answering chain with the business-rule
      prompt), wraps it in [RunnableWithMessageHistory] over a
      [StreamlitChatMessageHistory], and answers one user question per
      script run, appending the question and the answer to the history.

    The components share state through two stores: the Chroma directory
    "./db" (written by the ingestion, read by the retriever) and the
    Streamlit session state (the chat history, written by the history
    wrapper and read back on every turn).  Both are modelled as explicit
    state of a state-and-exception monad, [PyM], defined below.

    ** Files

    - [Prelude] (this file): the Python-semantics monad [PyM] (state
      passing, exceptions as values, effects that happened before an
      exception are kept, as in Python), Python's [range] and list slicing,
      Python strings as UTF-8 bytes ([py_len], [py_strip] on every
      whitespace character [str.isspace] accepts), the generic list
      lemmas the components share, the tactic [py_run] and the hint
      databases [py] and [py_rw].
    - [OpenAI]: the external world a run touches (the persisted Chroma
      directories, the uuid supply, the OpenAI request counter and the
      console/sleep log), the messages of the chat API and the class
      [OpenAIBackend], the interface of the embedding and chat endpoints
      (an opaque oracle indexed by request number, so that failures of a
      given request can be stated).
    - [Config]: the configuration both scripts start with: [load_dotenv()]
      (the .env file's variables, unless already set) and the OpenAI
      clients' check of OPENAI_API_KEY when constructed.  The environment
      is a Section variable of the ingestion and of the server; the
      theorems about successful runs assume the key as a Section
      hypothesis.
    - [Store]: LangChain's [Chroma] wrapper over a persisted collection
      ([Chroma.from_documents], [add_documents], [similarity_search]) and
      [get_retriever] of main.py, with the store invariant (unique ids
      below the uuid supply), the append behaviour of [add_texts], and the
      top-k contract of retrieval (length, ordering, every returned entry
      at least as close as every other, ties in insertion order).
    - [Ingest]: [CSVLoader]'s documents ([csv_loader]: the dict
      [csv.DictReader] makes of each row, with [restkey] and [restval]
      and the collapse of duplicate names, rendered line by line);
      [create_vector_store] of embeddingPrograms.py, its functional
      refinement into a list of batches (the abstract chunking
      [chunks]), the number of embedding requests and of sleeps, the
      contents of the store after a run, the error paths
      ([batch_size = 0], an embedding failure in the middle of a run), the
      behaviour on re-ingestion, and the termination of the loop for
      every batch size (a negative one makes the range empty).

    - [Prompts]: Python's [str.format] (replacement-field parsing with
      doubled braces, rendering from keyword arguments, the errors of
      both), the two prompt texts of [initialize_components] byte for
      byte, and the input variables LangChain infers from a template.
    - [Chain]: the LangChain runnables of main.py (the prompts, the
      history-aware retriever, which rewrites only when ["chat_history"]
      is truthy, the stuff-documents chain, [create_retrieval_chain],
      [RunnableWithMessageHistory] over [StreamlitChatMessageHistory]),
      the page Streamlit shows, and one run of main.py ([main_run]).
      Streamlit's re-execution of the script at every interaction is the
      step relation [rerun]; its invariant (the session state holds only
      question/answer pairs under "chat_messages") is proved by rule
      induction over [rtc rerun].
    - [Refine]: refineData.py on a pandas frame modelled as its number of
      rows and its ordered columns: [df.loc] with the two messages of its
      [KeyError] (the second one shows pandas' [repr] of an Index,
      [index_repr], laid out on 80 columns), column assignment,
      [applymap], [rename], [to_csv]'s cell rendering, floats included
      ([float_repr], CPython's shortest [repr]).  The
      closed form [refined_frame] gives the whole result column by column.
    - [Csv]: the CSV text between the two scripts: Python's [csv.writer]
      as pandas calls it, the line splitting of a file opened with
      [newline=''], the reader state machine of CPython's [_csv.c], with
      its field size limit of 131072 characters, and [CSVLoader] on the
      text; the same machine without the limit, refusing a file that ends
      in a quoted field, is pandas' C tokenizer ([tokenize PandasC]).
      The round trip: read after write gives the rows back for every
      field content exactly when every field fits the limit.
    - [Pandas]: [pd.read_csv] of program_raw.csv (line 17 of
      refineData.py) with its C parser's defaults: blank records
      skipped, the header's empty names and duplicates renamed by the
      [while] loop of [_get_header] ([mangle_loop], run with fuel
      [|header| + 2], which [dedup_header_total] proves always enough),
      short rows padded with missing values, a row longer than the first
      data row and a file ending in an open quoted field refused with
      [ParserError], and the type of each column
      inferred from its tokens (int64, float64 when an integer column has
      a missing value, bool, object).  The Section [PlainFile] states, for
      a raw file without index fields, what reaches the refined table.
    - [Server]: the Streamlit server, which reruns main.py for one browser
      session at a time with that session's own session state, the
      Chroma directory and the OpenAI account being shared; the step
      relation [server_step sid], whose runs are [main_script]: the
      client construction, then [main_run].
    - [Pipeline]: the two offline scripts composed: the documents the
      ingestion loads from the file the refinement writes, the run of
      both scripts into the store from the raw frame ([offline_run]) and
      from the raw text ([refine_main], the whole of refineData.py, and
      [offline_text_run]).

    ** What the theorems show

    - Ingestion (C1-C2, C5-C9): the run refines the abstract batch log;
      store contents, request and sleep counts, request sizes, the
      zero-batch and mid-run failure error paths, duplication on
      re-ingestion.
    - Retrieval (C3-C4): the top-5 contract and the empty-store case.
    - Query time (C10-C16): the formatted rewriting prompt; every turn
      embeds the raw question (the rewriting prompt is dead code); a turn
      appends question then answer, a failed turn changes nothing and
      raises; the session id is ignored; the reachable-state invariant of
      reruns; the full transcript of a successful run.
    - Offline data (C17-C22, C24, C26, C27): the refined table's columns
      and well-formedness, the flag and text columns cell by cell, the
      two [KeyError] messages, the CSV round trip under the field size
      limit, the documents the ingestion loads from the refined file (or
      the limit error), the whole offline half (refinement, file,
      loading, ingestion) into the store, the field limit as the only
      error of the CSV reader, and the grounding of what the chat
      retrieves in the refined rows.
    - The chain as a whole (C23, C25): the rewriting prompt has no effect
      on any turn (equivalence of the chain with any other rewriting
      prompt), and from every reachable state a question whose requests
      succeed is answered by a rerun (liveness).
    - Termination (C28): the ingestion loop ends for every non-zero batch
      size, after [ceil(n / batch_size)] turns, or none for a negative
      size.  The header loop of [pd.read_csv] ends within its fuel
      ([dedup_header_total], a lemma of C29).
    - Reading the raw export (C29-C33, C37): every frame [pd.read_csv]
      returns is well formed (the assumption of the refinement theorems,
      discharged); a too long record stops the script with
      [ParserError]; a too short record gets missing values, hence flags
      "가능"; an integer column with a gap is read as floats and written
      "4.0"; from the raw CSV text the two offline scripts store one
      document per raw row, built from the frame pandas reads; and a file
      ending inside a quoted field stops the script with pandas'
      "EOF inside string" error, where Python's reader would keep it.
    - Configuration (C34-C36): without a key the ingestion fails at its
      first batch, after two lines of output and before any request;
      [load_dotenv] never overrides, so an empty exported key shadows
      the .env file; a server without a key never changes any state.
    - Loading (C38): the text [CSVLoader] gives a row of any length,
      with [restval] lines for a short row and the [restkey] line for a
      long one.

    ** Bounds, fuel and what is not modelled

    Loops over Python ranges are modelled by [range_up] and [range_down],
    defined by well-founded recursion on the distance to the stop value,
    so they are total and no fuel is involved; the other recursions
    (the CSV reader, the format parser, the chunking) are structural or
    well-founded, so every definition terminates on every input.  The
    one [while] loop whose bound is not structural, the renaming of a
    duplicate column name in [pd.read_csv], gets fuel [|header| + 2]:
    every turn but the last visits a distinct name [old.c] of the
    header, so [|header| + 2] turns are enough, and [dedup_header_total]
    proves that the fuel never runs out.  [str.strip] drops one
    character per turn, each of at least one byte, so [|s|] turns are
    enough.  The CSV reader counts the characters of a field as CPython
    does ([field_len], the bytes that are not UTF-8 continuation bytes)
    and refuses the 131073rd.  Floats are kept as the decimals of the
    file ([CFloat neg m e]); their printing follows CPython's [repr],
    whose digits are the decimal's own for at most 15 significant digits
    in the normal range of doubles ([float_exact]); the theorems about
    printed floats are stated in that range.  The int64-to-float64
    upcast rounds to 53 significant bits ([round_to_double]), exact up
    to 2^53.  [bool] of a float is false for 0.0 and for a decimal
    that underflows to it.
    Embedding vectors are lists of integers (the scaled floats of the API)
    and Chroma's distance is the squared Euclidean distance, computed
    exactly; Chroma's approximate HNSW search is modelled as the exact
    search the spec describes.  Not modelled: the embedding and chat
    models (the oracle [OpenAIBackend]); BeautifulSoup's [get_text] (a
    parameter of the refinement, with the stand-in [strip_tags] for the
    concrete runs); in [pd.read_csv], integers beyond 64 bits, the
    spellings of infinity, the printing of decimals outside
    [float_exact], and lines of blanks only, which pandas skips and the
    model reads as a record (the tokenizer is the state machine of
    Csv.v, which agrees with pandas' on the files the quoting rules
    describe; the line of a [ParserError] is the record's number, the
    file's line when no field spans lines); pandas' [repr] of an Index of
    more than 100 names (the script selects 35 and 12);
    [datetime.today().strftime] (the date is an argument of a run,
    formatted by [strftime_ymd]); the layout of the page and
    [st.spinner], a placeholder that Streamlit empties in a [finally]
    clause, so it is never part of the page after a run; the parsing of
    the .env file (python-dotenv's, given as its result) and the model
    names, literals passed to the external clients.  Of the two clients
    of main.py only the first one's key check is modelled: [ChatOpenAI]
    reads the same variable after [OpenAIEmbeddings] has accepted it.
    The message of the missing-key error is that of the [ValueError]
    pydantic wraps in its [ValidationError]. *)

From stdpp Require Export base list strings gmap pretty sorting.
From Stdlib Require Export Sorted.
From Equations Require Export Equations.
From Stdlib Require Import Ascii.

Declare Scope py_scope.
Delimit Scope py_scope with py.

(** ** Python exceptions and outcomes *)

Inductive exn : Type :=
| ValueError (msg : string)
| KeyError (key : string)
| TypeError (msg : string)
| IndexError (msg : string)
| APIError (msg : string)
| CsvError (msg : string)
| ParserError (msg : string)
| EmptyDataError (msg : string).

Inductive outcome (A : Type) : Type :=
| Ok (a : A)
| Err (e : exn).
Arguments Ok {A} a.
Arguments Err {A} e.

(** A computation without state: stdpp's [x ← m; k] on [outcome]. *)
Global Instance outcome_ret : MRet outcome := fun A a => Ok a.
Global Instance outcome_bind : MBind outcome :=
  fun A B k m => match m with Ok a => k a | Err e => Err e end.

(** ** The state-and-exception monad

    A computation reads and updates a state [S] and either returns or
    raises; the state reached before an exception is kept, as the effects
    of a Python statement that ran before a [raise] are not undone. *)

Definition PyM (S A : Type) : Type := S -> outcome A * S.

Definition ret {S A} (a : A) : PyM S A := fun s => (Ok a, s).
Definition raise {S A} (e : exn) : PyM S A := fun s => (Err e, s).
Definition lift {S A} (o : outcome A) : PyM S A := fun s => (o, s).
Definition get {S} : PyM S S := fun s => (Ok s, s).
Definition modify {S} (f : S -> S) : PyM S unit := fun s => (Ok tt, f s).

Definition bind {S A B} (m : PyM S A) (k : A -> PyM S B) : PyM S B :=
  fun s =>
    match m s with
    | (Ok a, s') => k a s'
    | (Err e, s') => (Err e, s')
    end.

Notation "x <- m ;; k" := (bind m (fun x => k))
  (at level 100, m at next level, right associativity) : py_scope.
Notation "m ;; k" := (bind m (fun _ => k))
  (at level 100, right associativity) : py_scope.

Open Scope py_scope.

(** A Python [for] loop over a list of integers whose body updates a local
    variable of type [L]. *)
Fixpoint py_for {S L} (xs : list Z) (body : Z -> L -> PyM S L) (acc : L)
  : PyM S L :=
  match xs with
  | [] => ret acc
  | x :: xs' => bind (body x acc) (py_for xs' body)
  end.

(** A Python [for] loop over the elements of a list, for its effects. *)
Fixpoint py_foreach {S A} (xs : list A) (body : A -> PyM S unit) : PyM S unit :=
  match xs with
  | [] => ret tt
  | x :: xs' => bind (body x) (fun _ => py_foreach xs' body)
  end.

(** ** Python's [range] *)

Equations? range_up (i stop : Z) (step : positive) : list Z
  by wf (Z.to_nat (stop - i)) lt :=
  range_up i stop step with decide (i < stop)%Z => {
    | left _ := i :: range_up (i + Z.pos step) stop step ;
    | right _ := [] }.
Proof. lia. Qed.

Equations? range_down (i stop : Z) (step : positive) : list Z
  by wf (Z.to_nat (i - stop)) lt :=
  range_down i stop step with decide (stop < i)%Z => {
    | left _ := i :: range_down (i - Z.pos step) stop step ;
    | right _ := [] }.
Proof. lia. Qed.

(** [range(start, stop, step)]; a zero step raises [ValueError]. *)
Definition py_range (start stop step : Z) : outcome (list Z) :=
  match step with
  | Z0 => Err (ValueError "range() arg 3 must not be zero")
  | Zpos p => Ok (range_up start stop p)
  | Zneg p => Ok (range_down start stop p)
  end.

(** ** Python's list slicing [l[i:j]] *)

(** A slice bound: negative bounds count from the end, and every bound is
    clamped to [0, len]. *)
Definition slice_bound (n len : Z) : Z :=
  if decide (n < 0)%Z then Z.max 0 (len + n) else Z.min n len.

Definition py_slice {A} (l : list A) (i j : Z) : list A :=
  let len := Z.of_nat (length l) in
  let a := slice_bound i len in
  let b := slice_bound j len in
  take (Z.to_nat (b - a)) (drop (Z.to_nat a) l).

(** ** Python strings

    A [str] is given by its UTF-8 bytes, the encoding of the files the
    scripts read and write. *)

(** A continuation byte (0x80 to 0xBF) of a UTF-8 character. *)
Definition is_cont_byte (c : ascii) : bool :=
  let n := nat_of_ascii c in (128 <=? n) && (n <? 192).

(** [len(s)]: the characters of a string. *)
Definition py_len (s : string) : nat :=
  length (filter (fun c => is_cont_byte c = false) (String.list_ascii_of_string s)).

(** The UTF-8 encodings of the characters [str.isspace] accepts: U+0009
    to U+000D, U+001C to U+001F, U+0020, U+0085, U+00A0, U+1680, U+2000
    to U+200A, U+2028, U+2029, U+202F, U+205F and U+3000. *)
Definition space_seqs : list (list ascii) :=
  map (fun c => [c]) ["009"; "010"; "011"; "012"; "013"; "028"; "029"; "030"; "031"; " "]%char ++
  [["194"; "133"]; ["194"; "160"]; ["225"; "154"; "128"]]%char ++
  map (fun k => ["226"; "128"; ascii_of_nat (128 + k)]%char) (seq 0 11) ++
  [["226"; "128"; "168"]; ["226"; "128"; "169"]; ["226"; "128"; "175"];
   ["226"; "129"; "159"]; ["227"; "128"; "128"]]%char.

(** The leading characters of [cs] that are among [seqs]; each turn drops
    at least one byte, so [length cs] turns are enough. *)
Fixpoint drop_seqs (fuel : nat) (seqs : list (list ascii)) (cs : list ascii) : list ascii :=
  match fuel with
  | 0 => cs
  | S fuel' =>
      match list_find (fun w => w <> [] /\ w `prefix_of` cs) seqs with
      | Some (_, w) => drop_seqs fuel' seqs (drop (length w) cs)
      | None => cs
      end
  end.

Definition lstrip_bytes (cs : list ascii) : list ascii := drop_seqs (length cs) space_seqs cs.
Definition rstrip_bytes (cs : list ascii) : list ascii :=
  rev (drop_seqs (length cs) (map (@rev ascii) space_seqs) (rev cs)).

(** [str.strip()] and [str.rstrip()] *)
Definition py_strip (s : string) : string :=
  String.string_of_list_ascii (rstrip_bytes (lstrip_bytes (String.list_ascii_of_string s))).
Definition py_rstrip (s : string) : string :=
  String.string_of_list_ascii (rstrip_bytes (String.list_ascii_of_string s)).

(** ** Hint databases of the development *)

Create HintDb py discriminated.
Create Rewrite HintDb py_rw.

(** ** Monad laws *)

Lemma bind_ret_l {S A B} (a : A) (k : A -> PyM S B) : bind (ret a) k = k a.
Proof. reflexivity. Qed.

Lemma bind_assoc {S A B C} (m : PyM S A) (k : A -> PyM S B) (h : B -> PyM S C) s :
  bind (bind m k) h s = bind m (fun a => bind (k a) h) s.
Proof. unfold bind. destruct (m s) as [[a|e] s']; reflexivity. Qed.

Lemma bind_Ok {S A B} (m : PyM S A) (k : A -> PyM S B) s a s' :
  m s = (Ok a, s') -> bind m k s = k a s'.
Proof. unfold bind. intros ->. reflexivity. Qed.

Lemma bind_Err {S A B} (m : PyM S A) (k : A -> PyM S B) s e s' :
  m s = (Err e, s') -> bind m k s = (Err e, s').
Proof. unfold bind. intros ->. reflexivity. Qed.

#[export] Hint Rewrite @bind_ret_l : py_rw.

(** A loop over [xs ++ ys] is the loop over [xs] followed by the loop over
    [ys] from the value reached. *)
Lemma py_for_app {S L} (xs ys : list Z) (body : Z -> L -> PyM S L) acc s :
  py_for (xs ++ ys) body acc s = bind (py_for xs body acc) (py_for ys body) s.
Proof.
  revert acc s. induction xs as [|x xs IH]; intros acc s; simpl; [reflexivity|].
  rewrite bind_assoc. unfold bind. destruct (body x acc s) as [[a|e] s']; [|reflexivity].
  rewrite IH. reflexivity.
Qed.

(** Unfold one layer of the monad and simplify. *)
(** Prove a decidable proposition on concrete data by evaluating its
    decision procedure. *)
Ltac decide_by_eval := apply (bool_decide_unpack _ (dec := _)); by vm_compute.

Ltac py_run :=
  repeat (unfold bind, ret, raise, lift, get, modify in *; simpl in *).

(** ** [range] *)

(** The ceiling of [n / d] for a positive [d], as used to count batches. *)
Definition ceil_div (n : Z) (d : positive) : Z := ((n + Z.pos d - 1) / Z.pos d)%Z.

Lemma ceil_div_step (n : Z) (p : positive) :
  (0 < n)%Z -> ceil_div n p = (1 + ceil_div (n - Z.pos p) p)%Z.
Proof.
  intros Hn. unfold ceil_div.
  replace (n + Z.pos p - 1)%Z with ((n - Z.pos p + Z.pos p - 1) + 1 * Z.pos p)%Z by lia.
  rewrite Z.div_add by lia. lia.
Qed.

Lemma ceil_div_nonpos (n : Z) (p : positive) :
  (n <= 0)%Z -> Z.to_nat (ceil_div n p) = 0%nat.
Proof.
  intros Hn. unfold ceil_div.
  assert ((n + Z.pos p - 1) / Z.pos p < 1)%Z by (apply Z.div_lt_upper_bound; lia).
  lia.
Qed.

Lemma ceil_div_nonneg (n : Z) (p : positive) :
  (0 <= n + Z.pos p - 1)%Z -> (0 <= ceil_div n p)%Z.
Proof. intros. unfold ceil_div. apply Z.div_pos; lia. Qed.

Lemma ceil_div_small (n : Z) (p : positive) :
  (0 <= n + Z.pos p - 1 < Z.pos p)%Z -> ceil_div n p = 0%Z.
Proof. intros. unfold ceil_div. by apply Z.div_small. Qed.

(** [ceil_div n p] batches of [p] cover [n], and the last one is needed. *)
Lemma ceil_div_bounds (n : Z) (p : positive) :
  (0 <= n)%Z -> (n <= ceil_div n p * Z.pos p < n + Z.pos p)%Z.
Proof.
  intros Hn. unfold ceil_div.
  pose proof (Z.div_mod (n + Z.pos p - 1) (Z.pos p) ltac:(lia)).
  pose proof (Z.mod_pos_bound (n + Z.pos p - 1) (Z.pos p) ltac:(lia)).
  lia.
Qed.

(** [range(i, stop, step)] for a positive step is the arithmetic sequence
    of its [ceil((stop - i) / step)] first terms. *)
Lemma range_up_spec (i stop : Z) (p : positive) :
  range_up i stop p =
  map (fun k => i + Z.of_nat k * Z.pos p)%Z (seq 0 (Z.to_nat (ceil_div (stop - i) p))).
Proof.
  funelim (range_up i stop p).
  - rewrite H, (ceil_div_step (stop - i) step) by lia.
    replace (stop - i - Z.pos step)%Z with (stop - (i + Z.pos step))%Z by lia.
    pose proof (ceil_div_nonneg (stop - (i + Z.pos step)) step ltac:(lia)).
    rewrite Z2Nat.inj_add by lia. simpl. f_equal; [lia|].
    rewrite <- seq_shift, map_map. apply map_ext. intros k. lia.
  - rewrite ceil_div_nonpos by lia. reflexivity.
Qed.

(** [range(i, stop, -p)] from below [stop] is empty. *)
Lemma range_down_empty (i stop : Z) (p : positive) : (i <= stop)%Z -> range_down i stop p = [].
Proof. intros Hn. simp range_down. destruct (decide (stop < i)%Z); [lia|reflexivity]. Qed.

Lemma length_range_up (i stop : Z) (p : positive) :
  length (range_up i stop p) = Z.to_nat (ceil_div (stop - i) p).
Proof. rewrite range_up_spec, length_map, length_seq. reflexivity. Qed.

(** ** Slicing *)

(** With bounds [0 <= i <= j] a slice is a [take] of a [drop]. *)
Lemma py_slice_nonneg {A} (l : list A) (i j : Z) :
  (0 <= i <= j)%Z -> py_slice l i j = take (Z.to_nat (j - i)) (drop (Z.to_nat i) l).
Proof.
  intros Hij. unfold py_slice, slice_bound.
  destruct (decide (i < 0)%Z); [lia|]. destruct (decide (j < 0)%Z); [lia|].
  destruct (decide (j <= Z.of_nat (length l))%Z).
  - rewrite (Z.min_l j) by lia. rewrite (Z.min_l i) by lia. reflexivity.
  - rewrite (Z.min_r j) by lia.
    destruct (decide (i <= Z.of_nat (length l))%Z).
    + rewrite (Z.min_l i) by lia. rewrite !take_ge by (rewrite length_drop; lia).
      reflexivity.
    + rewrite (Z.min_r i) by lia. rewrite !drop_ge by lia. rewrite !take_nil. reflexivity.
Qed.

(** ** Shared list lemmas *)

Lemma lookup_map {A B} (f : A -> B) (l : list A) (k : nat) :
  map f l !! k = f <$> (l !! k).
Proof. revert k. induction l as [|x l IH]; intros [|k]; simpl; auto. Qed.

Lemma imap_map_seq {A B} (f : nat -> A -> B) (g : nat -> A) (m : nat) :
  imap f (map g (seq 0 m)) = map (fun k => f k (g k)) (seq 0 m).
Proof.
  revert f g. induction m as [|m IH]; intros f g; [done|].
  simpl. rewrite <- !seq_shift, !map_map. f_equal. apply (IH (fun k => f (S k)) (fun k => g (S k))).
Qed.

Lemma filter_all {A} (P : A -> Prop) `{!forall x, Decision (P x)} (l : list A) :
  Forall P l -> filter P l = l.
Proof. induction 1 as [|x l Hx _ IH]; [done|]. by rewrite filter_cons_True, IH. Qed.

Lemma concat_map_singleton {A B} (x : B) (l : list A) :
  concat (map (fun _ => [x]) l) = replicate (length l) x.
Proof. induction l as [|a l IH]; simpl; [done|]. by rewrite IH. Qed.

(** Consecutive chunks of width [w], starting at offset [s], glue back into
    the corresponding prefix. *)
Lemma concat_take_drop_seq {A} (l : list A) (w m s : nat) :
  concat (map (fun k => take w (drop (s + k * w) l)) (seq 0 m)) = take (m * w) (drop s l).
Proof.
  revert s. induction m as [|m IH]; intros s; simpl; [reflexivity|].
  rewrite Nat.add_0_r, <- seq_shift, map_map.
  rewrite (map_ext _ (fun k => take w (drop ((s + w) + k * w) l)))
    by (intros k; do 2 f_equal; lia).
  rewrite IH, <- drop_drop, take_take_drop. reflexivity.
Qed.

(** ** Shared string lemmas ([String.append] does not unfold by [simpl]) *)

Lemma string_append_cons c (x y : string) : String c x +:+ y = String c (x +:+ y).
Proof. reflexivity. Qed.

Lemma list_ascii_of_string_append (x y : string) :
  String.list_ascii_of_string (x +:+ y) = String.list_ascii_of_string x ++ String.list_ascii_of_string y.
Proof. induction x as [|c x IH]; [done|]. rewrite string_append_cons. simpl. by rewrite IH. Qed.

Lemma string_append_empty_r (x : string) : x +:+ EmptyString = x.
Proof. induction x as [|c x IH]; [done|]. by rewrite string_append_cons, IH. Qed.

Lemma string_length_append (x y : string) : String.length (x +:+ y) = String.length x + String.length y.
Proof. induction x as [|c x IH]; [done|]. rewrite string_append_cons. simpl. by rewrite IH. Qed.

Lemma string_append_assoc (x y z : string) : (x +:+ y) +:+ z = x +:+ (y +:+ z).
Proof. induction x as [|c x IH]; [done|]. rewrite !string_append_cons. by rewrite IH. Qed.

Lemma list_ascii_of_string_inj (x y : string) :
  String.list_ascii_of_string x = String.list_ascii_of_string y -> x = y.
Proof.
  intros Hxy. rewrite <- (String.string_of_list_ascii_of_string x), <- (String.string_of_list_ascii_of_string y).
  by f_equal.
Qed.

Lemma string_length_list (s : string) : String.length s = length (String.list_ascii_of_string s).
Proof. induction s as [|c s IH]; simpl; auto. Qed.

(** ** Invariants of computations

    [preserves P m]: whatever [m] returns or raises, it goes from a state
    satisfying [P] to a state satisfying [P]. *)

Definition preserves {S A} (P : S -> Prop) (m : PyM S A) : Prop :=
  forall s o s', m s = (o, s') -> P s -> P s'.

Lemma preserves_ret {S A} (P : S -> Prop) (a : A) : preserves P (ret a).
Proof. intros s o s' [= _ <-]. done. Qed.

Lemma preserves_raise {S A} (P : S -> Prop) (e : exn) : preserves P (@raise S A e).
Proof. intros s o s' [= _ <-]. done. Qed.

Lemma preserves_lift {S A} (P : S -> Prop) (o : outcome A) : preserves P (lift o).
Proof. intros s o' s' [= _ <-]. done. Qed.

Lemma preserves_get {S} (P : S -> Prop) : preserves P get.
Proof. intros s o s' [= _ <-]. done. Qed.

Lemma preserves_modify {S} (P : S -> Prop) (f : S -> S) :
  (forall s, P s -> P (f s)) -> preserves P (modify f).
Proof. intros Hf s o s' [= _ <-]. apply Hf. Qed.

Lemma preserves_bind {S A B} (P : S -> Prop) (m : PyM S A) (k : A -> PyM S B) :
  preserves P m -> (forall a, preserves P (k a)) -> preserves P (bind m k).
Proof.
  intros Hm Hk s o s' Hrun HP. unfold bind in Hrun.
  destruct (m s) as [[a|e] s1] eqn:E.
  - eapply Hk; [exact Hrun|]. eapply Hm; [exact E|exact HP].
  - injection Hrun as _ <-. eapply Hm; [exact E|exact HP].
Qed.

Lemma preserves_foreach {S A} (P : S -> Prop) (xs : list A) (body : A -> PyM S unit) :
  (forall x, preserves P (body x)) -> preserves P (py_foreach xs body).
Proof.
  intros Hb. induction xs as [|x xs IH]; simpl; [apply preserves_ret|].
  apply preserves_bind; [apply Hb|]. intros _. exact IH.
Qed.

#[export] Hint Resolve preserves_ret preserves_raise preserves_lift preserves_get
  preserves_bind preserves_foreach : py.

(** Split a computation into its statements and discharge each with the
    [py] hints, casing on the conditions it tests. *)
Ltac preserves_tac :=
  repeat first
    [ apply preserves_bind; [| intros ?]
    | apply preserves_ret | apply preserves_raise | apply preserves_lift | apply preserves_get
    | match goal with |- preserves _ (if ?b then _ else _) => destruct b end
    | match goal with |- preserves _ (match ?x with _ => _ end) => destruct x end
    | progress (eauto with py) ].
