(* ===== verification/OpenAI.v ===== *)
(** * The external world of a run and the OpenAI endpoints

    What a run of the scripts reads and changes outside its own variables:
    the Chroma collections persisted under their directories, the supply
    of [uuid.uuid4()] identifiers, the number of requests made to the
    OpenAI API, and the log of console lines and sleeps.  The embedding
    and chat endpoints themselves are the interface [OpenAIBackend]: an
    oracle that answers request number [n], so that a theorem can say
    which request fails.

    [OpenAIEmbeddings.embed_documents] is modelled as one request per
    call, the embedding of each text being the oracle's.  The client cuts
    each text into pieces of at most 8191 tokens and sends the pieces
    1000 at a time ([chunk_size]), averaging the embeddings of the
    pieces of a text: a call is one request as long as its texts make at
    most 1000 pieces.  The batches of the program hold at most 150 texts,
    so this holds unless the texts of a batch average more than 6
    pieces, about 55,000 tokens each, far beyond a row of the catalogue;
    the request counts of the theorems assume it.  [embed_query] is
    [embed_documents([text])[0]], as in langchain_openai. *)

From S2P Require Import Prelude.

(** An embedding vector (the floats of the API, scaled to integers). *)
Definition vec := list Z.

(** Chat messages: [HumanMessage], [AIMessage] and [SystemMessage] of
    langchain_core. *)
Inductive message : Type :=
| HumanMessage (content : string)
| AIMessage (content : string)
| SystemMessage (content : string).

(** A LangChain [Document] as [CSVLoader] builds it: the row rendered as
    text, and the metadata [{"source": file_path, "row": i}]. *)
Record document := mkDocument {
  page_content : string;
  meta_source : string;
  meta_row : nat }.

(** One record of a Chroma collection: id, embedding and document. *)
Record entry := mkEntry {
  entry_id : nat;
  entry_embedding : vec;
  entry_document : document }.

Inductive event : Type :=
| EvPrint (line : string)
| EvSleep (seconds : Z)
| EvEmbedRequest (texts : list string)
| EvChatRequest (msgs : list message).

Record world := mkWorld {
  w_dirs : gmap string (list entry);
  w_uuid : nat;
  w_requests : nat;
  w_log : list event }.

(** The OpenAI endpoints, answering the [n]-th request of the run. *)
Class OpenAIBackend := {
  embed_api : nat -> list string -> outcome (list vec);
  chat_api : nat -> list message -> outcome string }.

(** ** Effects on the world *)

Definition set_dirs (f : gmap string (list entry) -> gmap string (list entry)) (w : world) :=
  mkWorld (f (w_dirs w)) (w_uuid w) (w_requests w) (w_log w).

Definition log_event (ev : event) (w : world) : world :=
  mkWorld (w_dirs w) (w_uuid w) (w_requests w) (w_log w ++ [ev]).

(** [print(line)] *)
Definition print (line : string) : PyM world unit := modify (log_event (EvPrint line)).

(** [time.sleep(seconds)] *)
Definition sleep (seconds : Z) : PyM world unit := modify (log_event (EvSleep seconds)).

(** [n] calls of [str(uuid.uuid4())]: fresh identifiers. *)
Definition fresh_uuids (n : nat) : PyM world (list nat) :=
  fun w => (Ok (seq (w_uuid w) n),
            mkWorld (w_dirs w) (w_uuid w + n) (w_requests w) (w_log w)).

(** One request to the API: it is logged and counted whether it succeeds
    or not. *)
Definition request {A} (ev : event) (answer : nat -> outcome A) : PyM world A :=
  fun w => (answer (w_requests w),
            mkWorld (w_dirs w) (w_uuid w) (S (w_requests w)) (w_log w ++ [ev])).

Section Endpoints.
Context `{OpenAIBackend}.

(** [OpenAIEmbeddings.embed_documents(texts)] *)
Definition embed_documents (texts : list string) : PyM world (list vec) :=
  request (EvEmbedRequest texts) (fun n => embed_api n texts).

(** [OpenAIEmbeddings.embed_query(text)] is [embed_documents([text])[0]]. *)
Definition embed_query (text : string) : PyM world vec :=
  embs <- embed_documents [text] ;;
  match embs with
  | v :: _ => ret v
  | [] => raise (IndexError "list index out of range")
  end.

(** [ChatOpenAI.invoke(messages)] followed by [StrOutputParser]: the text
    of the answer. *)
Definition chat_invoke (msgs : list message) : PyM world string :=
  request (EvChatRequest msgs) (fun n => chat_api n msgs).

End Endpoints.

(** ** What the effects leave unchanged *)

Lemma log_event_dirs ev w : w_dirs (log_event ev w) = w_dirs w.
Proof. reflexivity. Qed.

Lemma embed_documents_run `{OpenAIBackend} texts w :
  embed_documents texts w =
  (embed_api (w_requests w) texts,
   mkWorld (w_dirs w) (w_uuid w) (S (w_requests w)) (w_log w ++ [EvEmbedRequest texts])).
Proof. reflexivity. Qed.

#[export] Hint Rewrite log_event_dirs : py_rw.

(** ** Test doubles for the worked examples

    Deterministic backends used to instantiate the theorems on concrete
    runs: the embedding of a text is its length in bytes, the chat model
    answers with the number of messages it received.  [failing_backend r]
    is the same except that request number [r] fails as a rate-limited
    request would. *)

Definition length_embedding (texts : list string) : list vec :=
  map (fun t => [Z.of_nat (String.length t)]) texts.

Definition length_backend : OpenAIBackend := {|
  embed_api := fun _ texts => Ok (length_embedding texts);
  chat_api := fun _ msgs => Ok (pretty (length msgs)) |}.

Definition failing_backend (r : nat) : OpenAIBackend := {|
  embed_api := fun n texts =>
    if decide (n = r) then Err (APIError "RateLimitError") else Ok (length_embedding texts);
  chat_api := fun n msgs =>
    if decide (n = r) then Err (APIError "RateLimitError") else Ok (pretty (length msgs)) |}.

Definition empty_world : world := mkWorld ∅ 0 0 [].

Lemma length_length_embedding texts : length (length_embedding texts) = length texts.
Proof. apply length_map. Qed.
