(* ===== verification/Config.v ===== *)
(** * Configuration: [load_dotenv] and the OpenAI key

    Both scripts start with [load_dotenv()] (main.py line 16,
    embeddingPrograms.py line 14), which copies the variables of the .env
    file into [os.environ] unless they are already set
    ([override=False]).  The OpenAI key is read from the environment when
    a client is constructed: [OpenAIEmbeddings(...)] (imported from
    [langchain.embeddings]) validates it with
    [get_from_dict_or_env(values, "openai_api_key", "OPENAI_API_KEY")],
    which takes the variable only when it is set and non-empty and
    raises [ValueError] otherwise (pydantic reports it as a
    [ValidationError], a subclass of [ValueError], whose text adds the
    model's name).  The .env file is given as python-dotenv parses it,
    the variables with a value. *)

From S2P Require Import Prelude OpenAI.

(** The process environment [os.environ]. *)
Definition environ := gmap string string.

Definition api_key_var : string := "OPENAI_API_KEY".

(** [load_dotenv()] with [override=False]: a variable already in the
    environment keeps its value. *)
Definition load_dotenv (dotenv env : environ) : environ := env ∪ dotenv.

(** [get_from_env]: the key counts when the variable is set and
    non-empty. *)
Definition api_key_set (env : environ) : bool :=
  match env !! api_key_var with
  | Some v => negb (String.eqb v "")
  | None => false
  end.

Definition missing_key_error : exn :=
  ValueError ("Did not find openai_api_key, please add an environment variable `OPENAI_API_KEY`" +:+
              " which contains it, or pass `openai_api_key` as a named parameter.").

(** [OpenAIEmbeddings(model='text-embedding-3-small')]: constructing the
    client validates the environment and has no other effect. *)
Definition embeddings_client {S} (env : environ) : PyM S unit :=
  if api_key_set env then ret tt else raise missing_key_error.

Lemma embeddings_client_ok {S} env (s : S) : api_key_set env = true -> embeddings_client env s = (Ok tt, s).
Proof. intros Hk. unfold embeddings_client. by rewrite Hk. Qed.

Lemma embeddings_client_missing {S} env (s : S) :
  api_key_set env = false -> embeddings_client env s = (Err missing_key_error, s).
Proof. intros Hk. unfold embeddings_client. by rewrite Hk. Qed.

(** Constructing a client changes no state. *)
Lemma embeddings_client_preserves {S} (P : S -> Prop) env : preserves P (embeddings_client env).
Proof. unfold embeddings_client. destruct (api_key_set env); [apply preserves_ret|apply preserves_raise]. Qed.

(** ** The key after [load_dotenv] *)

(** C35: after [load_dotenv], the OpenAI clients find their key exactly
    when the process environment has a non-empty OPENAI_API_KEY, or does
    not have the variable at all and the .env file gives it a non-empty
    value: a variable exported empty in the shell shadows the key of the
    .env file, and the clients refuse to start. *)
Theorem load_dotenv_api_key dotenv env :
  api_key_set (load_dotenv dotenv env) =
  match env !! api_key_var with
  | Some v => negb (String.eqb v "")
  | None => api_key_set dotenv
  end.
Proof.
  unfold api_key_set at 1, load_dotenv. destruct (env !! api_key_var) as [v|] eqn:E.
  - by rewrite (lookup_union_Some_l env dotenv api_key_var v E).
  - by rewrite (lookup_union_r env dotenv api_key_var E).
Qed.

(** A shell exporting an empty key, and a .env file with the key. *)
Definition sample_dotenv : environ := {[api_key_var := "sk-test"]}.
Definition sample_env : environ := {[api_key_var := "sk-test"]}.

(** A shell that exports the variable empty. *)
Definition empty_key_env : environ := {[api_key_var := ""]}.

Lemma sample_env_key : api_key_set sample_env = true.
Proof. reflexivity. Qed.

(** Witness of C35: the empty exported variable wins over the .env file. *)
Lemma load_dotenv_api_key_witness :
  api_key_set (load_dotenv sample_dotenv empty_key_env) = false.
Proof. rewrite load_dotenv_api_key. reflexivity. Defined.
