(* ===== verification/Store.v ===== *)
(** * The Chroma vector store and the retriever of main.py

    LangChain's [Chroma] wrapper as the two scripts use it:
    [Chroma.from_documents] and [add_documents] in embeddingPrograms.py,
    [Chroma(persist_directory=...)] and [as_retriever(search_kwargs={"k": 5})]
    in [get_retriever] of main.py.  A [chroma] value is a handle on the
    collection persisted under its directory in the world, so the
    ingestion and the chat application see the same records.

    Records are added with [upsert] under fresh [uuid4] ids; a query embeds
    the question and returns the [k] records nearest to it by squared
    Euclidean distance, ties in insertion order, as the spec of the vector
    index asks.  The theorems: the store invariant (ids unique and below
    the uuid supply) is kept by every operation, [add_texts] appends its
    documents in order or changes nothing when the embedding request
    fails, and retrieval returns the [min k n] nearest records, sorted,
    each at least as close as every record left out, ties in insertion
    order. *)

From S2P Require Import Prelude OpenAI.

(** A [Chroma] object, a handle on the collection ["langchain"] persisted
    under [persist_directory]. *)
Record chroma := mkChroma { persist_directory : string }.

Definition collection_of (w : world) (dir : string) : list entry :=
  default [] (w_dirs w !! dir).

Definition update_collection (dir : string) (f : list entry -> list entry) (w : world) : world :=
  set_dirs (fun d => <[dir := f (default [] (d !! dir))]> d) w.

(** [Chroma(persist_directory=dir, embedding_function=...)]: the client
    runs [get_or_create_collection], so a missing collection is created
    empty. *)
Definition chroma_open (dir : string) : PyM world chroma :=
  modify (update_collection dir id) ;; ret (mkChroma dir).

(** Chroma's [upsert]: a record whose id is present replaces it in place,
    a new id is appended. *)
Fixpoint upsert_one (e : entry) (c : list entry) : list entry :=
  match c with
  | [] => [e]
  | x :: c' => if decide (entry_id x = entry_id e) then e :: c' else x :: upsert_one e c'
  end.

Definition upsert (es c : list entry) : list entry :=
  fold_left (fun c e => upsert_one e c) es c.

Fixpoint make_entries (ids : list nat) (embs : list vec) (docs : list document) : list entry :=
  match ids, embs, docs with
  | i :: ids', v :: embs', d :: docs' => mkEntry i v d :: make_entries ids' embs' docs'
  | _, _, _ => []
  end.

(** Squared Euclidean distance, Chroma's default [l2] space. *)
Definition sqdist (a b : vec) : Z :=
  foldr Z.add 0%Z (zip_with (fun x y => (x - y) * (x - y))%Z a b).

Section Query.
Variable q : vec.

Definition dist (e : entry) : Z := sqdist q (entry_embedding e).

(** Insertion by distance; an element goes before the elements at the
    same distance, so that [foldr] keeps insertion order on ties. *)
Fixpoint insert_by_dist (e : entry) (l : list entry) : list entry :=
  match l with
  | [] => [e]
  | x :: l' => if decide (dist e <= dist x)%Z then e :: l else x :: insert_by_dist e l'
  end.

Definition sort_by_distance (c : list entry) : list entry := foldr insert_by_dist [] c.

(** The collection's query with [n_results = k]. *)
Definition query_collection (c : list entry) (k : nat) : list entry :=
  take k (sort_by_distance c).

End Query.

Section WithBackend.
Context `{OpenAIBackend}.

(** [Chroma.add_texts]: draw one uuid per text, embed the texts in one
    call, and upsert the records; a length mismatch is rejected by
    Chroma's validation. *)
Definition add_texts (vs : chroma) (docs : list document) : PyM world (list nat) :=
  ids <- fresh_uuids (length docs) ;;
  embs <- embed_documents (map page_content docs) ;;
  if decide (length embs = length docs) then
    modify (update_collection (persist_directory vs) (upsert (make_entries ids embs docs))) ;;
    ret ids
  else raise (ValueError "Number of embeddings must match number of ids").

(** [vectorstore.add_documents(batch_docs)] *)
Definition add_documents (vs : chroma) (docs : list document) : PyM world (list nat) :=
  add_texts vs docs.

(** [Chroma.from_documents(batch_docs, OpenAIEmbeddings(...), persist_directory=dir)] *)
Definition from_documents (docs : list document) (dir : string) : PyM world chroma :=
  vs <- chroma_open dir ;;
  add_texts vs docs ;;
  ret vs.

(** [Chroma.similarity_search(query, k)] *)
Definition similarity_search (vs : chroma) (query : string) (k : nat) : PyM world (list document) :=
  qv <- embed_query query ;;
  w <- get ;;
  ret (map entry_document (query_collection qv (collection_of w (persist_directory vs)) k)).

(** A [VectorStoreRetriever] with [search_kwargs={"k": k}]. *)
Record retriever := mkRetriever { r_store : chroma; r_k : nat }.

Definition retriever_invoke (r : retriever) (query : string) : PyM world (list document) :=
  similarity_search (r_store r) query (r_k r).

(** [get_retriever(persist_directory="./db")] of main.py. *)
Definition get_retriever (persist_directory : string) : PyM world retriever :=
  vs <- chroma_open persist_directory ;;
  ret (mkRetriever vs 5).

End WithBackend.

(** ** The store invariant *)

Definition collection_wf (next : nat) (c : list entry) : Prop :=
  NoDup (map entry_id c) /\ Forall (fun e => entry_id e < next) c.

Definition world_wf (w : world) : Prop :=
  map_Forall (fun _ c => collection_wf (w_uuid w) c) (w_dirs w).

(** ** Lemmas on the collection operations *)

Lemma collection_wf_mono n m c : n <= m -> collection_wf n c -> collection_wf m c.
Proof.
  intros Hle [Hnd Hlt]. split; [done|].
  eapply Forall_impl; [exact Hlt|]. simpl. lia.
Qed.

Lemma collection_of_update w dir f :
  collection_of (update_collection dir f w) dir = f (collection_of w dir).
Proof. unfold collection_of, update_collection, set_dirs. simpl. by rewrite lookup_insert_eq. Qed.

Lemma collection_of_update_ne w dir dir' f :
  dir <> dir' -> collection_of (update_collection dir f w) dir' = collection_of w dir'.
Proof. intros Hne. unfold collection_of, update_collection, set_dirs. simpl. by rewrite lookup_insert_ne. Qed.

#[export] Hint Rewrite collection_of_update : py_rw.

Lemma upsert_one_fresh e c : entry_id e ∉ map entry_id c -> upsert_one e c = c ++ [e].
Proof.
  induction c as [|x c IH]; intros Hfresh; simpl; [done|].
  simpl in Hfresh. rewrite not_elem_of_cons in Hfresh. destruct Hfresh as [Hx Hc].
  rewrite decide_False by congruence. by rewrite IH.
Qed.

(** Records with fresh, distinct ids are appended in order. *)
Lemma upsert_fresh es c :
  NoDup (map entry_id es) ->
  (forall e, e ∈ es -> entry_id e ∉ map entry_id c) ->
  upsert es c = c ++ es.
Proof.
  revert c. induction es as [|e es IH]; intros c Hnd Hfresh; simpl; [by rewrite app_nil_r|].
  apply NoDup_cons in Hnd as [He Hnd].
  rewrite upsert_one_fresh by (apply Hfresh; set_solver).
  rewrite IH; [by rewrite <- app_assoc| done|].
  intros e' He'. rewrite map_app, not_elem_of_app. split; [apply Hfresh; set_solver|].
  simpl. rewrite not_elem_of_cons. split; [|set_solver].
  intros Heq. apply He. rewrite <- Heq. by apply list_elem_of_fmap_2.
Qed.

Lemma make_entries_ids ids embs docs :
  length ids = length docs -> length embs = length docs ->
  map entry_id (make_entries ids embs docs) = ids.
Proof.
  revert embs docs. induction ids as [|i ids IH]; intros [|v embs] [|d docs] H1 H2;
    simpl in *; try lia; [done|]. f_equal. apply IH; lia.
Qed.

Lemma make_entries_docs ids embs docs :
  length ids = length docs -> length embs = length docs ->
  map entry_document (make_entries ids embs docs) = docs.
Proof.
  revert embs docs. induction ids as [|i ids IH]; intros [|v embs] [|d docs] H1 H2;
    simpl in *; try lia; [done|]. f_equal. apply IH; lia.
Qed.

(** Appending records whose ids are [seq u n] to a well-formed collection
    below [u]. *)
Lemma upsert_fresh_seq (u n : nat) embs docs c :
  length docs = n -> length embs = n -> collection_wf u c ->
  upsert (make_entries (seq u n) embs docs) c = c ++ make_entries (seq u n) embs docs.
Proof.
  intros Hd He [_ Hlt]. apply upsert_fresh.
  - rewrite make_entries_ids by (rewrite ?length_seq; lia). apply NoDup_seq.
  - intros e Hin Hc. apply list_elem_of_fmap in Hc as [e' [Heq He']].
    rewrite Forall_forall in Hlt. specialize (Hlt e' He').
    assert (entry_id e ∈ seq u n) as Hs.
    { rewrite <- (make_entries_ids (seq u n) embs docs) by (rewrite ?length_seq; lia).
      by apply list_elem_of_fmap_2. }
    apply elem_of_seq in Hs. lia.
Qed.

Lemma collection_wf_app_seq (u n : nat) embs docs c :
  length docs = n -> length embs = n -> collection_wf u c ->
  collection_wf (u + n) (c ++ make_entries (seq u n) embs docs).
Proof.
  intros Hd He [Hnd Hlt].
  assert (Hids : map entry_id (make_entries (seq u n) embs docs) = seq u n)
    by (apply make_entries_ids; rewrite ?length_seq; lia).
  split.
  - rewrite map_app, Hids. apply NoDup_app. split; [done|]. split; [|apply NoDup_seq].
    intros i Hi Hs. apply elem_of_seq in Hs. apply list_elem_of_fmap in Hi as [e [-> He']].
    rewrite Forall_forall in Hlt. specialize (Hlt e He'). lia.
  - apply Forall_app. split; [eapply Forall_impl; [exact Hlt|]; simpl; lia|].
    apply Forall_forall. intros e Hin.
    assert (entry_id e ∈ seq u n) as Hs by (rewrite <- Hids; by apply list_elem_of_fmap_2).
    apply elem_of_seq in Hs. lia.
Qed.

(** The invariant only depends on the collections and grows with the
    uuid supply. *)
Lemma world_wf_mono w w' :
  w_dirs w' = w_dirs w -> w_uuid w <= w_uuid w' -> world_wf w -> world_wf w'.
Proof.
  unfold world_wf. intros -> Hle Hwf. eapply map_Forall_impl; [exact Hwf|].
  intros ? ?. by apply collection_wf_mono.
Qed.

Lemma world_wf_update w dir f :
  world_wf w -> collection_wf (w_uuid w) (f (collection_of w dir)) ->
  world_wf (update_collection dir f w).
Proof.
  unfold world_wf, update_collection, set_dirs. simpl. intros Hwf Hc.
  apply map_Forall_insert_2; [done|done].
Qed.

Lemma collection_of_wf w dir : world_wf w -> collection_wf (w_uuid w) (collection_of w dir).
Proof.
  unfold world_wf, collection_of. intros Hwf.
  destruct (w_dirs w !! dir) as [c|] eqn:E; simpl.
  - by apply (Hwf dir c).
  - split; constructor.
Qed.

#[export] Hint Resolve collection_of_wf world_wf_update world_wf_mono : py.

(** ** Retrieval: the ordering of a query *)

Section QueryLemmas.
Variable q : vec.

Definition closer (a b : entry) : Prop := (dist q a <= dist q b)%Z.

Lemma insert_by_dist_perm e l : insert_by_dist q e l ≡ₚ e :: l.
Proof.
  induction l as [|x l IH]; simpl; [done|].
  case_decide; [done|]. rewrite IH. apply perm_swap.
Qed.

Lemma sort_by_distance_perm c : sort_by_distance q c ≡ₚ c.
Proof. induction c as [|e c IH]; simpl; [done|]. by rewrite insert_by_dist_perm, IH. Qed.

Lemma insert_by_dist_hd x e l :
  HdRel closer x l -> closer x e -> HdRel closer x (insert_by_dist q e l).
Proof.
  destruct l as [|y l]; simpl; intros Hh Hxe; [by constructor|].
  case_decide; constructor; [done|]. by inversion Hh.
Qed.

Lemma insert_by_dist_sorted e l : Sorted closer l -> Sorted closer (insert_by_dist q e l).
Proof.
  induction l as [|x l IH]; simpl; intros Hs; [by repeat constructor|].
  case_decide as Hle.
  - constructor; [done|]. by constructor.
  - apply Sorted_inv in Hs as [Hs Hh]. constructor; [by apply IH|].
    apply insert_by_dist_hd; [done|]. unfold closer. lia.
Qed.

Lemma sort_by_distance_sorted c : Sorted closer (sort_by_distance q c).
Proof. induction c; simpl; [constructor|]. by apply insert_by_dist_sorted. Qed.

(** Among the records at one distance, insertion moves nothing. *)
Lemma insert_by_dist_filter e l (d : Z) :
  filter (fun x => dist q x = d) (insert_by_dist q e l) = filter (fun x => dist q x = d) (e :: l).
Proof.
  induction l as [|x l IH]; simpl; [done|].
  case_decide as Hle; [done|].
  rewrite !filter_cons, IH, !filter_cons. repeat case_decide; try lia; done.
Qed.

(** Stability: records at the same distance come out in insertion order. *)
Lemma sort_by_distance_stable c (d : Z) :
  filter (fun x => dist q x = d) (sort_by_distance q c) = filter (fun x => dist q x = d) c.
Proof.
  induction c as [|e c IH]; simpl; [done|].
  by rewrite insert_by_dist_filter, !filter_cons, IH.
Qed.

End QueryLemmas.

Lemma Sorted_take {A} (R : relation A) (l : list A) k : Sorted R l -> Sorted R (take k l).
Proof.
  revert k. induction l as [|a l IH]; intros [|k] Hs; simpl; try (by constructor).
  apply Sorted_inv in Hs as [Hs Hh]. constructor; [by apply IH|].
  destruct l as [|b l], k; simpl; constructor. by inversion Hh.
Qed.

Lemma StronglySorted_take_drop {A} (R : relation A) (l : list A) k x y :
  StronglySorted R l -> x ∈ take k l -> y ∈ drop k l -> R x y.
Proof.
  revert k. induction l as [|a l IH]; intros [|k] Hs Hx Hy; simpl in *;
    [set_solver|set_solver|set_solver|].
  apply StronglySorted_inv in Hs as [Hs Ha]. apply elem_of_cons in Hx as [->|Hx].
  - assert (y ∈ l) as Hyl by (rewrite <- (take_drop k l); set_solver).
    rewrite Forall_forall in Ha. apply Ha. first [done | by apply list_elem_of_In].
  - by apply (IH k).
Qed.

(** The [k] records a query returns: as many as the collection allows,
    sorted by distance, and each at least as close as every record left
    out. *)
Lemma query_collection_spec q c k :
  length (query_collection q c k) = Nat.min k (length c) /\
  Sorted (closer q) (query_collection q c k) /\
  exists rest, c ≡ₚ query_collection q c k ++ rest /\
    forall x y, x ∈ query_collection q c k -> y ∈ rest -> (dist q x <= dist q y)%Z.
Proof.
  unfold query_collection. split; [|split].
  - rewrite length_take, (Permutation_length (sort_by_distance_perm q c)). lia.
  - apply Sorted_take, sort_by_distance_sorted.
  - exists (drop k (sort_by_distance q c)). split.
    + rewrite take_drop. symmetry. apply sort_by_distance_perm.
    + intros x y Hx Hy. eapply (StronglySorted_take_drop (closer q)); [|done|done].
      apply Sorted_StronglySorted; [|apply sort_by_distance_sorted].
      intros a b e Hab Hbe. unfold closer in *. lia.
Qed.

(** ** Running the store operations *)

Section RunLemmas.
Context `{OpenAIBackend}.

(** [add_texts] with a successful embedding request appends the new
    records, with ids [w_uuid w, ..., w_uuid w + n - 1], after the
    collection. *)
Lemma add_texts_ok vs docs embs w :
  world_wf w ->
  embed_api (w_requests w) (map page_content docs) = Ok embs ->
  length embs = length docs ->
  add_texts vs docs w =
  (Ok (seq (w_uuid w) (length docs)),
   update_collection (persist_directory vs)
     (fun c => c ++ make_entries (seq (w_uuid w) (length docs)) embs docs)
     (mkWorld (w_dirs w) (w_uuid w + length docs) (S (w_requests w))
        (w_log w ++ [EvEmbedRequest (map page_content docs)]))).
Proof.
  intros Hwf Hapi Hlen. unfold add_texts. py_run. rewrite Hapi. py_run.
  rewrite decide_True by done. py_run.
  unfold update_collection, set_dirs. simpl. do 3 f_equal.
  apply upsert_fresh_seq; [done|done|].
  pose proof (collection_of_wf w (persist_directory vs) Hwf) as Hc.
  unfold collection_of in Hc. exact Hc.
Qed.

(** A failed embedding request leaves every collection as it was and
    surfaces the error. *)
Lemma add_texts_err vs docs e w :
  embed_api (w_requests w) (map page_content docs) = Err e ->
  add_texts vs docs w =
  (Err e, mkWorld (w_dirs w) (w_uuid w + length docs) (S (w_requests w))
            (w_log w ++ [EvEmbedRequest (map page_content docs)])).
Proof. intros Hapi. unfold add_texts. py_run. by rewrite Hapi. Qed.

Lemma add_texts_wf vs docs embs w :
  world_wf w ->
  embed_api (w_requests w) (map page_content docs) = Ok embs ->
  length embs = length docs ->
  world_wf (snd (add_texts vs docs w)).
Proof.
  intros Hwf Hapi Hlen. rewrite (add_texts_ok vs docs embs w Hwf Hapi Hlen). simpl.
  apply world_wf_update.
  - apply (world_wf_mono w); [reflexivity|simpl; lia|exact Hwf].
  - apply collection_wf_app_seq; [done|done|].
    pose proof (collection_of_wf w (persist_directory vs) Hwf) as Hc.
    unfold collection_of in *. exact Hc.
Qed.

(** [add_texts] described by what it changes: the collection it writes
    to grows by the new records, the others stay, one request is logged
    and counted, and the invariant holds after it. *)
Lemma add_texts_effect vs docs embs w :
  world_wf w ->
  embed_api (w_requests w) (map page_content docs) = Ok embs ->
  length embs = length docs ->
  exists w',
    add_texts vs docs w = (Ok (seq (w_uuid w) (length docs)), w') /\
    map entry_document (collection_of w' (persist_directory vs)) =
      map entry_document (collection_of w (persist_directory vs)) ++ docs /\
    w_log w' = w_log w ++ [EvEmbedRequest (map page_content docs)] /\
    w_requests w' = S (w_requests w) /\
    world_wf w'.
Proof.
  intros Hwf Hapi Hlen. eexists. split; [apply (add_texts_ok vs docs embs w Hwf Hapi Hlen)|].
  split; [|split; [done|split; [done|]]].
  - rewrite collection_of_update, map_app, make_entries_docs by (rewrite ?length_seq; lia).
    done.
  - pose proof (add_texts_wf vs docs embs w Hwf Hapi Hlen) as Hw.
    by rewrite (add_texts_ok vs docs embs w Hwf Hapi Hlen) in Hw.
Qed.

Lemma chroma_open_run dir w :
  chroma_open dir w = (Ok (mkChroma dir), update_collection dir id w).
Proof. reflexivity. Qed.

Lemma collection_of_open w dir dir' :
  collection_of (update_collection dir id w) dir' = collection_of w dir'.
Proof.
  destruct (decide (dir = dir')) as [<-|Hne].
  - by rewrite collection_of_update.
  - by rewrite collection_of_update_ne.
Qed.

Lemma world_wf_open w dir : world_wf w -> world_wf (update_collection dir id w).
Proof. intros Hwf. apply world_wf_update; [done|]. by apply collection_of_wf. Qed.

End RunLemmas.

#[export] Hint Resolve world_wf_open : py.
#[export] Hint Rewrite collection_of_open : py_rw.

(** ** The retriever of main.py *)

Section Retriever.
Context `{OpenAIBackend}.

Lemma retrieve_run (w : world) (query : string) (qv : vec) (rest : list vec) :
  embed_api (w_requests w) [query] = Ok (qv :: rest) ->
  (r <- get_retriever "./db" ;; retriever_invoke r query) w =
  (Ok (map entry_document (query_collection qv (collection_of w "./db") 5)),
   mkWorld (w_dirs (update_collection "./db" id w)) (w_uuid w) (S (w_requests w))
     (w_log w ++ [EvEmbedRequest [query]])).
Proof.
  intros Hapi. unfold get_retriever, retriever_invoke, similarity_search, embed_query.
  py_run. rewrite Hapi. py_run. do 3 f_equal.
  unfold collection_of. simpl. rewrite lookup_insert_eq.
  by destruct (w_dirs w !! "./db").
Qed.

(** C3: the retriever built by [get_retriever("./db")] embeds the question
    once and returns the documents of the [min 5 n] records of "./db"
    nearest to it, sorted by distance, each at least as close as every
    record it leaves out; the collection itself is not changed. *)
Theorem get_retriever_top5 (w : world) (query : string) (qv : vec) (rest : list vec) :
  embed_api (w_requests w) [query] = Ok (qv :: rest) ->
  exists docs w' R others,
    (r <- get_retriever "./db" ;; retriever_invoke r query) w = (Ok docs, w') /\
    docs = map entry_document R /\
    length R = Nat.min 5 (length (collection_of w "./db")) /\
    Sorted (closer qv) R /\
    collection_of w "./db" ≡ₚ R ++ others /\
    (forall x y, x ∈ R -> y ∈ others -> (dist qv x <= dist qv y)%Z) /\
    collection_of w' "./db" = collection_of w "./db".
Proof.
  intros Hapi. rewrite (retrieve_run w query qv rest Hapi).
  destruct (query_collection_spec qv (collection_of w "./db") 5)
    as (Hlen & Hsorted & others & Hperm & Hclose).
  eexists _, _, _, others. split; [reflexivity|].
  repeat split; try done.
  unfold collection_of at 1. simpl. fold (collection_of (update_collection "./db" id w) "./db").
  apply collection_of_open.
Qed.

(** C4: when nothing was ever ingested under "./db", [get_retriever]
    creates the collection empty and every question retrieves no
    document, without any error. *)
Theorem get_retriever_empty_db (w : world) (query : string) (qv : vec) (rest : list vec) :
  w_dirs w !! "./db" = None ->
  embed_api (w_requests w) [query] = Ok (qv :: rest) ->
  exists w',
    (r <- get_retriever "./db" ;; retriever_invoke r query) w = (Ok [], w') /\
    w_dirs w' !! "./db" = Some [].
Proof.
  intros Hnone Hapi. rewrite (retrieve_run w query qv rest Hapi).
  unfold collection_of. rewrite Hnone. eexists. split; [reflexivity|].
  simpl. by rewrite lookup_insert_eq, Hnone.
Qed.

End Retriever.

(** ** Worked examples *)

Definition sample_doc (i : nat) : document := mkDocument (pretty i) "./files/refined_data.csv" i.

(** Seven records at embeddings 9, 1, 4, 4, 7, 2, 4. *)
Definition sample_db : list entry :=
  zip_with (fun i v => mkEntry i [v] (sample_doc i)) (seq 0 7) [9; 1; 4; 4; 7; 2; 4]%Z.

Definition sample_world : world := mkWorld {[ "./db" := sample_db ]} 7 0 [].

(** Witness of C3: for the question "abc" (embedded as [3]) the retriever
    returns rows 2, 3, 5 and 6 (distance 1, in insertion order) and then
    row 1 (distance 4). *)
Lemma get_retriever_top5_witness :
  @embed_api length_backend (w_requests sample_world) ["abc"] = Ok [[3%Z]] /\
  exists docs w' R others,
    (r <- @get_retriever "./db" ;; @retriever_invoke length_backend r "abc") sample_world
      = (Ok docs, w') /\
    docs = map entry_document R /\
    length R = Nat.min 5 (length (collection_of sample_world "./db")) /\
    Sorted (closer [3%Z]) R /\
    collection_of sample_world "./db" ≡ₚ R ++ others /\
    (forall x y, x ∈ R -> y ∈ others -> (dist [3%Z] x <= dist [3%Z] y)%Z) /\
    collection_of w' "./db" = collection_of sample_world "./db".
Proof.
  split; [reflexivity|].
  apply (@get_retriever_top5 length_backend sample_world "abc" [3%Z] []). reflexivity.
Defined.

(** Witness of C4: from a world with no "./db", the question "abc"
    retrieves nothing. *)
Lemma get_retriever_empty_db_witness :
  w_dirs empty_world !! "./db" = None /\
  @embed_api length_backend (w_requests empty_world) ["abc"] = Ok [[3%Z]] /\
  exists w',
    (r <- @get_retriever "./db" ;; @retriever_invoke length_backend r "abc") empty_world
      = (Ok [], w') /\
    w_dirs w' !! "./db" = Some [].
Proof.
  split; [reflexivity|]. split; [reflexivity|].
  apply (@get_retriever_empty_db length_backend empty_world "abc" [3%Z] []); reflexivity.
Defined.

Lemma empty_world_wf : world_wf empty_world.
Proof. apply map_Forall_empty. Qed.
