(* ===== verification/Ingest.v ===== *)
(** * The ingestion script embeddingPrograms.py

    [csv_loader] turns the rows of the refined table into documents, one
    per row, each rendered from the dict [csv.DictReader] makes of it
    (a short row's missing names set to [None], a long row's extra
    fields under the key [None], a later duplicate name overwriting an
    earlier one in place); and
    [create_vector_store] loops over [range(0, total_docs, batch_size)],
    slices the documents, creates the Chroma store "./db" from the first
    slice and adds the others, printing progress and sleeping 61 seconds
    between slices.

    The abstract specification of a run is the list of batches [chunks]
    (consecutive slices of [batch_size] documents) and the log
    [ingest_log] they produce; the main theorem is the refinement of the
    loop into it.  From it follow the number of embedding requests and of
    sleeps, the contents of the store, the invariant of the store, and
    the error paths: a zero [batch_size], and a failed embedding request in
    the middle of a run, after which exactly the earlier batches are
    stored; the termination of the loop for every batch size, a
    negative one giving an empty range and a run that stores nothing;
    the run without an OpenAI key, which fails when the first batch
    constructs the embeddings client; and the text [CSVLoader] gives a
    row of any length. *)

From Stdlib Require Import Ascii.
From S2P Require Import Prelude OpenAI Config Store.


(** ** The loader *)

(** A value of the dict [csv.DictReader] yields: a field, the list of
    the extra fields of a long row (under [restkey]), or [None]
    ([restval], for the missing fields of a short row). *)
Inductive row_value := RField (s : string) | RRest (vs : list string) | RNone.

(** [d[k] = v] on a dict kept in insertion order: a key already there
    keeps its place and takes the new value. *)
Fixpoint dict_assign {K V} `{EqDecision K} (k : K) (v : V) (d : list (K * V)) : list (K * V) :=
  match d with
  | [] => [(k, v)]
  | (k', v') :: d' => if decide (k = k') then (k, v) :: d' else (k', v') :: dict_assign k v d'
  end.

(** [DictReader.__next__]: [dict(zip(self.fieldnames, row))], then the
    extra fields under the key [None], or [None] for each missing field;
    the key [None] is [None : option string]. *)
Definition dict_row (fieldnames row : list string) : list (option string * row_value) :=
  let d := foldl (fun d '(k, v) => dict_assign (Some k) (RField v) d) [] (zip fieldnames row) in
  if decide (length fieldnames < length row)
  then dict_assign None (RRest (drop (length fieldnames) row)) d
  else foldl (fun d k => dict_assign (Some k) RNone d) d (drop (length row) fieldnames).

(** [CSVLoader]'s line for one item of the dict:
    [f"{k.strip() if k is not None else k}: {v.strip() if isinstance(v,
    str) else ','.join(map(str.strip, v)) if isinstance(v, list) else
    v}"], as in langchain_community's loader since it handles the [None]
    key and values (earlier versions raise [AttributeError] on a row
    longer than the header). *)
Definition item_line (kv : option string * row_value) : string :=
  (if kv.1 is Some k then py_strip k else "None") +:+ ": " +:+
  match kv.2 with
  | RField v => py_strip v
  | RRest vs => String.concat "," (map py_strip vs)
  | RNone => "None"
  end.

(** One row rendered by [CSVLoader]: the lines of its items joined with
    newlines. *)
Definition row_content (header row : list string) : string :=
  String.concat (String "010" EmptyString) (map item_line (dict_row header row)).

(** [csv_loader(file_path)] is [CSVLoader(file_path).load()]: one document
    per row, with metadata [{"source": file_path, "row": i}]; the file is
    given already split into its header and rows. *)
Definition csv_loader (file_path : string) (header : list string) (rows : list (list string))
  : list document :=
  imap (fun i row => mkDocument (row_content header row) file_path i) rows.

(** ** [create_vector_store] *)

Definition total_msg (total_docs : nat) : string :=
  "총 문서 수: " +:+ pretty total_docs +:+ "개".

Definition batch_msg (i : Z) (len : nat) : string :=
  pretty (i + 1)%Z +:+ "번째부터 " +:+ pretty (i + Z.of_nat len)%Z +:+ "번째 문서까지 처리 중...".

Definition wait_msg : string := "1분 대기 중...".

Section Ingestion.
Context `{OpenAIBackend}.
(** The process environment the script runs in, after [load_dotenv()]. *)
Variable env : environ.

(** The [if vectorstore is None] statement: the first batch creates the
    store, the others are added to it; the arguments of
    [Chroma.from_documents] are evaluated first, among them the client
    [OpenAIEmbeddings(model='text-embedding-3-small')]. *)
Definition store_batch (batch_docs : list document) (vectorstore : option chroma)
  : PyM world chroma :=
  match vectorstore with
  | None => embeddings_client env ;; from_documents batch_docs "./db"
  | Some vs => add_documents vs batch_docs ;; ret vs
  end.

(** The body of the [for] loop, for index [i]; the local variable
    [vectorstore] is the loop's accumulator. *)
Definition ingest_step (docs : list document) (batch_size : Z) (i : Z)
    (vectorstore : option chroma) : PyM world (option chroma) :=
  let batch_docs := py_slice docs i (i + batch_size) in
  print (batch_msg i (length batch_docs)) ;;
  vs <- store_batch batch_docs vectorstore ;;
  (if decide (i + batch_size < Z.of_nat (length docs))%Z
   then print wait_msg ;; sleep 61
   else ret tt) ;;
  ret (Some vs).

Definition create_vector_store (docs : list document) (batch_size : Z) : PyM world (option chroma) :=
  print (total_msg (length docs)) ;;
  idx <- lift (py_range 0 (Z.of_nat (length docs)) batch_size) ;;
  py_for idx (ingest_step docs batch_size) None.

(** The script's last two lines: load the refined table and ingest it with
    the default batch size. *)
Definition ingest_main (header : list string) (rows : list (list string)) : PyM world (option chroma) :=
  create_vector_store (csv_loader "./files/refined_data.csv" header rows) 150.

End Ingestion.

(** The whole script: [load_dotenv()] (line 14) sets the environment the
    clients read, then its last two lines run. *)
Definition ingest_script `{OpenAIBackend} (dotenv env0 : environ) (header : list string)
    (rows : list (list string)) : PyM world (option chroma) :=
  ingest_main (load_dotenv dotenv env0) header rows.

(** ** The loader on a header of distinct names *)

Lemma dict_assign_fresh {K V} `{EqDecision K} (k : K) (v : V) d :
  k ∉ d.*1 -> dict_assign k v d = d ++ [(k, v)].
Proof.
  induction d as [|[k' v'] d IH]; [done|]. cbn [fmap list_fmap fst]. intros Hk.
  rewrite not_elem_of_cons in Hk. destruct Hk as [Hne Hk]. simpl. by rewrite decide_False, IH.
Qed.

Lemma dict_row_fold (ks vs : list string) acc :
  NoDup (acc.*1 ++ map Some ks) ->
  foldl (fun d '(k, v) => dict_assign (Some k) (RField v) d) acc (zip ks vs) =
  acc ++ zip (map Some ks) (map RField vs).
Proof.
  revert vs acc. induction ks as [|k ks IH]; intros [|v vs] acc Hnd; try by rewrite app_nil_r.
  cbn [zip zip_with foldl map]. rewrite dict_assign_fresh.
  - rewrite IH; [by rewrite <- app_assoc|by rewrite fmap_app, <- app_assoc].
  - intros Hin. apply NoDup_app in Hnd as (_ & Hdisj & _). apply (Hdisj (Some k)); [done|by left].
Qed.

Lemma dict_none_fold (ks : list string) acc :
  NoDup (acc.*1 ++ map Some ks) ->
  foldl (fun d k => dict_assign (Some k) RNone d) acc ks = acc ++ map (fun k => (Some k, RNone)) ks.
Proof.
  revert acc. induction ks as [|k ks IH]; intros acc Hnd; [by rewrite app_nil_r|].
  cbn [foldl map]. rewrite dict_assign_fresh.
  - rewrite IH; [by rewrite <- app_assoc|by rewrite fmap_app, <- app_assoc].
  - intros Hin. apply NoDup_app in Hnd as (_ & Hdisj & _). apply (Hdisj (Some k)); [done|by left].
Qed.

Lemma fst_zip_take {A B} (l : list A) (k : list B) : (zip l k).*1 = take (length k) l.
Proof. revert k. induction l as [|x l IH]; intros [|y k]; try done. simpl. by rewrite IH. Qed.

Lemma item_lines_zip (ks vs : list string) :
  map item_line (zip (map Some ks) (map RField vs)) =
  zip_with (fun k v => py_strip k +:+ ": " +:+ py_strip v) ks vs.
Proof. revert vs. induction ks as [|k ks IH]; intros [|v vs]; try done. simpl. by rewrite IH. Qed.

(** The lines of a row under a header of distinct names, whatever the
    row's length. *)
Lemma row_content_lines header row :
  NoDup header ->
  row_content header row =
  String.concat (String "010" EmptyString)
    (zip_with (fun k v => py_strip k +:+ ": " +:+ py_strip v) header row ++
     map (fun k => py_strip k +:+ ": None") (drop (length row) header) ++
     (if decide (length header < length row)
      then ["None: " +:+ String.concat "," (map py_strip (drop (length header) row))] else [])).
Proof.
  intros Hnd. unfold row_content, dict_row.
  assert (Hnd' : NoDup (map Some header)) by (apply NoDup_fmap_2; [congruence|done]).
  rewrite dict_row_fold by done. case_decide as Hlt.
  - rewrite (drop_ge header (length row)) by lia. rewrite app_nil_l, dict_assign_fresh.
    + by rewrite map_app, item_lines_zip.
    + rewrite fst_zip_take, <- fmap_take. intros (? & [=] & _)%list_elem_of_fmap_1.
  - rewrite app_nil_l, dict_none_fold.
    + rewrite !map_app, item_lines_zip, app_nil_r, map_map. done.
    + rewrite fst_zip_take, length_map, <- fmap_take, <- fmap_app, take_drop. done.
Qed.

(** On a full row of a header of distinct names, the lines [name: field]. *)
Lemma row_content_full header row :
  NoDup header -> length row = length header ->
  row_content header row =
  String.concat (String "010" EmptyString) (zip_with (fun k v => py_strip k +:+ ": " +:+ py_strip v) header row).
Proof.
  intros Hnd Hlen. rewrite row_content_lines by done.
  rewrite (drop_ge header (length row)), decide_False by lia. by rewrite !app_nil_r.
Qed.

(** C38: [CSVLoader] on a file whose header has distinct names gives,
    for its row [i] of any length, the document with metadata
    [{"source": file_path, "row": i}] whose text is the lines
    [name: field] of the fields the row has, in the header's order, then
    [name: None] for each name the row is too short for ([restval]),
    then, for a row longer than the header, one line ["None: "] with the
    extra fields joined by commas ([restkey]); names and fields are
    stripped. *)
Theorem csv_loader_row_text file_path header rows i row :
  NoDup header -> rows !! i = Some row ->
  csv_loader file_path header rows !! i =
  Some (mkDocument
    (String.concat (String "010" EmptyString)
      (zip_with (fun k v => py_strip k +:+ ": " +:+ py_strip v) header row ++
       map (fun k => py_strip k +:+ ": None") (drop (length row) header) ++
       (if decide (length header < length row)
        then ["None: " +:+ String.concat "," (map py_strip (drop (length header) row))] else [])))
    file_path i).
Proof.
  intros Hnd Hi. unfold csv_loader. rewrite list_lookup_imap, Hi. simpl.
  by rewrite row_content_lines.
Qed.

(** ** The abstract specification: batches and the log they produce *)

Equations? chunks {A} (w : positive) (l : list A) : list (list A) by wf (length l) lt :=
  chunks w [] := [];
  chunks w (x :: l') := take (Pos.to_nat w) (x :: l') :: chunks w (drop (Pos.to_nat w) (x :: l')).
Proof. rewrite length_drop. simpl. lia. Qed.

Definition batch_events (n : nat) (w : positive) (k : nat) (b : list document) : list event :=
  [EvPrint (batch_msg (Z.of_nat (k * Pos.to_nat w)) (length b));
   EvEmbedRequest (map page_content b)] ++
  (if decide (k * Pos.to_nat w + Pos.to_nat w < n) then [EvPrint wait_msg; EvSleep 61] else []).

Definition ingest_log (docs : list document) (w : positive) : list event :=
  EvPrint (total_msg (length docs)) :: concat (imap (batch_events (length docs) w) (chunks w docs)).

(** Projections of the log and of the store. *)
Definition embed_requests (log : list event) : list (list string) :=
  omap (fun ev => match ev with EvEmbedRequest t => Some t | _ => None end) log.

Definition sleeps (log : list event) : list Z :=
  omap (fun ev => match ev with EvSleep s => Some s | _ => None end) log.

Definition stored_docs (w : world) (dir : string) : list document :=
  map entry_document (collection_of w dir).

(** ** The batches *)

(** [ceil(n / w)], the number of batches of [n] documents. *)
Definition batch_count (n : nat) (w : positive) : nat := Z.to_nat (ceil_div (Z.of_nat n) w).

(** The [k]-th slice [docs[k*w : k*w + w]]. *)
Definition batch {A} (docs : list A) (w : positive) (k : nat) : list A :=
  take (Pos.to_nat w) (drop (k * Pos.to_nat w) docs).

Lemma batch_count_zero w : batch_count 0 w = 0.
Proof. unfold batch_count. apply ceil_div_nonpos. lia. Qed.

Lemma batch_count_step n w :
  0 < n -> batch_count n w = S (batch_count (n - Pos.to_nat w) w).
Proof.
  intros Hn. unfold batch_count.
  rewrite (ceil_div_step (Z.of_nat n) w) by lia.
  destruct (decide (Pos.to_nat w <= n)).
  - rewrite Nat2Z.inj_sub, positive_nat_Z by done.
    pose proof (ceil_div_nonneg (Z.of_nat n - Z.pos w) w ltac:(lia)).
    rewrite Z2Nat.inj_add by lia. done.
  - replace (n - Pos.to_nat w) with 0 by lia.
    rewrite (ceil_div_small (Z.of_nat n - Z.pos w)), (ceil_div_small (Z.of_nat 0)) by lia.
    done.
Qed.

Lemma batch_count_bounds n w :
  n <= batch_count n w * Pos.to_nat w < n + Pos.to_nat w.
Proof.
  unfold batch_count. pose proof (ceil_div_bounds (Z.of_nat n) w ltac:(lia)).
  pose proof (ceil_div_nonneg (Z.of_nat n) w ltac:(lia)). lia.
Qed.

(** The abstract batches are the slices the loop takes. *)
Lemma chunks_spec {A} (docs : list A) w :
  chunks w docs = map (batch docs w) (seq 0 (batch_count (length docs) w)).
Proof.
  funelim (chunks w docs).
  - by rewrite batch_count_zero.
  - rewrite H, (batch_count_step (length (x :: l'))) by (simpl; lia).
    rewrite <- length_drop. simpl (seq 0 (S _)). cbn [map]. f_equal.
    rewrite <- seq_shift, map_map. apply map_ext. intros k. unfold batch.
    rewrite drop_drop. do 2 f_equal; lia.
Qed.

Lemma length_chunks {A} (docs : list A) w :
  length (chunks w docs) = batch_count (length docs) w.
Proof. by rewrite chunks_spec, length_map, length_seq. Qed.

Lemma concat_batches {A} (docs : list A) w m :
  length docs <= m * Pos.to_nat w ->
  concat (map (batch docs w) (seq 0 m)) = docs.
Proof.
  intros Hm. unfold batch.
  pose proof (concat_take_drop_seq docs (Pos.to_nat w) m 0) as Hc. simpl in Hc.
  rewrite Hc. by apply take_ge.
Qed.

(** The batches, glued back, are the documents in their order. *)
Lemma concat_chunks {A} (docs : list A) w : concat (chunks w docs) = docs.
Proof.
  rewrite chunks_spec. apply concat_batches.
  pose proof (batch_count_bounds (length docs) w). lia.
Qed.

(** Every batch holds between 1 and [w] documents. *)
Lemma chunks_sizes {A} (docs : list A) w :
  Forall (fun b => 0 < length b <= Pos.to_nat w) (chunks w docs).
Proof.
  funelim (chunks w docs); [constructor|]. constructor; [|done].
  rewrite length_take. simpl. lia.
Qed.

(** Every batch but the last holds exactly [w] documents. *)
Lemma chunks_full {A} (docs : list A) w k b :
  chunks w docs !! k = Some b -> S k < length (chunks w docs) -> length b = Pos.to_nat w.
Proof.
  rewrite length_chunks, chunks_spec. intros Hk Hlt.
  rewrite lookup_map in Hk.
  destruct (seq 0 (batch_count (length docs) w) !! k) as [k'|] eqn:Hseq; [|done].
  simpl in Hk. injection Hk as <-. apply lookup_seq in Hseq as [-> _].
  pose proof (batch_count_bounds (length docs) w).
  unfold batch. rewrite length_take, length_drop. simpl.
  assert (S k * Pos.to_nat w <= (batch_count (length docs) w - 1) * Pos.to_nat w)
    by (apply Nat.mul_le_mono_r; lia).
  nia.
Qed.

(** ** Runs of the loop *)

Section Runs.
Context `{OpenAIBackend}.
Variable env : environ.
(** The runs below have the OpenAI key. *)
Hypothesis Hkey : api_key_set env = true.

(** The embedding requests numbered below [R] succeed, with one vector per
    text. *)
Definition embeds_ok_below (R : nat) : Prop :=
  forall r texts, r < R -> exists embs, embed_api r texts = Ok embs /\ length embs = length texts.

Lemma print_run line w : print line w = (Ok tt, log_event (EvPrint line) w).
Proof. reflexivity. Qed.

Lemma stored_docs_log_event ev w dir : stored_docs (log_event ev w) dir = stored_docs w dir.
Proof. reflexivity. Qed.

Lemma world_wf_log_event ev w : world_wf w -> world_wf (log_event ev w).
Proof. intros Hw. apply (world_wf_mono w); [reflexivity|simpl; lia|done]. Qed.

#[local] Hint Resolve world_wf_log_event : py.
#[local] Hint Rewrite stored_docs_log_event : py_rw.

Lemma store_batch_ok b acc embs W :
  world_wf W -> (acc = None \/ acc = Some (mkChroma "./db")) ->
  embed_api (w_requests W) (map page_content b) = Ok embs -> length embs = length b ->
  exists W', store_batch env b acc W = (Ok (mkChroma "./db"), W') /\
    stored_docs W' "./db" = stored_docs W "./db" ++ b /\
    w_log W' = w_log W ++ [EvEmbedRequest (map page_content b)] /\
    w_requests W' = S (w_requests W) /\ world_wf W'.
Proof.
  intros Hwf Hacc Hapi Hlen. destruct Hacc as [->| ->]; simpl.
  - erewrite bind_Ok by (by apply embeddings_client_ok). cbv beta.
    unfold from_documents. erewrite bind_Ok by apply chroma_open_run. cbv beta.
    destruct (add_texts_effect (mkChroma "./db") b embs (update_collection "./db" id W))
      as (W' & Hrun & Hdocs & Hlog & Hreq & Hwf'); [auto with py|exact Hapi|done|].
    erewrite bind_Ok by exact Hrun. exists W'. split; [done|].
    unfold stored_docs. simpl in Hdocs. rewrite Hdocs, collection_of_open. auto.
  - destruct (add_texts_effect (mkChroma "./db") b embs W)
      as (W' & Hrun & Hdocs & Hlog & Hreq & Hwf'); [done|exact Hapi|done|].
    unfold add_documents. erewrite bind_Ok by exact Hrun. exists W'. auto.
Qed.

(** One turn of the loop, at index [k * w]: the [k]-th batch is printed,
    embedded in one request and stored, and a wait follows unless it is
    the last. *)
Lemma ingest_step_ok docs w k acc w0 R :
  world_wf w0 -> (acc = None \/ acc = Some (mkChroma "./db")) ->
  embeds_ok_below R -> w_requests w0 < R ->
  exists w1,
    ingest_step env docs (Z.pos w) (Z.of_nat (k * Pos.to_nat w)) acc w0
      = (Ok (Some (mkChroma "./db")), w1) /\
    w_log w1 = w_log w0 ++ batch_events (length docs) w k (batch docs w k) /\
    stored_docs w1 "./db" = stored_docs w0 "./db" ++ batch docs w k /\
    w_requests w1 = S (w_requests w0) /\ world_wf w1.
Proof.
  intros Hwf Hacc Hok HR. unfold ingest_step.
  rewrite py_slice_nonneg by lia.
  replace (Z.to_nat (Z.of_nat (k * Pos.to_nat w) + Z.pos w - Z.of_nat (k * Pos.to_nat w)))
    with (Pos.to_nat w) by lia.
  rewrite Nat2Z.id. fold (batch docs w k). set (b := batch docs w k).
  destruct (Hok (w_requests w0) (map page_content b) HR) as (embs & Hapi & Hlen).
  rewrite length_map in Hlen.
  erewrite bind_Ok by apply print_run.
  destruct (store_batch_ok b acc embs
              (log_event (EvPrint (batch_msg (Z.of_nat (k * Pos.to_nat w)) (length b))) w0))
    as (W' & Hrun & Hdocs & Hlog & Hreq & Hwf'); [auto with py|done|exact Hapi|done|].
  erewrite bind_Ok by exact Hrun. cbv beta.
  unfold batch_events.
  destruct (decide (Z.of_nat (k * Pos.to_nat w) + Z.pos w < Z.of_nat (length docs))%Z) as [Hlt|Hge].
  - rewrite decide_True by lia. eexists. split; [reflexivity|].
    rewrite !stored_docs_log_event, Hdocs, stored_docs_log_event.
    split; [simpl; rewrite Hlog; simpl; by rewrite <- !app_assoc|].
    split; [done|]. split; [simpl; by rewrite Hreq|auto with py].
  - rewrite decide_False by lia. eexists. split; [reflexivity|].
    rewrite Hdocs, stored_docs_log_event.
    split; [rewrite Hlog; simpl; by rewrite <- !app_assoc, ?app_nil_r|].
    split; [done|]. split; [by rewrite Hreq|done].
Qed.

(** The whole loop over the indices [k * w], [k] in [j, j + m). *)
Lemma ingest_loop docs w j m acc w0 R :
  world_wf w0 -> (acc = None \/ acc = Some (mkChroma "./db")) ->
  embeds_ok_below R -> w_requests w0 + m <= R ->
  exists w1,
    py_for (map (fun k => Z.of_nat (k * Pos.to_nat w)) (seq j m)) (ingest_step env docs (Z.pos w)) acc w0
      = (Ok (if m is 0 then acc else Some (mkChroma "./db")), w1) /\
    w_log w1 = w_log w0 ++
      concat (map (fun k => batch_events (length docs) w k (batch docs w k)) (seq j m)) /\
    stored_docs w1 "./db" = stored_docs w0 "./db" ++ concat (map (batch docs w) (seq j m)) /\
    w_requests w1 = w_requests w0 + m /\ world_wf w1.
Proof.
  revert j acc w0. induction m as [|m IH]; intros j acc w0 Hwf Hacc Hok HR.
  - exists w0. simpl. rewrite !app_nil_r. auto.
  - destruct (ingest_step_ok docs w j acc w0 R Hwf Hacc Hok ltac:(lia))
      as (w1 & Hrun & Hlog & Hdocs & Hreq & Hwf1).
    destruct (IH (S j) (Some (mkChroma "./db")) w1 Hwf1 (or_intror eq_refl) Hok ltac:(lia))
      as (w2 & Hrun2 & Hlog2 & Hdocs2 & Hreq2 & Hwf2).
    exists w2. simpl. erewrite bind_Ok by exact Hrun. rewrite Hrun2.
    split; [by destruct m|].
    rewrite Hlog2, Hlog, Hdocs2, Hdocs, Hreq2, Hreq, <- !app_assoc.
    split_and!; auto; lia.
Qed.

Lemma store_batch_err b acc e W :
  (acc = None \/ acc = Some (mkChroma "./db")) ->
  embed_api (w_requests W) (map page_content b) = Err e ->
  exists W', store_batch env b acc W = (Err e, W') /\
    stored_docs W' "./db" = stored_docs W "./db" /\
    w_log W' = w_log W ++ [EvEmbedRequest (map page_content b)].
Proof.
  intros Hacc Hapi. destruct Hacc as [->| ->]; simpl.
  - erewrite bind_Ok by (by apply embeddings_client_ok). cbv beta.
    unfold from_documents. erewrite bind_Ok by apply chroma_open_run. cbv beta.
    erewrite bind_Err by (apply add_texts_err; exact Hapi). eexists. split; [reflexivity|].
    split; [|done]. unfold stored_docs, collection_of. simpl.
    rewrite lookup_insert_eq. by destruct (w_dirs W !! "./db").
  - unfold add_documents. erewrite bind_Err by (apply add_texts_err; exact Hapi).
    eexists. split; [reflexivity|]. done.
Qed.

(** A turn whose embedding request fails stops the loop with the error,
    after the progress line and the request, and stores nothing. *)
Lemma ingest_step_err docs w k acc e w0 :
  (acc = None \/ acc = Some (mkChroma "./db")) ->
  embed_api (w_requests w0) (map page_content (batch docs w k)) = Err e ->
  exists w1,
    ingest_step env docs (Z.pos w) (Z.of_nat (k * Pos.to_nat w)) acc w0 = (Err e, w1) /\
    stored_docs w1 "./db" = stored_docs w0 "./db" /\
    w_log w1 = w_log w0 ++ [EvPrint (batch_msg (Z.of_nat (k * Pos.to_nat w)) (length (batch docs w k)));
                            EvEmbedRequest (map page_content (batch docs w k))].
Proof.
  intros Hacc Hapi. unfold ingest_step.
  rewrite py_slice_nonneg by lia.
  replace (Z.to_nat (Z.of_nat (k * Pos.to_nat w) + Z.pos w - Z.of_nat (k * Pos.to_nat w)))
    with (Pos.to_nat w) by lia.
  rewrite Nat2Z.id. fold (batch docs w k).
  erewrite bind_Ok by apply print_run.
  destruct (store_batch_err (batch docs w k) acc e
              (log_event (EvPrint (batch_msg (Z.of_nat (k * Pos.to_nat w))
                                     (length (batch docs w k)))) w0))
    as (W' & Hrun & Hdocs & Hlog); [done|exact Hapi|].
  erewrite bind_Err by exact Hrun. exists W'. split; [done|].
  rewrite Hdocs, Hlog. simpl. by rewrite <- app_assoc.
Qed.

End Runs.

(** The loop's range, [range(0, n, w)], enumerates the batch offsets. *)
Lemma range_batches n w :
  range_up 0 (Z.of_nat n) w = map (fun k => Z.of_nat (k * Pos.to_nat w)) (seq 0 (batch_count n w)).
Proof. rewrite range_up_spec. unfold batch_count. rewrite Z.sub_0_r. apply map_ext. intros k. lia. Qed.

Lemma batch_count_pos n w : 0 < n -> 0 < batch_count n w.
Proof. intros Hn. rewrite batch_count_step by done. lia. Qed.

Lemma ingest_log_batches docs w :
  ingest_log docs w =
  EvPrint (total_msg (length docs)) ::
    concat (map (fun k => batch_events (length docs) w k (batch docs w k))
                (seq 0 (batch_count (length docs) w))).
Proof. unfold ingest_log. by rewrite chunks_spec, imap_map_seq. Qed.

(** ** The ingestion run *)

Section Ingestion_Theorems.
Context `{OpenAIBackend}.
Variable env : environ.
Hypothesis Hkey : api_key_set env = true.

(** A run with a positive batch size whose embedding requests succeed:
    its log is [ingest_log], it stores every document after what "./db"
    held, it issues one request per batch, and it keeps the invariant. *)
Lemma create_vector_store_effect docs w w0 :
  world_wf w0 ->
  embeds_ok_below (w_requests w0 + length (chunks w docs)) ->
  exists w1,
    create_vector_store env docs (Z.pos w) w0
      = (Ok (if docs is [] then None else Some (mkChroma "./db")), w1) /\
    w_log w1 = w_log w0 ++ ingest_log docs w /\
    stored_docs w1 "./db" = stored_docs w0 "./db" ++ docs /\
    w_requests w1 = w_requests w0 + length (chunks w docs) /\
    world_wf w1.
Proof.
  intros Hwf Hok. rewrite length_chunks in *. unfold create_vector_store.
  erewrite bind_Ok by apply print_run. cbv beta.
  erewrite bind_Ok by reflexivity. cbv beta. rewrite range_batches.
  destruct (ingest_loop env Hkey docs w 0 (batch_count (length docs) w) None
              (log_event (EvPrint (total_msg (length docs))) w0)
              (w_requests w0 + batch_count (length docs) w))
    as (w1 & Hrun & Hlog & Hdocs & Hreq & Hwf1); [auto with py|auto|done|simpl; lia|].
  exists w1. rewrite Hrun, Hlog, Hdocs, Hreq, ingest_log_batches, concat_batches
    by (pose proof (batch_count_bounds (length docs) w); lia).
  split_and!; [| simpl; by rewrite <- app_assoc | done | done | done].
  destruct docs as [|d docs]; [by rewrite batch_count_zero|].
  pose proof (batch_count_pos (length (d :: docs)) w ltac:(simpl; lia)).
  by destruct (batch_count (length (d :: docs)) w); [lia|].
Qed.

(** ** Projections of the log *)

Lemma omap_concat_map {A B C} (f : B -> option C) (g : A -> list B) (l : list A) :
  omap f (concat (map g l)) = concat (map (fun x => omap f (g x)) l).
Proof. induction l as [|x l IH]; simpl; [done|]. by rewrite omap_app, IH. Qed.

Lemma embed_requests_ingest_log docs w :
  embed_requests (ingest_log docs w) = map (map page_content) (chunks w docs).
Proof.
  rewrite ingest_log_batches, chunks_spec. unfold embed_requests. simpl.
  rewrite omap_concat_map, map_map.
  rewrite (map_ext _ (fun k => [map page_content (batch docs w k)])).
  - induction (seq 0 (batch_count (length docs) w)); simpl; by f_equal.
  - intros k. unfold batch_events. by case_decide.
Qed.

Lemma sleeps_ingest_log docs w :
  docs <> [] -> sleeps (ingest_log docs w) = replicate (batch_count (length docs) w - 1) 61%Z.
Proof.
  intros Hne. assert (0 < length docs) by (destruct docs; simpl; [done|lia]).
  pose proof (batch_count_pos (length docs) w H0) as Hpos.
  pose proof (batch_count_bounds (length docs) w) as Hb.
  rewrite ingest_log_batches. unfold sleeps. simpl. rewrite omap_concat_map.
  replace (batch_count (length docs) w) with (S (batch_count (length docs) w - 1)) at 1 by lia.
  rewrite seq_S, map_app, concat_app. simpl.
  rewrite decide_False by nia. simpl. rewrite app_nil_r.
  rewrite (map_ext_in _ (fun _ => [61%Z])).
  - rewrite concat_map_singleton, length_seq. done.
  - intros k Hk. apply in_seq in Hk. rewrite decide_True by nia. done.
Qed.

Lemma embed_requests_app l1 l2 : embed_requests (l1 ++ l2) = embed_requests l1 ++ embed_requests l2.
Proof. apply omap_app. Qed.

Lemma sleeps_app l1 l2 : sleeps (l1 ++ l2) = sleeps l1 ++ sleeps l2.
Proof. apply omap_app. Qed.

(** C1: the loop of [create_vector_store] refines the batch specification:
    with a positive batch size and successful embedding requests, the run
    prints the total, then for every batch of [chunks] its progress line,
    makes one embedding request for exactly that batch, and prints a wait
    and sleeps 61 seconds unless it is the last batch; it returns the
    store "./db", or [None] when there is no document. *)
Theorem create_vector_store_log docs w w0 :
  world_wf w0 ->
  embeds_ok_below (w_requests w0 + length (chunks w docs)) ->
  fst (create_vector_store env docs (Z.pos w) w0)
    = Ok (if docs is [] then None else Some (mkChroma "./db")) /\
  w_log (snd (create_vector_store env docs (Z.pos w) w0)) = w_log w0 ++ ingest_log docs w.
Proof.
  intros Hwf Hok.
  destruct (create_vector_store_effect docs w w0 Hwf Hok) as (w1 & -> & Hlog & _). auto.
Qed.

(** C2: a successful run stores every document in "./db", in order, after
    the records already there, keeps the store invariant, and costs one
    embedding request per batch. *)
Theorem create_vector_store_stores docs w w0 :
  world_wf w0 ->
  embeds_ok_below (w_requests w0 + length (chunks w docs)) ->
  stored_docs (snd (create_vector_store env docs (Z.pos w) w0)) "./db" = stored_docs w0 "./db" ++ docs /\
  w_requests (snd (create_vector_store env docs (Z.pos w) w0)) = w_requests w0 + length (chunks w docs) /\
  world_wf (snd (create_vector_store env docs (Z.pos w) w0)).
Proof.
  intros Hwf Hok.
  destruct (create_vector_store_effect docs w w0 Hwf Hok) as (w1 & -> & _ & Hdocs & Hreq & Hwf1).
  auto.
Qed.

(** C5: for [n > 0] documents and batch size [w], a run issues
    [ceil(n / w)] embedding requests and sleeps [ceil(n / w) - 1] times,
    61 seconds each. *)
Theorem create_vector_store_counts docs w w0 :
  docs <> [] -> world_wf w0 ->
  embeds_ok_below (w_requests w0 + length (chunks w docs)) ->
  length (embed_requests (w_log (snd (create_vector_store env docs (Z.pos w) w0))))
    = length (embed_requests (w_log w0)) + Z.to_nat (ceil_div (Z.of_nat (length docs)) w) /\
  sleeps (w_log (snd (create_vector_store env docs (Z.pos w) w0)))
    = sleeps (w_log w0) ++ replicate (Z.to_nat (ceil_div (Z.of_nat (length docs)) w) - 1) 61%Z.
Proof.
  intros Hne Hwf Hok.
  destruct (create_vector_store_effect docs w w0 Hwf Hok) as (w1 & -> & Hlog & _). simpl.
  rewrite Hlog, embed_requests_app, sleeps_app, length_app, embed_requests_ingest_log,
    sleeps_ingest_log, length_map, length_chunks by done.
  done.
Qed.

(** C6: every embedding request of a run carries between 1 and [w] texts,
    every request but the last exactly [w], and the requests, in order,
    carry the texts of the documents in order. *)
Theorem create_vector_store_request_batches docs w w0 :
  world_wf w0 ->
  embeds_ok_below (w_requests w0 + length (chunks w docs)) ->
  exists reqs,
    embed_requests (w_log (snd (create_vector_store env docs (Z.pos w) w0)))
      = embed_requests (w_log w0) ++ reqs /\
    concat reqs = map page_content docs /\
    Forall (fun t => 0 < length t <= Pos.to_nat w) reqs /\
    (forall k t, reqs !! k = Some t -> S k < length reqs -> length t = Pos.to_nat w).
Proof.
  intros Hwf Hok.
  destruct (create_vector_store_effect docs w w0 Hwf Hok) as (w1 & -> & Hlog & _). simpl.
  exists (map (map page_content) (chunks w docs)).
  rewrite Hlog, embed_requests_app, embed_requests_ingest_log. split_and!; [done| | |].
  - by rewrite <- concat_map, concat_chunks.
  - apply Forall_map. eapply Forall_impl; [apply chunks_sizes|]. intros b. simpl.
    by rewrite length_map.
  - intros k t Hk Hlt. rewrite lookup_map in Hk.
    destruct (chunks w docs !! k) as [b|] eqn:Hb; [|done]. injection Hk as <-.
    rewrite length_map in *. by apply (chunks_full docs w k b).
Qed.

(** C7: a batch size of zero makes [range] raise [ValueError] after the
    total has been printed; nothing is embedded or stored. *)
Theorem create_vector_store_zero_batch docs w0 :
  create_vector_store env docs 0 w0 =
  (Err (ValueError "range() arg 3 must not be zero"),
   log_event (EvPrint (total_msg (length docs))) w0).
Proof. reflexivity. Qed.

(** C8: re-running the ingestion on the same documents does not upsert
    them: every record gets a fresh uuid, so "./db" holds every document
    twice. *)
Theorem create_vector_store_twice docs w w0 :
  world_wf w0 ->
  embeds_ok_below (w_requests w0 + 2 * length (chunks w docs)) ->
  stored_docs (snd ((create_vector_store env docs (Z.pos w) ;; create_vector_store env docs (Z.pos w)) w0)) "./db"
    = stored_docs w0 "./db" ++ docs ++ docs.
Proof.
  intros Hwf Hok.
  destruct (create_vector_store_effect docs w w0 Hwf) as (w1 & Hrun1 & _ & Hdocs1 & Hreq1 & Hwf1).
  { intros r t Hr. apply Hok. lia. }
  destruct (create_vector_store_effect docs w w1 Hwf1) as (w2 & Hrun2 & _ & Hdocs2 & _).
  { intros r t Hr. apply Hok. lia. }
  erewrite bind_Ok by exact Hrun1. rewrite Hrun2. simpl. by rewrite Hdocs2, Hdocs1, <- app_assoc.
Qed.

(** C9: when the embedding request of batch [k] fails (the earlier ones
    succeeding), the run raises that error right after the request: "./db"
    holds exactly the first [k * w] documents in addition to what it held,
    the [k] completed batches were each followed by a 61-second sleep, and
    the last lines of the log are the progress line of batch [k] and its
    request, the only place where the failed range appears. *)
Theorem create_vector_store_embed_failure docs w w0 k e :
  world_wf w0 -> k < length (chunks w docs) ->
  embeds_ok_below (w_requests w0 + k) ->
  embed_api (w_requests w0 + k) (map page_content (batch docs w k)) = Err e ->
  fst (create_vector_store env docs (Z.pos w) w0) = Err e /\
  stored_docs (snd (create_vector_store env docs (Z.pos w) w0)) "./db"
    = stored_docs w0 "./db" ++ take (k * Pos.to_nat w) docs /\
  sleeps (w_log (snd (create_vector_store env docs (Z.pos w) w0)))
    = sleeps (w_log w0) ++ replicate k 61%Z /\
  exists pre, w_log (snd (create_vector_store env docs (Z.pos w) w0)) =
    pre ++ [EvPrint (batch_msg (Z.of_nat (k * Pos.to_nat w)) (length (batch docs w k)));
            EvEmbedRequest (map page_content (batch docs w k))].
Proof.
  intros Hwf Hk Hok Hapi. rewrite length_chunks in Hk.
  pose proof (batch_count_bounds (length docs) w) as Hb.
  unfold create_vector_store.
  erewrite bind_Ok by apply print_run. cbv beta.
  erewrite bind_Ok by reflexivity. cbv beta. rewrite range_batches.
  replace (batch_count (length docs) w) with (k + S (batch_count (length docs) w - S k)) by lia.
  rewrite seq_app, map_app, py_for_app.
  destruct (ingest_loop env Hkey docs w 0 k None (log_event (EvPrint (total_msg (length docs))) w0)
              (w_requests w0 + k))
    as (w1 & Hrun & Hlog & Hdocs & Hreq & Hwf1); [auto with py|auto|done|simpl; lia|].
  erewrite bind_Ok by exact Hrun. simpl (seq (0 + k) _). cbn [map py_for].
  destruct (ingest_step_err env Hkey docs w k (if k is 0 then None else Some (mkChroma "./db")) e w1)
    as (w2 & Hrun2 & Hdocs2 & Hlog2); [by destruct k; auto|rewrite Hreq; exact Hapi|].
  erewrite bind_Err by exact Hrun2. simpl.
  split_and!; [done| | |].
  - rewrite Hdocs2, Hdocs. f_equal.
    pose proof (concat_take_drop_seq docs (Pos.to_nat w) k 0) as Hc. simpl in Hc.
    unfold batch. by rewrite Hc.
  - assert (Hs : sleeps (concat (map (fun k' => batch_events (length docs) w k' (batch docs w k'))
                                      (seq 0 k))) = replicate k 61%Z).
    { unfold sleeps. rewrite omap_concat_map.
      rewrite (map_ext_in _ (fun _ => [61%Z])); [by rewrite concat_map_singleton, length_seq|].
      intros k' Hk'. apply in_seq in Hk'. unfold batch_events. simpl.
      rewrite decide_True by nia. done. }
    rewrite Hlog2, Hlog, !sleeps_app, Hs. simpl. rewrite sleeps_app. simpl. by rewrite !app_nil_r.
  - rewrite Hlog2. eexists. reflexivity.
Qed.

(** The loop runs once per batch, and there are at most as many batches
    as documents. *)
Lemma batch_count_le n w : batch_count n w <= n.
Proof. pose proof (batch_count_bounds n w). destruct (batch_count n w); nia. Qed.

Lemma embeds_ok_below_mono R R' : R <= R' -> embeds_ok_below R' -> embeds_ok_below R.
Proof. intros HR Hok r t Hr. apply Hok. lia. Qed.

(** The number of turns of the loop [for i in range(0, n, batch_size)]. *)
Definition loop_turns (n : nat) (batch_size : Z) : nat :=
  match batch_size with Zpos w => batch_count n w | _ => 0 end.

(** C28: the ingestion loop terminates for every non-zero batch size:
    when the next [len(_docs)] embedding requests succeed, the run returns
    a value after exactly [ceil(n / batch_size)] turns of the loop for a
    positive batch size, each making one request, and after none for a
    negative one, where [range(0, n, batch_size)] is empty: then only the
    total is printed and [None] is returned, nothing being stored. *)
Theorem create_vector_store_terminates docs (batch_size : Z) w0 :
  world_wf w0 -> embeds_ok_below (w_requests w0 + length docs) -> batch_size <> 0%Z ->
  exists vs,
    fst (create_vector_store env docs batch_size w0) = Ok vs /\
    length (embed_requests (w_log (snd (create_vector_store env docs batch_size w0))))
      = length (embed_requests (w_log w0)) + loop_turns (length docs) batch_size /\
    ((batch_size < 0)%Z -> vs = None /\
       snd (create_vector_store env docs batch_size w0) = log_event (EvPrint (total_msg (length docs))) w0).
Proof.
  intros Hwf Hok Hb. destruct batch_size as [|w|p]; [done| |].
  - pose proof (batch_count_le (length docs) w).
    destruct (create_vector_store_effect docs w w0 Hwf) as (w1 & -> & Hlog & _).
    { eapply embeds_ok_below_mono; [|exact Hok]. rewrite length_chunks. lia. }
    eexists. split; [reflexivity|]. split; [|lia].
    simpl. rewrite Hlog, embed_requests_app, length_app, embed_requests_ingest_log, length_map,
      length_chunks. done.
  - unfold create_vector_store. erewrite bind_Ok by apply print_run. cbv beta.
    cbn [py_range lift]. rewrite range_down_empty by lia.
    eexists. split; [reflexivity|]. split; [|done].
    simpl. unfold embed_requests. rewrite omap_app. simpl. rewrite app_nil_r. lia.
Qed.

End Ingestion_Theorems.

Section MissingKey.
Context `{OpenAIBackend}.
Variable env : environ.
(** The environment has no usable OpenAI key. *)
Hypothesis Hnokey : api_key_set env = false.

(** C34: without an OpenAI key the ingestion fails at its first batch:
    the script prints the total and the progress line of the first batch,
    then constructing [OpenAIEmbeddings] for [Chroma.from_documents]
    raises [ValueError]; no request is made and "./db" is untouched.  With
    no documents the client is never constructed and the run returns
    [None]. *)
Theorem create_vector_store_missing_key docs w w0 :
  create_vector_store env docs (Z.pos w) w0 =
  if docs is [] then (Ok None, log_event (EvPrint (total_msg 0)) w0)
  else (Err missing_key_error,
        log_event (EvPrint (batch_msg 0 (length (batch docs w 0))))
          (log_event (EvPrint (total_msg (length docs))) w0)).
Proof.
  unfold create_vector_store. erewrite bind_Ok by apply print_run. cbv beta.
  erewrite bind_Ok by reflexivity. cbv beta. rewrite range_batches.
  destruct docs as [|d docs']; [by rewrite batch_count_zero|].
  pose proof (batch_count_pos (length (d :: docs')) w ltac:(simpl; lia)).
  destruct (batch_count (length (d :: docs')) w) as [|k]; [lia|]. cbn [seq map py_for].
  set (W := log_event (EvPrint (total_msg (length (d :: docs')))) w0).
  assert (Hstep : ingest_step env (d :: docs') (Z.pos w) (Z.of_nat (0 * Pos.to_nat w)) None W =
                  (Err missing_key_error, log_event (EvPrint (batch_msg 0 (length (batch (d :: docs') w 0)))) W)).
  { unfold ingest_step. rewrite py_slice_nonneg by lia.
    replace (Z.to_nat (Z.of_nat (0 * Pos.to_nat w) + Z.pos w - Z.of_nat (0 * Pos.to_nat w)))
      with (Pos.to_nat w) by lia.
    rewrite Nat2Z.id. fold (batch (d :: docs') w 0).
    erewrite bind_Ok by apply print_run. cbv beta.
    cbn [store_batch]. erewrite bind_Err; [reflexivity|].
    erewrite bind_Err by (by apply embeddings_client_missing). reflexivity. }
  erewrite bind_Err by exact Hstep. reflexivity.
Qed.

End MissingKey.

(** ** Worked examples *)

Lemma embeds_ok_length R : @embeds_ok_below length_backend R.
Proof. intros r t _. eexists. split; [reflexivity|apply length_length_embedding]. Qed.

Lemma embeds_ok_failing r : @embeds_ok_below (failing_backend r) r.
Proof.
  intros n t Hn. simpl. rewrite decide_False by lia.
  eexists. split; [reflexivity|apply length_length_embedding].
Qed.

(** Five documents, ingested two at a time. *)
Definition sample_docs : list document := map sample_doc (seq 0 5).

Lemma create_vector_store_log_witness :
  world_wf empty_world /\
  @embeds_ok_below length_backend (w_requests empty_world + length (chunks 2 sample_docs)) /\
  fst (@create_vector_store length_backend sample_env sample_docs 2 empty_world)
    = Ok (if sample_docs is [] then None else Some (mkChroma "./db")) /\
  w_log (snd (@create_vector_store length_backend sample_env sample_docs 2 empty_world))
    = w_log empty_world ++ ingest_log sample_docs 2.
Proof.
  split; [apply empty_world_wf|]. split; [apply embeds_ok_length|].
  apply (@create_vector_store_log length_backend sample_env sample_env_key sample_docs 2 empty_world);
    [apply empty_world_wf|apply embeds_ok_length].
Defined.

Lemma create_vector_store_stores_witness :
  world_wf empty_world /\
  @embeds_ok_below length_backend (w_requests empty_world + length (chunks 2 sample_docs)) /\
  stored_docs (snd (@create_vector_store length_backend sample_env sample_docs 2 empty_world)) "./db"
    = stored_docs empty_world "./db" ++ sample_docs /\
  w_requests (snd (@create_vector_store length_backend sample_env sample_docs 2 empty_world))
    = w_requests empty_world + length (chunks 2 sample_docs) /\
  world_wf (snd (@create_vector_store length_backend sample_env sample_docs 2 empty_world)).
Proof.
  split; [apply empty_world_wf|]. split; [apply embeds_ok_length|].
  apply (@create_vector_store_stores length_backend sample_env sample_env_key sample_docs 2 empty_world);
    [apply empty_world_wf|apply embeds_ok_length].
Defined.

Lemma create_vector_store_counts_witness :
  sample_docs <> [] /\ world_wf empty_world /\
  @embeds_ok_below length_backend (w_requests empty_world + length (chunks 2 sample_docs)) /\
  length (embed_requests (w_log (snd (@create_vector_store length_backend sample_env sample_docs 2 empty_world))))
    = length (embed_requests (w_log empty_world))
      + Z.to_nat (ceil_div (Z.of_nat (length sample_docs)) 2) /\
  sleeps (w_log (snd (@create_vector_store length_backend sample_env sample_docs 2 empty_world)))
    = sleeps (w_log empty_world)
      ++ replicate (Z.to_nat (ceil_div (Z.of_nat (length sample_docs)) 2) - 1) 61%Z.
Proof.
  split; [discriminate|]. split; [apply empty_world_wf|]. split; [apply embeds_ok_length|].
  apply (@create_vector_store_counts length_backend sample_env sample_env_key sample_docs 2 empty_world);
    [discriminate|apply empty_world_wf|apply embeds_ok_length].
Defined.

Lemma create_vector_store_request_batches_witness :
  world_wf empty_world /\
  @embeds_ok_below length_backend (w_requests empty_world + length (chunks 2 sample_docs)) /\
  exists reqs,
    embed_requests (w_log (snd (@create_vector_store length_backend sample_env sample_docs 2 empty_world)))
      = embed_requests (w_log empty_world) ++ reqs /\
    concat reqs = map page_content sample_docs /\
    Forall (fun t => 0 < length t <= Pos.to_nat 2) reqs /\
    (forall k t, reqs !! k = Some t -> S k < length reqs -> length t = Pos.to_nat 2).
Proof.
  split; [apply empty_world_wf|]. split; [apply embeds_ok_length|].
  apply (@create_vector_store_request_batches length_backend sample_env sample_env_key sample_docs 2 empty_world);
    [apply empty_world_wf|apply embeds_ok_length].
Defined.

Lemma create_vector_store_twice_witness :
  world_wf empty_world /\
  @embeds_ok_below length_backend (w_requests empty_world + 2 * length (chunks 2 sample_docs)) /\
  stored_docs (snd ((@create_vector_store length_backend sample_env sample_docs 2 ;;
                     @create_vector_store length_backend sample_env sample_docs 2) empty_world)) "./db"
    = stored_docs empty_world "./db" ++ sample_docs ++ sample_docs.
Proof.
  split; [apply empty_world_wf|]. split; [apply embeds_ok_length|].
  apply (@create_vector_store_twice length_backend sample_env sample_env_key sample_docs 2 empty_world);
    [apply empty_world_wf|apply embeds_ok_length].
Defined.

(** The second of three requests fails: the first two documents are
    stored, one sleep happened. *)
Lemma create_vector_store_embed_failure_witness :
  world_wf empty_world /\ 1 < length (chunks 2 sample_docs) /\
  @embeds_ok_below (failing_backend 1) (w_requests empty_world + 1) /\
  @embed_api (failing_backend 1) (w_requests empty_world + 1)
    (map page_content (batch sample_docs 2 1)) = Err (APIError "RateLimitError") /\
  fst (@create_vector_store (failing_backend 1) sample_env sample_docs 2 empty_world)
    = Err (APIError "RateLimitError") /\
  stored_docs (snd (@create_vector_store (failing_backend 1) sample_env sample_docs 2 empty_world)) "./db"
    = stored_docs empty_world "./db" ++ take (1 * Pos.to_nat 2) sample_docs /\
  sleeps (w_log (snd (@create_vector_store (failing_backend 1) sample_env sample_docs 2 empty_world)))
    = sleeps (w_log empty_world) ++ replicate 1 61%Z /\
  exists pre, w_log (snd (@create_vector_store (failing_backend 1) sample_env sample_docs 2 empty_world)) =
    pre ++ [EvPrint (batch_msg (Z.of_nat (1 * Pos.to_nat 2)) (length (batch sample_docs 2 1)));
            EvEmbedRequest (map page_content (batch sample_docs 2 1))].
Proof.
  split; [apply empty_world_wf|]. split; [vm_compute; lia|].
  split; [apply embeds_ok_failing|]. split; [reflexivity|].
  apply (@create_vector_store_embed_failure (failing_backend 1) sample_env sample_env_key sample_docs 2 empty_world 1);
    [apply empty_world_wf|vm_compute; lia|apply embeds_ok_failing|reflexivity].
Defined.

(** Seven documents: three turns of two, or none for a batch size of -2. *)
Lemma create_vector_store_terminates_witness :
  world_wf empty_world /\
  @embeds_ok_below length_backend (w_requests empty_world + length (map sample_doc (seq 0 7))) /\
  (-2)%Z <> 0%Z /\
  exists vs,
    fst (@create_vector_store length_backend sample_env (map sample_doc (seq 0 7)) (-2) empty_world) = Ok vs /\
    length (embed_requests (w_log (snd (@create_vector_store length_backend sample_env (map sample_doc (seq 0 7)) (-2) empty_world))))
      = length (embed_requests (w_log empty_world)) + loop_turns 7 (-2) /\
    ((-2 < 0)%Z -> vs = None /\
       snd (@create_vector_store length_backend sample_env (map sample_doc (seq 0 7)) (-2) empty_world)
         = log_event (EvPrint (total_msg 7)) empty_world).
Proof.
  split; [apply empty_world_wf|]. split; [apply embeds_ok_length|]. split; [lia|].
  apply (@create_vector_store_terminates length_backend sample_env sample_env_key (map sample_doc (seq 0 7)) (-2) empty_world);
    [apply empty_world_wf|apply embeds_ok_length|lia].
Defined.

(** Witness of C34: the five sample documents with an empty key. *)
Lemma create_vector_store_missing_key_witness :
  api_key_set empty_key_env = false /\
  @create_vector_store length_backend empty_key_env sample_docs 2 empty_world =
  (Err missing_key_error,
   log_event (EvPrint (batch_msg 0 (length (batch sample_docs 2 0))))
     (log_event (EvPrint (total_msg 5)) empty_world)).
Proof.
  split; [reflexivity|].
  rewrite (@create_vector_store_missing_key length_backend empty_key_env ltac:(vm_compute; reflexivity) sample_docs 2 empty_world).
  reflexivity.
Defined.

(** Witness of C38: a header of two names, a short row and a long row. *)
Lemma csv_loader_row_text_witness :
  csv_loader "f.csv" ["a"; "b"] [["1"]; [" 1"; "2"; "3 "; "4"]] !! 0 = Some (mkDocument "a: 1
b: None" "f.csv" 0) /\
  csv_loader "f.csv" ["a"; "b"] [["1"]; [" 1"; "2"; "3 "; "4"]] !! 1 = Some (mkDocument "a: 1
b: 2
None: 3,4" "f.csv" 1).
Proof.
  assert (Hnd : NoDup ["a"; "b"]) by decide_by_eval.
  split.
  - rewrite (csv_loader_row_text "f.csv" ["a"; "b"] [["1"]; [" 1"; "2"; "3 "; "4"]] 0 ["1"] Hnd eq_refl). vm_compute. reflexivity.
  - rewrite (csv_loader_row_text "f.csv" ["a"; "b"] [["1"]; [" 1"; "2"; "3 "; "4"]] 1 [" 1"; "2"; "3 "; "4"] Hnd eq_refl).
    vm_compute. reflexivity.
Defined.
