(* ===== verification/Prompts.v ===== *)
(** * The prompts of main.py and Python's string formatting

    [initialize_components] builds two prompts.  The rewriting prompt is a
    Python string formatted once with [.format(today=today)], [today]
    being [datetime.today().strftime('%Y-%m-%d')]; the answering prompt
    keeps the f-string variable [{context}], which LangChain's
    [ChatPromptTemplate] fills with the retrieved documents at every
    question.  Both use the replacement-field syntax of Python's
    [string.Formatter], modelled here by [parse_format] (["{{"] and ["}}"]
    escape a brace, ["{name}"] is a field, a lone brace is a
    [ValueError]) and [render] (a missing field is a [KeyError], each
    field being looked up as soon as the lazy parser reads it).

    The prompt texts are the source's string literals, byte for byte; a
    double quote of the source is the string [dq].  The theorems: the
    formatted rewriting prompt is the fixed text with the date in its two
    places and no field left, whatever the date ([strftime_ymd] never
    produces a brace), and the answering prompt has the single field
    [context]. *)

From Stdlib Require Import Ascii.
From S2P Require Import Prelude.

(** ** Replacement fields *)

Inductive segment : Type :=
| Lit (s : string)
| Field (name : string).

Definition is_lbrace (c : ascii) : bool := bool_decide (c = "{"%char).
Definition is_rbrace (c : ascii) : bool := bool_decide (c = "}"%char).

Definition str_of (cs : list ascii) : string := String.string_of_list_ascii cs.

(** [string.Formatter().parse] and the parser of [str.format], which
    read the template lazily: [fmt_go] returns the segments read before
    the parser stopped and the error that stopped it, if any.  [acc] is
    the reversed text read since the last segment and [in_field] tells
    whether a field is open.  Format specs and conversions ([:] and [!])
    and attribute or index access in field names are not modelled: the
    templates of main.py have none. *)
Fixpoint fmt_go (cs : list ascii) (in_field : bool) (acc : list ascii) : list segment * option exn :=
  match cs with
  | [] =>
      if in_field then ([], Some (ValueError "expected '}' before end of string"))
      else ([Lit (str_of (rev acc))], None)
  | c :: cs' =>
      if in_field then
        if is_rbrace c then
          let '(segs, e) := fmt_go cs' false [] in (Field (str_of (rev acc)) :: segs, e)
        else if is_lbrace c then ([], Some (ValueError "unexpected '{' in field name"))
        else fmt_go cs' true (c :: acc)
      else if is_lbrace c then
        match cs' with
        | c2 :: cs'' =>
            if is_lbrace c2 then fmt_go cs'' false (c :: acc)
            else let '(segs, e) := fmt_go cs' true [] in (Lit (str_of (rev acc)) :: segs, e)
        | [] => ([], Some (ValueError "Single '{' encountered in format string"))
        end
      else if is_rbrace c then
        match cs' with
        | c2 :: cs'' =>
            if is_rbrace c2 then fmt_go cs'' false (c :: acc)
            else ([], Some (ValueError "Single '}' encountered in format string"))
        | [] => ([], Some (ValueError "Single '}' encountered in format string"))
        end
      else fmt_go cs' false (c :: acc)
  end.

Definition parse_format (s : string) : list segment * option exn :=
  fmt_go (String.list_ascii_of_string s) false [].

(** A field name that is empty or starts with a digit is a positional
    argument; [.format] is only called with keyword arguments. *)
Definition lookup_field (env : string -> option string) (n : string) : outcome string :=
  match n with
  | EmptyString => Err (IndexError "Replacement index 0 out of range for positional args tuple")
  | String c _ =>
      if bool_decide (c ∈ ["0"; "1"; "2"; "3"; "4"; "5"; "6"; "7"; "8"; "9"]%char)
      then Err (IndexError "Replacement index out of range for positional args tuple")
      else match env n with Some v => Ok v | None => Err (KeyError n) end
  end.

(** Substitution of the fields, left to right, each field looked up as
    soon as it is read; the parser's error, if any, comes after the
    segments read before it. *)
Fixpoint render (segs : list segment) (env : string -> option string) (stop : option exn) : outcome string :=
  match segs with
  | [] => match stop with Some e => Err e | None => Ok EmptyString end
  | Lit s :: segs' =>
      match render segs' env stop with Ok r => Ok (s +:+ r) | Err e => Err e end
  | Field n :: segs' =>
      match lookup_field env n with
      | Err e => Err e
      | Ok v => match render segs' env stop with Ok r => Ok (v +:+ r) | Err e => Err e end
      end
  end.

(** [template.format(...)] with the keyword arguments [env]. *)
Definition py_format (template : string) (env : string -> option string) : outcome string :=
  let '(segs, stop) := parse_format template in render segs env stop.

(** The input variables LangChain reads off an f-string template, as a
    list (LangChain keeps a sorted set; only membership is used). *)
Definition template_variables (template : string) : outcome (list string) :=
  match parse_format template with
  | (segs, None) => Ok (omap (fun sg => match sg with Field n => Some n | Lit _ => None end) segs)
  | (_, Some e) => Err e
  end.

(** The environment of a single keyword argument. *)
Definition kwarg (k v : string) : string -> option string :=
  fun n => if decide (n = k) then Some v else None.

(** ** The prompt texts *)

Definition dq : string := String "034" EmptyString.

(** The system message of [contextualize_q_prompt], before
    [.format(today=today)]. *)
Definition contextualize_q_template : string :=
"
    #역할:
    채팅 기록과 질문을 토대로 대화 내역 없이도 이해할 수 있는 독립적인 질문을 생성하는 봇
    
    #지시사항:
    대화 내역과 최신 사용자 질문을 참고하여 질문 작성
    질문에 답변하지 말고, 필요하면 질문을 재구성한 후 그대로 반환
    '오늘', '이번 달', '지금', '이번주'과 같은 상대적인 날짜가 있다면, '오늘'을 기준으로 변경
    질문에 날짜가 언급되지 않았다면, '오늘'을 기준으로 최대 2달 전까지를 문의하세요.
    
    #오늘: {today}
    
    #예시1
    채팅기록:
    - 사용자: " +:+
dq +:+
"2024년 10월 평창 여행지원금에 대해 알려줘" +:+
dq +:+
"
    - 어시스턴트: " +:+
dq +:+
"A, B, C 프로그램이 있습니다." +:+
dq +:+
"
    - 사용자 : " +:+
dq +:+
"그 중에서 아이와 함께 할 수 있는 프로그램이 뭐야?" +:+
dq +:+
"
    
    답변: " +:+
dq +:+
"A, B, C 프로그램 중에서 아이와 함께 할 수 있는 프로그램은 무엇인가요?" +:+
dq +:+
"
    
    #예시2
    채팅기록:
    - 사용자: " +:+
dq +:+
"전라도 여행지원금에 대해 알려줘" +:+
dq +:+
"
    
    답변: " +:+
dq +:+
"{today} 에 갈 수 있는 전라도 여행지원금에 대해 알려주세요." +:+
dq +:+
"    
    ".

(** The rewriting prompt after [.format(today=today)]. *)
Definition contextualize_q_system_prompt (today : string) : outcome string :=
  py_format contextualize_q_template (kwarg "today" today).

(** The system message template of [qa_prompt]. *)
Definition qa_system_prompt : string :=
"
    #역할:
    질문에 대해 여행지원금 프로그램을 찾아주는 봇
    
    #지시사항:
    - 답변은 아래의 '답변 형식'에 맞추어 작성하십시오. 단, 프로그램에 대해 설명해달라는 질문이 있을 경우, 답변 형식을 무시하고 해당 프로그램에 대한 설명을 해주십시오.
    - 다음의 참고할 프로그램 정보를 사용하여 질문에 답하십시오.
    - 질문과 주어진 context 의 지역(광역시/도, 시/군/구)이 다른 경우 질문의 답으로 사용하지 마십시오.
    - 지역이 명시되지 않은 경우 모든 context 를 질문의 답으로 활용하십시오. 
    - 대답은 한국어로 하고, 존댓말을 사용하십시오.
    - 질문에 대한 답변이 있다면 답변의 마지막에 '자세한 사항은 링크를 통해 확인하세요' 문구와 이모지를 추가하세요.
    - 질문에 대한 답변이 없다면 답변의 마지막에 링크를 추가하지 마세요.
    
    #제약:
    - 특정 날짜가 나오면 활동 시작 시간 ~ 활동 종료 시간으로 판단하십시오.
    - '답변 형식1'은 최대 3개 프로그램으로 작성하십시오.
    - 연관된 프로그램이 2개 이상이라면 2개 이상 모두 작성하십시오.
    - 프로그램의 세부사항이 다르다면 해당 프로그램을 답변으로 사용하지 마십시오. 예를 들어서 아이와 갈 수 있는 프로그램을 물어봤을 때 '아이 동반 여부'는 가능이여야 합니다.
    - 알맞은 프로그램이 없는 경우, 해당하는 프로그램이 없다고 답변하십시오.
    
    #주요 key 해석
    활동 시작 시간: 여행, 활동을 시작하는 날짜입니다.
    활동 종료 시간: 여행, 활동을 종료하는 날짜입니다.
    최대 활동(여행)일수: 여행, 활동을 최대로 할 수 있는 일수입니다.
    최소 활동(여행)일수: 여행, 활동을 최소로 할 수 있는 일수입니다.
    공고(지원) 마감 시간: 사용자가 프로그램에 지원하는 마감 시간입니다.
    공고(지원) 시작 시간: 사용자가 프로그램에 지원하는 시작 시간입니다.
    아이 동반 가능(아이 함께 가기): 아이와 함께 여행을 할 수 있는지 여부입니다.
    아이 지원금 지원 여부: 프로그램에서 아이에게 지원금을 지원하는지 여부입니다.
    반려동물 동반 가능 여부: 반려동물을 동반할 수 있는지 여부입니다.
    유료 프로그램 여부: 프로그램이 유료인지 여부입니다. 유료인 경우, 참가비가 필요합니다.
    선착순 여부: 프로그램을 지원할 때 선착순인지 확인합니다.
    전액 지원 여부: 프로그램을 전액 지원하는지 여부입니다. 지원금 높은 순을 질문할 때 항상 전액 지원이 우선합니다.
   
    #답변 형식:

    - 1번 프로그램

      - 프로그램 제목: 00 한달살기

      - 프로그램 내용: 00에서 한달살기를 하는 프로그램입니다. 숙박비가 지원됩니다.

      - 활동 시작 시간: 2024-01-26

      - 활동 종료 시간: 2024-02-10

      - 공고(지원) 시작 시간: 2024-01-01

      - 공고(지원) 마감 시간: 2024-01-10

      - 한달살러 링크: https://www.monthler.kr/programs/12

    ---

    - 2번 프로그램

      - 프로그램 제목: 2024 00 스탬프 투어

      - 프로그램 내용: 00에서 스탬프 투어를 하고 지원금을 받으세요.

      - 활동 시작 시간: 2024-03-01

      - 활동 종료 시간: 2024-04-20

      - 공고(지원) 시작 시간: 2024-02-01

      - 공고(지원) 마감 시간: 2024-02-15

      - 한달살러 링크: https://www.monthler.kr/programs/672

    ---

    - 3번 프로그램

      - 프로그램 제목: 00에서 캠핑하자

      - 프로그램 내용: 00에서 캠핑을 하고 지원금을 받으세요.

      - 활동 시작 시간: 2024-05-01

      - 활동 종료 시간: 2024-05-10

      - 공고(지원) 시작 시간: 2024-04-01

      - 공고(지원) 마감 시간: 2024-04-15

      - 한달살러 링크: https://www.monthler.kr/programs/45

   
    #참고할 프로그램 정보:
    {context}".

(** ** The date of a run *)

(** A [datetime.date]. *)
Record date := mkDate { d_year : Z; d_month : Z; d_day : Z }.

(** [%m] and [%d]: two digits, zero-padded. *)
Definition pad2 (n : Z) : string :=
  if decide (n < 10)%Z then "0" +:+ pretty n else pretty n.

(** [date.strftime('%Y-%m-%d')]; with glibc, [%Y] is the year's decimal
    digits without padding. *)
Definition strftime_ymd (d : date) : string :=
  pretty (d_year d) +:+ "-" +:+ pad2 (d_month d) +:+ "-" +:+ pad2 (d_day d).

(** ** Strings without replacement fields *)

Definition brace_free (s : string) : bool :=
  forallb (fun c => negb (is_lbrace c || is_rbrace c)) (String.list_ascii_of_string s).

Lemma brace_free_append (x y : string) :
  brace_free (x +:+ y) = brace_free x && brace_free y.
Proof. unfold brace_free. by rewrite list_ascii_of_string_append, forallb_app. Qed.

Lemma fmt_go_brace_free cs acc :
  forallb (fun c => negb (is_lbrace c || is_rbrace c)) cs = true ->
  fmt_go cs false acc = ([Lit (str_of (rev acc ++ cs))], None).
Proof.
  revert acc. induction cs as [|c cs IH]; intros acc Hfree; simpl in *.
  - by rewrite app_nil_r.
  - apply andb_prop in Hfree as [Hc Hcs].
    destruct (is_lbrace c), (is_rbrace c); try done.
    rewrite IH by done. simpl. by rewrite <- app_assoc.
Qed.

(** A string without braces parses as one literal: LangChain sees no
    input variable in it. *)
Lemma parse_brace_free s : brace_free s = true -> parse_format s = ([Lit s], None).
Proof.
  intros Hfree. unfold parse_format. rewrite fmt_go_brace_free by done.
  simpl. unfold str_of. by rewrite String.string_of_list_ascii_of_string.
Qed.

Lemma template_variables_brace_free s : brace_free s = true -> template_variables s = Ok [].
Proof. intros Hfree. unfold template_variables. by rewrite parse_brace_free. Qed.

Lemma brace_free_cons c s :
  brace_free (String c s) = negb (is_lbrace c || is_rbrace c) && brace_free s.
Proof. reflexivity. Qed.

Lemma brace_free_pretty_N_go x s : brace_free s = true -> brace_free (pretty_N_go x s) = true.
Proof.
  revert s. induction (N.lt_wf_0 x) as [x _ IH]; intros s Hs.
  destruct (decide (x = 0)%N) as [->|Hx]; [by rewrite pretty_N_go_0|].
  rewrite pretty_N_go_step by lia. apply IH; [apply N.div_lt; lia|].
  rewrite brace_free_cons, Hs, andb_true_r.
  unfold pretty_N_char. by repeat case_match.
Qed.

Lemma brace_free_pretty_N (x : N) : brace_free (pretty x) = true.
Proof. unfold pretty, pretty_N. case_decide; [done|]. by apply brace_free_pretty_N_go. Qed.

Lemma brace_free_pretty_Z (z : Z) : brace_free (pretty z) = true.
Proof.
  unfold pretty, pretty_Z. destruct z; [done|apply brace_free_pretty_N|].
  rewrite brace_free_append. apply brace_free_pretty_N.
Qed.

Lemma brace_free_pad2 n : brace_free (pad2 n) = true.
Proof. unfold pad2. case_decide; [rewrite brace_free_append|]; apply brace_free_pretty_Z. Qed.

(** The formatted date never holds a brace, whatever the date. *)
Lemma strftime_ymd_brace_free d : brace_free (strftime_ymd d) = true.
Proof.
  unfold strftime_ymd. rewrite !brace_free_append, brace_free_pretty_Z, !brace_free_pad2. done.
Qed.

(** The rewriting template splits into three fixed texts around its two
    [{today}] fields. *)
Lemma contextualize_q_template_parse :
  exists a b c,
    parse_format contextualize_q_template = ([Lit a; Field "today"; Lit b; Field "today"; Lit c], None) /\
    brace_free a = true /\ brace_free b = true /\ brace_free c = true.
Proof.
  do 3 eexists. split; [vm_compute; reflexivity|].
  split_and!; vm_compute; reflexivity.
Qed.

(** Formatting the rewriting template with a date. *)
Lemma contextualize_q_system_prompt_format :
  exists a b c,
    brace_free a = true /\ brace_free b = true /\ brace_free c = true /\
    forall today, contextualize_q_system_prompt today = Ok (a +:+ today +:+ b +:+ today +:+ c).
Proof.
  destruct contextualize_q_template_parse as (a & b & c & Hparse & Ha & Hb & Hc).
  exists a, b, c. split_and!; [done|done|done|]. intros today.
  unfold contextualize_q_system_prompt, py_format. rewrite Hparse. simpl.
  by rewrite string_append_empty_r.
Qed.

(** C10: formatting the rewriting prompt with a date puts the date in the
    two places of the template and changes nothing else, and when the
    date has no brace the result has no replacement field left, so the
    [ChatPromptTemplate] built on it reads only [history] and [input]. *)
Theorem contextualize_q_system_prompt_today :
  exists a b c,
    forall today,
      contextualize_q_system_prompt today = Ok (a +:+ today +:+ b +:+ today +:+ c) /\
      (brace_free today = true -> template_variables (a +:+ today +:+ b +:+ today +:+ c) = Ok []).
Proof.
  destruct contextualize_q_system_prompt_format as (a & b & c & Ha & Hb & Hc & Hfmt).
  exists a, b, c. intros today. split; [apply Hfmt|].
  intros Ht. apply template_variables_brace_free.
  by rewrite !brace_free_append, Ha, Hb, Hc, Ht.
Qed.

(** The answering template has the one field [context], which
    [create_stuff_documents_chain] requires. *)
Lemma qa_system_prompt_variables : template_variables qa_system_prompt = Ok ["context"].
Proof. vm_compute. reflexivity. Qed.

(** Witness of C10: the date of a run. *)
Lemma contextualize_q_system_prompt_today_witness :
  exists a b c,
    contextualize_q_system_prompt "2026-11-09" = Ok (a +:+ "2026-11-09" +:+ b +:+ "2026-11-09" +:+ c) /\
    template_variables (a +:+ "2026-11-09" +:+ b +:+ "2026-11-09" +:+ c) = Ok [].
Proof.
  destruct contextualize_q_system_prompt_today as (a & b & c & H).
  exists a, b, c. destruct (H "2026-11-09") as [H1 H2].
  split; [exact H1|apply H2; reflexivity].
Defined.
