(* ===== verification/Chain.v ===== *)
(** * The LangChain pipeline and the Streamlit script of main.py

    [initialize_components] assembles, with LangChain's constructors, a
    history-aware retriever (the rewriting prompt, the chat model and the
    [k = 5] retriever), a stuff-documents chain (the answering prompt and
    the chat model) and the retrieval chain that runs one after the other.
    The script wraps the chain in [RunnableWithMessageHistory], whose
    history is a [StreamlitChatMessageHistory] kept in the session state
    under "chat_messages", and answers the question typed in the chat
    input, once per run of the script.

    The runnables exchange Python dicts, modelled as [gmap string value];
    the library's behaviour is written out from its sources: the
    history-aware retriever rewrites the question only when the dict's
    ["chat_history"] entry is truthy, the retrieval chain adds ["context"]
    and ["answer"], the history wrapper adds ["history"] before the chain
    and appends the question and the answer to the history after it.  The
    state of a run ([app]) is the world of [OpenAI] (the Chroma store, the
    requests, the log), the session state and the messages written on the
    page. *)

From Stdlib Require Import Ascii.
From S2P Require Import Prelude OpenAI Store Prompts.

(** ** Dicts *)

Inductive value : Type :=
| VStr (s : string)
| VMsgs (ms : list message)
| VDocs (ds : list document).

Abbreviation dict := (gmap string value).

(** Python's truth value of a dict entry. *)
Definition truthy (v : value) : bool :=
  match v with
  | VStr s => bool_decide (s <> EmptyString)
  | VMsgs ms => bool_decide (ms <> [])
  | VDocs ds => bool_decide (ds <> [])
  end.

(** [bool(d.get(k, False))] *)
Definition get_flag (d : dict) (k : string) : bool :=
  match d !! k with Some v => truthy v | None => false end.

(** [d[k]], of the expected kind. *)
Definition get_str {S} (d : dict) (k : string) : PyM S string :=
  match d !! k with
  | Some (VStr s) => ret s
  | Some _ => raise (TypeError k)
  | None => raise (KeyError k)
  end.

Definition get_msgs {S} (d : dict) (k : string) : PyM S (list message) :=
  match d !! k with
  | Some (VMsgs ms) => ret ms
  | Some _ => raise (TypeError k)
  | None => raise (KeyError k)
  end.

Definition get_docs {S} (d : dict) (k : string) : PyM S (list document) :=
  match d !! k with
  | Some (VDocs ds) => ret ds
  | Some _ => raise (TypeError k)
  | None => raise (KeyError k)
  end.

(** ** Chat prompts *)

(** [ChatPromptTemplate.from_messages([("system", t), MessagesPlaceholder("history"),
    ("human", "{input}")])], the shape of both prompts of main.py. *)
Record chat_prompt := mkChatPrompt { system_template : string }.

(** Its input variables: those of the system template, then the
    placeholder's and the human message's. *)
Definition prompt_variables (p : chat_prompt) : outcome (list string) :=
  match template_variables (system_template p) with
  | Ok vs => Ok (vs ++ ["history"; "input"])
  | Err e => Err e
  end.

(** The string entries of a dict, as f-string arguments. *)
Definition str_env (d : dict) : string -> option string :=
  fun n => match d !! n with Some (VStr s) => Some s | _ => None end.

(** [prompt.invoke(x)]: the system message, the history, the question. *)
Definition prompt_invoke {S} (p : chat_prompt) (x : dict) : PyM S (list message) :=
  sys <- lift (py_format (system_template p) (str_env x)) ;;
  hist <- get_msgs x "history" ;;
  q <- get_str x "input" ;;
  ret (SystemMessage sys :: hist ++ [HumanMessage q]).

(** ** The chains *)

(** [create_stuff_documents_chain]'s [format_docs]: the documents' texts
    joined by a blank line. *)
Definition format_docs (ds : list document) : string :=
  String.concat (String "010"%char (String "010"%char EmptyString)) (map page_content ds).

Record rag_chain := mkRagChain {
  rc_retriever : retriever;
  rc_contextualize : chat_prompt;
  rc_qa : chat_prompt }.

(** The checks the two constructors make on their prompt. *)
Definition create_history_aware_retriever {S} (r : retriever) (p : chat_prompt) : PyM S unit :=
  vs <- lift (prompt_variables p) ;;
  if bool_decide ("input" ∈ vs) then ret tt
  else raise (ValueError "Expected `input` to be a prompt variable").

Definition create_stuff_documents_chain {S} (p : chat_prompt) : PyM S unit :=
  vs <- lift (prompt_variables p) ;;
  if bool_decide ("context" ∈ vs) then ret tt
  else raise (ValueError "Prompt must accept context as an input variable").

(** [initialize_components()], given the module-level retriever and the
    date of the run. *)
Definition initialize_components {S} (r : retriever) (now : date) : PyM S rag_chain :=
  let today := strftime_ymd now in
  ctx <- lift (contextualize_q_system_prompt today) ;;
  let contextualize_q_prompt := mkChatPrompt ctx in
  let qa_prompt := mkChatPrompt qa_system_prompt in
  create_history_aware_retriever r contextualize_q_prompt ;;
  create_stuff_documents_chain qa_prompt ;;
  ret (mkRagChain r contextualize_q_prompt qa_prompt).

Section Runnables.
Context `{OpenAIBackend}.

(** The history-aware retriever: without a truthy ["chat_history"] the
    question goes to the retriever as it is; otherwise the rewriting prompt
    and the chat model produce the query. *)
Definition history_aware_retriever_invoke (rc : rag_chain) (x : dict) : PyM world (list document) :=
  if negb (get_flag x "chat_history") then
    q <- get_str x "input" ;;
    retriever_invoke (rc_retriever rc) q
  else
    msgs <- prompt_invoke (rc_contextualize rc) x ;;
    q' <- chat_invoke msgs ;;
    retriever_invoke (rc_retriever rc) q'.

(** The stuff-documents chain: format the documents into ["context"], fill
    the answering prompt, ask the chat model. *)
Definition stuff_documents_invoke (rc : rag_chain) (x : dict) : PyM world string :=
  ds <- get_docs x "context" ;;
  msgs <- prompt_invoke (rc_qa rc) (<["context" := VStr (format_docs ds)]> x) ;;
  chat_invoke msgs.

(** [create_retrieval_chain]: [assign(context=...)] then [assign(answer=...)]. *)
Definition retrieval_chain_invoke (rc : rag_chain) (x : dict) : PyM world dict :=
  ds <- history_aware_retriever_invoke rc x ;;
  let x1 := <["context" := VDocs ds]> x in
  ans <- stuff_documents_invoke rc x1 ;;
  ret (<["answer" := VStr ans]> x1).

End Runnables.

(** ** The session state and a run of the script *)

Record app := mkApp {
  app_world : world;
  session_state : gmap string (list message);
  page : list (string * string) }.

(** A computation on the world, run inside the application state. *)
Definition on_world {A} (m : PyM world A) : PyM app A :=
  fun s => let '(o, w') := m (app_world s) in (o, mkApp w' (session_state s) (page s)).

Definition set_session (f : gmap string (list message) -> gmap string (list message)) (s : app) : app :=
  mkApp (app_world s) (f (session_state s)) (page s).

(** [st.chat_message(role).write(content)] *)
Definition chat_message (role content : string) : PyM app unit :=
  modify (fun s => mkApp (app_world s) (session_state s) (page s ++ [(role, content)])).

(** [st.header(title)] *)
Definition st_header (title : string) : PyM app unit :=
  modify (fun s => mkApp (app_world s) (session_state s) (page s ++ [("header", title)])).

(** The last element of the page with [content] written into it. *)
Fixpoint write_last (content : string) (p : list (string * string)) : list (string * string) :=
  match p with
  | [] => []
  | [(role, c)] => [(role, c +:+ content)]
  | x :: p' => x :: write_last content p'
  end.

(** [st.write(content)] inside the [with st.chat_message(role):] block
    last opened. *)
Definition st_write (content : string) : PyM app unit :=
  modify (fun s => mkApp (app_world s) (session_state s) (write_last content (page s))).

(** [StreamlitChatMessageHistory(key=key)]: the key is set to an empty
    list when absent. *)
Definition st_history_init (key : string) : PyM app unit :=
  modify (fun s => match session_state s !! key with
                   | Some _ => s
                   | None => set_session (<[key := []]>) s
                   end).

(** [chat_history.messages] *)
Definition st_history_messages (key : string) : PyM app (list message) :=
  s <- get ;;
  match session_state s !! key with
  | Some ms => ret ms
  | None => raise (KeyError key)
  end.

(** [chat_history.add_messages(msgs)]: one [append] per message. *)
Definition st_history_add_messages (key : string) (msgs : list message) : PyM app unit :=
  modify (set_session (fun ss => <[key := default [] (ss !! key) ++ msgs]> ss)).

Definition history_key : string := "chat_messages".

(** [lambda session_id: chat_history] *)
Definition get_session_history (session_id : string) : string := history_key.

Section Script.
Context `{OpenAIBackend}.

(** [conversational_rag_chain.invoke(input, config)]: load the history
    into ["history"], run the chain, then append the question and the
    answer. *)
Definition conversational_invoke (rc : rag_chain) (input : dict) (session_id : string) : PyM app dict :=
  let key := get_session_history session_id in
  hist <- st_history_messages key ;;
  out <- on_world (retrieval_chain_invoke rc (<["history" := VMsgs hist]> input)) ;;
  q <- get_str input "input" ;;
  a <- get_str out "answer" ;;
  st_history_add_messages key [HumanMessage q; AIMessage a] ;;
  ret out.

Definition message_type (m : message) : string :=
  match m with HumanMessage _ => "human" | AIMessage _ => "ai" | SystemMessage _ => "system" end.

Definition message_content (m : message) : string :=
  match m with HumanMessage c | AIMessage c | SystemMessage c => c end.

Definition greeting : string := "여행지원금을 검색하세요!".

Definition header_title : string := "여행지원금 Q&A 챗봇 💬 📚".

(** One run of main.py, given the date and what the chat input returns. *)
Definition main_run (now : date) (chat_input : option string) : PyM app unit :=
  retriever <- on_world (get_retriever "./db") ;;
  st_header header_title ;;
  rag_chain <- initialize_components retriever now ;;
  st_history_init history_key ;;
  s <- get ;;
  (if session_state s !! "messages" is None then chat_message "assistant" greeting else ret tt) ;;
  msgs <- st_history_messages history_key ;;
  py_foreach msgs (fun msg => chat_message (message_type msg) (message_content msg)) ;;
  match chat_input with
  | None => ret tt
  | Some prompt_message =>
      chat_message "human" prompt_message ;;
      chat_message "assistant" "" ;;
      response <- conversational_invoke rag_chain (<["input" := VStr prompt_message]> ∅) "any" ;;
      answer <- get_str response "answer" ;;
      st_write answer
  end.

End Script.

(** ** The answering prompt filled in *)

(** The system message the answering prompt produces for a context. *)
Definition qa_render (ctx : string) : string :=
  match py_format qa_system_prompt (kwarg "context" ctx) with Ok s => s | Err _ => EmptyString end.

Lemma qa_system_prompt_parse :
  exists a b, parse_format qa_system_prompt = ([Lit a; Field "context"; Lit b], None).
Proof. do 2 eexists. vm_compute. reflexivity. Qed.

(** Filling the answering prompt only reads ["context"]. *)
Lemma qa_format_env env ctx :
  env "context" = Some ctx -> py_format qa_system_prompt env = Ok (qa_render ctx).
Proof.
  intros Hctx. destruct qa_system_prompt_parse as (a & b & Hp).
  unfold qa_render, py_format. rewrite Hp. simpl. rewrite Hctx. reflexivity.
Qed.

(** ** Running a turn *)

Lemma on_world_run {A} (m : PyM world A) s o w' :
  m (app_world s) = (o, w') -> on_world m s = (o, mkApp w' (session_state s) (page s)).
Proof. unfold on_world. intros ->. reflexivity. Qed.

(** The chain built by [initialize_components] on the retriever of "./db". *)
Definition main_chain (ctx : string) : rag_chain :=
  mkRagChain (mkRetriever (mkChroma "./db") 5) (mkChatPrompt ctx) (mkChatPrompt qa_system_prompt).

(** The dict the history wrapper hands to the chain. *)
Definition turn_input (q : string) (h : list message) : dict :=
  <["history" := VMsgs h]> (<["input" := VStr q]> ∅).

Lemma turn_input_lookups q h :
  turn_input q h !! "input" = Some (VStr q) /\
  turn_input q h !! "history" = Some (VMsgs h) /\
  turn_input q h !! "chat_history" = None.
Proof. unfold turn_input. split_and!; by simplify_map_eq. Qed.

Section Turn.
Context `{OpenAIBackend}.

(** The documents a question retrieves from the world [w]. *)
Definition retrieved (w : world) (qv : vec) : list document :=
  map entry_document (query_collection qv (collection_of w "./db") 5).

(** The messages of the answering request. *)
Definition qa_messages (docs : list document) (h : list message) (q : string) : list message :=
  SystemMessage (qa_render (format_docs docs)) :: h ++ [HumanMessage q].

(** The chain on the wrapper's dict: without a ["chat_history"] entry the
    retriever gets the raw question, then the answering request is made. *)
Lemma retrieval_chain_run ctx q h w qv rest a :
  embed_api (w_requests w) [q] = Ok (qv :: rest) ->
  chat_api (S (w_requests w)) (qa_messages (retrieved w qv) h q) = Ok a ->
  retrieval_chain_invoke (main_chain ctx) (turn_input q h) w =
  (Ok (<["answer" := VStr a]> (<["context" := VDocs (retrieved w qv)]> (turn_input q h))),
   mkWorld (w_dirs w) (w_uuid w) (S (S (w_requests w)))
     (w_log w ++ [EvEmbedRequest [q]; EvChatRequest (qa_messages (retrieved w qv) h q)])).
Proof.
  intros Hemb Hchat. destruct (turn_input_lookups q h) as (Hin & Hhist & Hch).
  unfold retrieval_chain_invoke, history_aware_retriever_invoke, get_flag.
  rewrite Hch. simpl. unfold get_str at 1. rewrite Hin.
  unfold retriever_invoke, similarity_search, embed_query. simpl.
  unfold bind at 1 2 3 4. unfold ret, get, embed_documents, request. simpl. rewrite Hemb.
  unfold stuff_documents_invoke, get_docs, prompt_invoke. simplify_map_eq.
  unfold bind, ret, lift. simpl.
  rewrite (qa_format_env _ (format_docs (retrieved w qv))) by (unfold str_env; by simplify_map_eq).
  unfold get_msgs, get_str. simplify_map_eq.
  unfold chat_invoke, request. simpl. unfold qa_messages in Hchat. rewrite Hchat.
  simpl. rewrite <- app_assoc. reflexivity.
Qed.

End Turn.

Section Conversation.
Context `{OpenAIBackend}.

(** A turn of the history wrapper when both requests succeed. *)
Lemma conversational_turn_run ctx q h s sid qv rest a :
  session_state s !! history_key = Some h ->
  embed_api (w_requests (app_world s)) [q] = Ok (qv :: rest) ->
  chat_api (S (w_requests (app_world s))) (qa_messages (retrieved (app_world s) qv) h q) = Ok a ->
  conversational_invoke (main_chain ctx) (<["input" := VStr q]> ∅) sid s =
  (Ok (<["answer" := VStr a]> (<["context" := VDocs (retrieved (app_world s) qv)]> (turn_input q h))),
   mkApp (mkWorld (w_dirs (app_world s)) (w_uuid (app_world s)) (S (S (w_requests (app_world s))))
            (w_log (app_world s) ++
               [EvEmbedRequest [q]; EvChatRequest (qa_messages (retrieved (app_world s) qv) h q)]))
         (<[history_key := h ++ [HumanMessage q; AIMessage a]]> (session_state s))
         (page s)).
Proof.
  intros Hh Hemb Hchat. unfold conversational_invoke, get_session_history.
  unfold bind at 1. unfold st_history_messages, bind at 1, get. rewrite Hh. unfold ret.
  fold (turn_input q h).
  unfold bind at 1. rewrite (on_world_run _ s _ _ (retrieval_chain_run ctx q h _ qv rest a Hemb Hchat)).
  unfold get_str. simplify_map_eq. unfold bind, ret, st_history_add_messages, modify, set_session.
  simpl. by rewrite Hh.
Qed.

(** A turn whose chain raises. *)
Lemma conversational_turn_err rc input sid s h e w' :
  session_state s !! get_session_history sid = Some h ->
  retrieval_chain_invoke rc (<["history" := VMsgs h]> input) (app_world s) = (Err e, w') ->
  conversational_invoke rc input sid s = (Err e, mkApp w' (session_state s) (page s)).
Proof.
  intros Hh Hrun. unfold conversational_invoke.
  unfold bind at 1. unfold st_history_messages, bind at 1, get. rewrite Hh. unfold ret.
  unfold bind at 1. by rewrite (on_world_run _ s _ _ Hrun).
Qed.

End Conversation.

Section TurnErrors.
Context `{OpenAIBackend}.

Lemma retrieval_chain_embed_err ctx q h w e :
  embed_api (w_requests w) [q] = Err e ->
  exists w', retrieval_chain_invoke (main_chain ctx) (turn_input q h) w = (Err e, w').
Proof.
  intros Hemb. destruct (turn_input_lookups q h) as (Hin & Hhist & Hch).
  unfold retrieval_chain_invoke, history_aware_retriever_invoke, get_flag.
  rewrite Hch. simpl. unfold get_str at 1. rewrite Hin.
  unfold retriever_invoke, similarity_search, embed_query.
  unfold bind, ret, get, embed_documents, request. simpl. rewrite Hemb. eauto.
Qed.

Lemma retrieval_chain_chat_err ctx q h w qv rest e :
  embed_api (w_requests w) [q] = Ok (qv :: rest) ->
  chat_api (S (w_requests w)) (qa_messages (retrieved w qv) h q) = Err e ->
  exists w', retrieval_chain_invoke (main_chain ctx) (turn_input q h) w = (Err e, w').
Proof.
  intros Hemb Hchat. destruct (turn_input_lookups q h) as (Hin & Hhist & Hch).
  unfold retrieval_chain_invoke, history_aware_retriever_invoke, get_flag.
  rewrite Hch. simpl. unfold get_str at 1. rewrite Hin.
  unfold retriever_invoke, similarity_search, embed_query. simpl.
  unfold bind at 1 2 3 4. unfold ret, get, embed_documents, request. simpl. rewrite Hemb.
  unfold stuff_documents_invoke, get_docs, prompt_invoke. simplify_map_eq.
  unfold bind, ret, lift. simpl.
  rewrite (qa_format_env _ (format_docs (retrieved w qv))) by (unfold str_env; by simplify_map_eq).
  unfold get_msgs, get_str. simplify_map_eq.
  unfold chat_invoke, request. simpl. unfold qa_messages in Hchat. rewrite Hchat. eauto.
Qed.

End TurnErrors.

(** ** Properties of a turn *)

Section TurnTheorems.
Context `{OpenAIBackend}.

(** C11: the question is never rewritten.  The history wrapper stores the
    history under ["history"], while [create_history_aware_retriever] only
    rewrites when ["chat_history"] is truthy; so for every history a turn
    makes exactly two requests, the embedding of the raw question and the
    answering request, and the documents it retrieves do not depend on
    the history. *)
Theorem turn_embeds_raw_question ctx q h s sid qv rest a :
  session_state s !! history_key = Some h ->
  embed_api (w_requests (app_world s)) [q] = Ok (qv :: rest) ->
  chat_api (S (w_requests (app_world s))) (qa_messages (retrieved (app_world s) qv) h q) = Ok a ->
  exists out s',
    conversational_invoke (main_chain ctx) (<["input" := VStr q]> ∅) sid s = (Ok out, s') /\
    out !! "context" = Some (VDocs (map entry_document
                                      (query_collection qv (collection_of (app_world s) "./db") 5))) /\
    w_log (app_world s') = w_log (app_world s) ++
      [EvEmbedRequest [q]; EvChatRequest (qa_messages (retrieved (app_world s) qv) h q)].
Proof.
  intros Hh Hemb Hchat.
  rewrite (conversational_turn_run ctx q h s sid qv rest a Hh Hemb Hchat).
  do 2 eexists. split; [reflexivity|]. split; [by simplify_map_eq|done].
Qed.

(** C12: a successful turn appends the question and the answer, in this
    order, to the history kept under "chat_messages", changes no other
    entry of the session state, and returns the chat model's answer to
    the system message with the documents, the history and the
    question. *)
Theorem turn_appends_history ctx q h s sid qv rest a :
  session_state s !! history_key = Some h ->
  embed_api (w_requests (app_world s)) [q] = Ok (qv :: rest) ->
  chat_api (S (w_requests (app_world s))) (qa_messages (retrieved (app_world s) qv) h q) = Ok a ->
  exists out s',
    conversational_invoke (main_chain ctx) (<["input" := VStr q]> ∅) sid s = (Ok out, s') /\
    out !! "answer" = Some (VStr a) /\
    session_state s' !! history_key = Some (h ++ [HumanMessage q; AIMessage a]) /\
    (forall k, k <> history_key -> session_state s' !! k = session_state s !! k).
Proof.
  intros Hh Hemb Hchat.
  rewrite (conversational_turn_run ctx q h s sid qv rest a Hh Hemb Hchat).
  do 2 eexists. split; [reflexivity|]. simpl.
  split_and!; [by simplify_map_eq|by simplify_map_eq|].
  intros k Hk. by rewrite lookup_insert_ne by congruence.
Qed.

(** C13: when the embedding request or the answering request fails, the
    turn raises the error (nothing turns it into a message for the user)
    and the history, the rest of the session state and the page are as
    before. *)
Theorem turn_failure_keeps_history ctx q h s sid e :
  session_state s !! history_key = Some h ->
  (embed_api (w_requests (app_world s)) [q] = Err e \/
   exists qv rest, embed_api (w_requests (app_world s)) [q] = Ok (qv :: rest) /\
     chat_api (S (w_requests (app_world s))) (qa_messages (retrieved (app_world s) qv) h q) = Err e) ->
  exists s',
    conversational_invoke (main_chain ctx) (<["input" := VStr q]> ∅) sid s = (Err e, s') /\
    session_state s' = session_state s /\ page s' = page s.
Proof.
  intros Hh Hfail.
  assert (exists w', retrieval_chain_invoke (main_chain ctx) (turn_input q h) (app_world s) = (Err e, w'))
    as [w' Hrun].
  { destruct Hfail as [Hemb | (qv & rest & Hemb & Hchat)].
    - by apply retrieval_chain_embed_err.
    - by apply (retrieval_chain_chat_err ctx q h _ qv rest). }
  exists (mkApp w' (session_state s) (page s)). split; [|done].
  by apply (conversational_turn_err _ _ sid s h e w').
Qed.

(** C14: the session id is ignored ([lambda session_id: chat_history]):
    after a turn under one session id, a turn under any other session id
    sends the first turn's question and answer to the chat model. *)
Theorem sessions_share_history ctx q1 q2 h s sid1 sid2 qv1 r1 a1 qv2 r2 a2 :
  session_state s !! history_key = Some h ->
  embed_api (w_requests (app_world s)) [q1] = Ok (qv1 :: r1) ->
  chat_api (S (w_requests (app_world s))) (qa_messages (retrieved (app_world s) qv1) h q1) = Ok a1 ->
  embed_api (S (S (w_requests (app_world s)))) [q2] = Ok (qv2 :: r2) ->
  chat_api (S (S (S (w_requests (app_world s)))))
    (qa_messages (retrieved (app_world s) qv2) (h ++ [HumanMessage q1; AIMessage a1]) q2) = Ok a2 ->
  exists out s' pre,
    (conversational_invoke (main_chain ctx) (<["input" := VStr q1]> ∅) sid1 ;;
     conversational_invoke (main_chain ctx) (<["input" := VStr q2]> ∅) sid2) s = (Ok out, s') /\
    w_log (app_world s') = pre ++
      [EvChatRequest (qa_messages (retrieved (app_world s) qv2) (h ++ [HumanMessage q1; AIMessage a1]) q2)].
Proof.
  intros Hh Hemb1 Hchat1 Hemb2 Hchat2.
  unfold bind at 1. rewrite (conversational_turn_run ctx q1 h s sid1 qv1 r1 a1 Hh Hemb1 Hchat1).
  rewrite (conversational_turn_run ctx q2 (h ++ [HumanMessage q1; AIMessage a1]) _ sid2 qv2 r2 a2);
    [| simpl; apply lookup_insert_eq | exact Hemb2 | exact Hchat2].
  do 2 eexists.
  exists (w_log (app_world s) ++ [EvEmbedRequest [q1];
            EvChatRequest (qa_messages (retrieved (app_world s) qv1) h q1); EvEmbedRequest [q2]]).
  split; [reflexivity|]. simpl. by rewrite <- !app_assoc.
Qed.

Lemma retrieval_chain_no_rewrite r p1 p2 qa x w :
  get_flag x "chat_history" = false ->
  retrieval_chain_invoke (mkRagChain r p1 qa) x w = retrieval_chain_invoke (mkRagChain r p2 qa) x w.
Proof.
  intros Hflag. unfold retrieval_chain_invoke, history_aware_retriever_invoke.
  rewrite Hflag. reflexivity.
Qed.

(** C23: equivalence.  For a question without a ["chat_history"] entry
    (which is every question main.py sends), the conversational chain
    behaves the same whatever its rewriting prompt: the contextualizing
    prompt of [initialize_components] has no effect on any turn. *)
Theorem conversational_ignores_contextualizer r p1 p2 qa input sid s :
  input !! "chat_history" = None ->
  conversational_invoke (mkRagChain r p1 qa) input sid s =
  conversational_invoke (mkRagChain r p2 qa) input sid s.
Proof.
  intros Hnone. unfold conversational_invoke, bind.
  destruct (st_history_messages _ s) as [[hist|e] s1]; [|done].
  unfold on_world. rewrite (retrieval_chain_no_rewrite r p1 p2 qa); [done|].
  unfold get_flag. by rewrite lookup_insert_ne, Hnone.
Qed.

End TurnTheorems.

(** ** Reruns of the script *)

(** Streamlit runs the script again at every interaction, on a blank page,
    keeping the session state and the world. *)
Definition clear_page (s : app) : app := mkApp (app_world s) (session_state s) [].

Inductive rerun `{OpenAIBackend} : app -> app -> Prop :=
| rerun_step s s' now input o :
    main_run now input (clear_page s) = (o, s') -> rerun s s'.

(** A history made of question and answer pairs. *)
Definition qa_pairs (turns : list (string * string)) : list message :=
  concat (map (fun '(q, a) => [HumanMessage q; AIMessage a]) turns).

(** The session state holds only the chat history, made of pairs. *)
Definition session_inv (ss : gmap string (list message)) : Prop :=
  forall k h, ss !! k = Some h -> k = history_key /\ exists turns, h = qa_pairs turns.

(** ** Frame lemmas: what each statement of the script may change *)

Section Frames.
Context `{OpenAIBackend}.
Variable P : app -> Prop.

Hypothesis P_world : forall s w, P s -> P (mkApp w (session_state s) (page s)).

Lemma preserves_on_world {A} (m : PyM world A) : preserves P (on_world m).
Proof.
  intros s o s' Hrun HP. unfold on_world in Hrun.
  destruct (m (app_world s)) as [o' w']. injection Hrun as _ <-. by apply P_world.
Qed.

Lemma preserves_get_str (d : dict) (k : string) : preserves P (@get_str app d k).
Proof. unfold get_str. preserves_tac. Qed.

Lemma preserves_initialize_components r now : preserves P (@initialize_components app r now).
Proof.
  unfold initialize_components, create_history_aware_retriever, create_stuff_documents_chain.
  preserves_tac.
Qed.

Lemma preserves_st_history_messages key : preserves P (st_history_messages key).
Proof. unfold st_history_messages. preserves_tac. Qed.

End Frames.

Section InvariantLemmas.
Context `{OpenAIBackend}.

Definition app_inv (s : app) : Prop := session_inv (session_state s).

Lemma app_inv_world s w : app_inv s -> app_inv (mkApp w (session_state s) (page s)).
Proof. done. Qed.

Lemma app_inv_page f : preserves app_inv (modify (fun s => mkApp (app_world s) (session_state s) (f s))).
Proof. apply preserves_modify. done. Qed.

Lemma app_inv_chat_message role content : preserves app_inv (chat_message role content).
Proof. apply app_inv_page. Qed.

Lemma app_inv_init : preserves app_inv (st_history_init history_key).
Proof.
  apply preserves_modify. intros s Hinv.
  destruct (session_state s !! history_key) eqn:E; [done|].
  intros k h Hk. simpl in Hk. apply lookup_insert_Some in Hk as [[<- <-]|[_ Hk]].
  - split; [done|]. by exists [].
  - by apply Hinv.
Qed.

Lemma app_inv_add q a : preserves app_inv (st_history_add_messages history_key [HumanMessage q; AIMessage a]).
Proof.
  apply preserves_modify. intros s Hinv k h Hk. simpl in Hk.
  apply lookup_insert_Some in Hk as [[<- <-]|[_ Hk]]; [|by apply Hinv].
  split; [done|].
  destruct (session_state s !! history_key) as [h0|] eqn:E; simpl.
  - destruct (Hinv _ _ E) as [_ [turns ->]]. exists (turns ++ [(q, a)]).
    unfold qa_pairs. by rewrite map_app, concat_app.
  - by exists [(q, a)].
Qed.

Lemma app_inv_conversational rc input sid : preserves app_inv (conversational_invoke rc input sid).
Proof.
  unfold conversational_invoke, get_session_history.
  apply preserves_bind; [apply preserves_st_history_messages|intros hist].
  apply preserves_bind; [apply preserves_on_world, app_inv_world|intros out].
  apply preserves_bind; [apply preserves_get_str|intros q].
  apply preserves_bind; [apply preserves_get_str|intros a].
  apply preserves_bind; [apply app_inv_add|intros _]. apply preserves_ret.
Qed.

Lemma app_inv_main_run now input : preserves app_inv (main_run now input).
Proof.
  unfold main_run.
  apply preserves_bind; [apply preserves_on_world, app_inv_world|intros r].
  apply preserves_bind; [apply app_inv_page|intros _].
  apply preserves_bind; [apply preserves_initialize_components|intros rc].
  apply preserves_bind; [apply app_inv_init|intros _].
  apply preserves_bind; [apply preserves_get|intros s].
  apply preserves_bind; [destruct (session_state s !! "messages");
                         [apply preserves_ret|apply app_inv_chat_message]|intros _].
  apply preserves_bind; [apply preserves_st_history_messages|intros msgs].
  apply preserves_bind; [apply preserves_foreach; intros; apply app_inv_chat_message|intros _].
  destruct input as [p|]; [|apply preserves_ret].
  apply preserves_bind; [apply app_inv_chat_message|intros _].
  apply preserves_bind; [apply app_inv_chat_message|intros _].
  apply preserves_bind; [apply app_inv_conversational|intros resp].
  apply preserves_bind; [apply preserves_get_str|intros ans].
  apply app_inv_page.
Qed.

End InvariantLemmas.

Section RerunTheorems.
Context `{OpenAIBackend}.

Lemma rerun_preserves s s' : rerun s s' -> app_inv s -> app_inv s'.
Proof.
  intros [s1 s2 now input o Hrun] Hinv.
  eapply app_inv_main_run; [exact Hrun|]. exact Hinv.
Qed.

Lemma rtc_preserves s s' : rtc rerun s s' -> app_inv s -> app_inv s'.
Proof. induction 1 as [|s1 s2 s3 Hstep _ IH]; [done|]. intros Hinv. by apply IH, (rerun_preserves s1). Qed.

(** C15: in every state the Streamlit runtime reaches from an empty
    session, whatever the dates, the inputs and the failures of the runs,
    the session state holds nothing but the chat history, which is a
    sequence of question and answer pairs; in particular the key
    "messages" the script tests is never set. *)
Theorem rerun_history_invariant s0 s :
  session_state s0 = ∅ -> rtc rerun s0 s ->
  session_state s !! "messages" = None /\
  forall h, session_state s !! history_key = Some h -> exists turns, h = qa_pairs turns.
Proof.
  intros H0 Hrtc.
  assert (app_inv s) as Hinv.
  { apply (rtc_preserves s0 s Hrtc). intros k h Hk. rewrite H0 in Hk. by rewrite lookup_empty in Hk. }
  split.
  - destruct (session_state s !! "messages") as [h|] eqn:E; [|done].
    by destruct (Hinv _ _ E).
  - intros h Hh. by destruct (Hinv _ _ Hh).
Qed.

End RerunTheorems.

(** ** A run of the script that answers a question *)

Lemma initialize_components_run {S} r now (s : S) :
  exists ctx,
    initialize_components r now s = (Ok (mkRagChain r (mkChatPrompt ctx) (mkChatPrompt qa_system_prompt)), s).
Proof.
  pose proof (strftime_ymd_brace_free now) as Ht. set (today := strftime_ymd now) in *. destruct contextualize_q_system_prompt_format as (a & b & c & Ha & Hb & Hc & Hfmt).
  exists (a +:+ today +:+ b +:+ today +:+ c).
  assert (Hctx : prompt_variables (mkChatPrompt (a +:+ today +:+ b +:+ today +:+ c)) =
                 Ok ["history"; "input"]).
  { unfold prompt_variables. cbn [system_template].
    by rewrite template_variables_brace_free by (by rewrite !brace_free_append, Ha, Hb, Hc, Ht). }
  assert (Hqa : prompt_variables (mkChatPrompt qa_system_prompt) = Ok ["context"; "history"; "input"]).
  { unfold prompt_variables. cbn [system_template]. by rewrite qa_system_prompt_variables. }
  unfold initialize_components. cbv zeta. fold today.
  unfold create_history_aware_retriever, create_stuff_documents_chain,
    bind, lift. rewrite Hfmt, Hctx, Hqa. reflexivity.
Qed.

Lemma foreach_chat_message msgs s :
  py_foreach msgs (fun m => chat_message (message_type m) (message_content m)) s =
  (Ok tt, mkApp (app_world s) (session_state s)
            (page s ++ map (fun m => (message_type m, message_content m)) msgs)).
Proof.
  revert s. induction msgs as [|m msgs IH]; intros s; simpl.
  - destruct s. simpl. by rewrite app_nil_r.
  - unfold bind at 1, chat_message, modify. rewrite IH. simpl. by rewrite <- app_assoc.
Qed.

Lemma retrieved_open w qv : retrieved (update_collection "./db" id w) qv = retrieved w qv.
Proof. unfold retrieved. by rewrite collection_of_open. Qed.

Lemma write_last_snoc content p role c :
  write_last content (p ++ [(role, c)]) = p ++ [(role, c +:+ content)].
Proof.
  induction p as [|x p IH]; [reflexivity|].
  destruct p as [|y p']; [destruct x; reflexivity|].
  change ((x :: y :: p') ++ [(role, c)]) with (x :: ((y :: p') ++ [(role, c)])).
  change ((x :: y :: p') ++ [(role, c +:+ content)]) with (x :: ((y :: p') ++ [(role, c +:+ content)])).
  rewrite <- IH. destruct x. reflexivity.
Qed.

Lemma st_history_init_run key s :
  st_history_init key s =
  (Ok tt, set_session (<[key := default [] (session_state s !! key)]>) s).
Proof.
  destruct s as [w ss p]. unfold st_history_init, modify, set_session. simpl.
  destruct (ss !! key) eqn:E; simpl; [by rewrite insert_id|done].
Qed.

Section Transcript.
Context `{OpenAIBackend}.

(** The run of main.py that answers a question, computed. *)
Lemma main_run_answer_run now q s qv rest a :
  session_state s !! "messages" = None ->
  embed_api (w_requests (app_world s)) [q] = Ok (qv :: rest) ->
  chat_api (S (w_requests (app_world s)))
    (qa_messages (retrieved (app_world s) qv) (default [] (session_state s !! history_key)) q) = Ok a ->
  let h := default [] (session_state s !! history_key) in
  exists s',
    main_run now (Some q) s = (Ok tt, s') /\
    page s' = page s ++ [("header", header_title); ("assistant", greeting)] ++
              map (fun m => (message_type m, message_content m)) h ++
              [("human", q); ("assistant", a)] /\
    session_state s' = <[history_key := h ++ [HumanMessage q; AIMessage a]]> (session_state s) /\
    w_requests (app_world s') = S (S (w_requests (app_world s))) /\
    w_log (app_world s') = w_log (app_world s) ++
      [EvEmbedRequest [q]; EvChatRequest (qa_messages (retrieved (app_world s) qv) h q)].
Proof.
  intros Hmsg Hemb Hchat h.
  set (w1 := update_collection "./db" id (app_world s)).
  destruct (initialize_components_run (mkRetriever (mkChroma "./db") 5) now
              (mkApp w1 (session_state s) (page s ++ [("header", header_title)]))) as [ctx Hinit].
  assert (Hgr : get_retriever "./db" (app_world s) = (Ok (mkRetriever (mkChroma "./db") 5), w1))
    by reflexivity.
  unfold main_run. rewrite (bind_Ok _ _ _ _ _ (on_world_run _ s _ _ Hgr)).
  unfold bind at 1, st_header at 1, modify at 1. cbn [app_world session_state page].
  rewrite (bind_Ok _ _ _ _ _ Hinit).
  unfold bind at 1. rewrite st_history_init_run.
  unfold bind at 1, get at 1. simpl. fold h.
  rewrite lookup_insert_ne, Hmsg by done.
  unfold bind at 1, chat_message at 1, modify at 1.
  unfold bind at 1, st_history_messages, bind at 1, get. simpl. rewrite lookup_insert_eq. unfold ret.
  unfold bind at 1. rewrite foreach_chat_message. simpl.
  unfold bind at 1, chat_message at 1, modify at 1. simpl.
  unfold bind at 1, chat_message at 1, modify at 1. simpl.
  unfold bind at 1. erewrite (conversational_turn_run ctx q h); simpl;
    [|by simplify_map_eq|exact Hemb|unfold w1; by rewrite retrieved_open].
  unfold bind at 1, get_str. simplify_map_eq. unfold st_write, modify.
  eexists. split; [reflexivity|]. simpl. unfold w1. rewrite insert_insert_eq, retrieved_open.
  split_and!; [|done|done|done].
  rewrite write_last_snoc, <- !app_assoc. reflexivity.
Qed.

(** C16: a run of main.py on a question, when the embedding and the
    answering requests succeed, shows the greeting (the script tests a
    session key ["messages"] that nothing sets), then the stored history,
    then the question and the answer; it appends the question and the
    answer to the history and sends exactly two requests, the embedding of
    the raw question and the answering request built on the documents it
    retrieves. *)
Theorem main_run_answers now q s qv rest a :
  session_state s !! "messages" = None ->
  embed_api (w_requests (app_world s)) [q] = Ok (qv :: rest) ->
  chat_api (S (w_requests (app_world s)))
    (qa_messages (retrieved (app_world s) qv) (default [] (session_state s !! history_key)) q) = Ok a ->
  let h := default [] (session_state s !! history_key) in
  exists s',
    main_run now (Some q) s = (Ok tt, s') /\
    page s' = page s ++ [("header", header_title); ("assistant", greeting)] ++
              map (fun m => (message_type m, message_content m)) h ++
              [("human", q); ("assistant", a)] /\
    session_state s' = <[history_key := h ++ [HumanMessage q; AIMessage a]]> (session_state s) /\
    w_requests (app_world s') = S (S (w_requests (app_world s))) /\
    w_log (app_world s') = w_log (app_world s) ++
      [EvEmbedRequest [q]; EvChatRequest (qa_messages (retrieved (app_world s) qv) h q)].
Proof. apply main_run_answer_run. Qed.

(** C25: liveness of the chat.  In every state the Streamlit runtime
    reaches from an empty session, a question whose two requests succeed
    can be answered: there is a rerun after which the history ends with
    the question and its answer and the page ends with the answer. *)
Theorem rerun_answers_progress s0 s (now : date) q qv rest a :
  session_state s0 = ∅ -> rtc rerun s0 s ->
  embed_api (w_requests (app_world s)) [q] = Ok (qv :: rest) ->
  chat_api (S (w_requests (app_world s)))
    (qa_messages (retrieved (app_world s) qv) (default [] (session_state s !! history_key)) q) = Ok a ->
  exists s',
    rerun s s' /\
    session_state s' !! history_key =
      Some (default [] (session_state s !! history_key) ++ [HumanMessage q; AIMessage a]) /\
    last (page s') = Some ("assistant", a).
Proof.
  intros H0 Hrtc Hemb Hchat.
  assert (Hinv : app_inv s).
  { apply (rtc_preserves s0 s Hrtc). intros k h Hk. by rewrite H0, lookup_empty in Hk. }
  assert (Hmsg : session_state (clear_page s) !! "messages" = None).
  { destruct (session_state s !! "messages") as [h|] eqn:E; [|done]. by destruct (Hinv _ _ E). }
  destruct (main_run_answer_run now q (clear_page s) qv rest a Hmsg Hemb Hchat)
    as (s' & Hrun & Hpage & Hss & _).
  exists s'. split_and!.
  - by apply (rerun_step s s' now (Some q) (Ok tt)).
  - rewrite Hss. simpl. by simplify_map_eq.
  - rewrite Hpage, !app_assoc.
    change [("human", q); ("assistant", a)] with ([("human", q)] ++ [("assistant", a)]).
    rewrite app_assoc. apply last_snoc.
Qed.

End Transcript.

(** ** Concrete runs *)

(** The store of [Store.sample_world] with a session that has had one
    turn. *)
Definition sample_app : app :=
  mkApp sample_world {[history_key := [HumanMessage "hi"; AIMessage "hello"]]} [].

(** Witness of C11: with the length backend, the question "abc" is
    embedded as it is and retrieves rows 2, 3, 5, 6 and 1, although the
    session has a history. *)
Lemma turn_embeds_raw_question_witness :
  exists out s',
    @conversational_invoke length_backend (main_chain "ctx") (<["input" := VStr "abc"]> ∅) "any" sample_app
      = (Ok out, s') /\
    out !! "context" = Some (VDocs (map sample_doc [2; 3; 5; 6; 1])) /\
    w_log (app_world s') = [EvEmbedRequest ["abc"];
      EvChatRequest (qa_messages (map sample_doc [2; 3; 5; 6; 1])
                       [HumanMessage "hi"; AIMessage "hello"] "abc")].
Proof.
  destruct (@turn_embeds_raw_question length_backend "ctx" "abc" [HumanMessage "hi"; AIMessage "hello"]
              sample_app "any" [3%Z] [] "4") as (out & s' & Hrun & Hctx & Hlog);
    [reflexivity|reflexivity|reflexivity|].
  exists out, s'. split_and!; [exact Hrun|rewrite Hctx; reflexivity|rewrite Hlog; reflexivity].
Defined.

(** Witness of C12: the turn answers "4" (four messages were sent) and
    the history grows by the question and the answer. *)
Lemma turn_appends_history_witness :
  exists out s',
    @conversational_invoke length_backend (main_chain "ctx") (<["input" := VStr "abc"]> ∅) "any" sample_app
      = (Ok out, s') /\
    out !! "answer" = Some (VStr "4") /\
    session_state s' !! history_key =
      Some [HumanMessage "hi"; AIMessage "hello"; HumanMessage "abc"; AIMessage "4"].
Proof.
  destruct (@turn_appends_history length_backend "ctx" "abc" [HumanMessage "hi"; AIMessage "hello"]
              sample_app "any" [3%Z] [] "4") as (out & s' & Hrun & Hans & Hh & _);
    [reflexivity|reflexivity|reflexivity|].
  exists out, s'. split_and!; [exact Hrun|exact Hans|exact Hh].
Defined.

(** Witness of C13: a rate limit on the answering request (request 1)
    leaves the session as it was. *)
Lemma turn_failure_keeps_history_witness :
  exists s',
    @conversational_invoke (failing_backend 1) (main_chain "ctx") (<["input" := VStr "abc"]> ∅) "any" sample_app
      = (Err (APIError "RateLimitError"), s') /\
    session_state s' = session_state sample_app /\ page s' = [].
Proof.
  destruct (@turn_failure_keeps_history (failing_backend 1) "ctx" "abc"
              [HumanMessage "hi"; AIMessage "hello"] sample_app "any" (APIError "RateLimitError"))
    as (s' & Hrun & Hss & Hpage);
    [reflexivity|right; exists [3%Z], []; split; reflexivity|].
  exists s'. split_and!; [exact Hrun|exact Hss|exact Hpage].
Defined.

(** Witness of C14: a turn of session "alice" followed by a turn of
    session "bob": bob's answering request carries alice's exchange. *)
Lemma sessions_share_history_witness :
  exists out s' pre,
    (@conversational_invoke length_backend (main_chain "ctx") (<["input" := VStr "abc"]> ∅) "alice" ;;
     @conversational_invoke length_backend (main_chain "ctx") (<["input" := VStr "z"]> ∅) "bob")
      (mkApp sample_world {[history_key := []]} []) = (Ok out, s') /\
    w_log (app_world s') = pre ++
      [EvChatRequest (qa_messages (map sample_doc [1; 5; 2; 3; 6])
                        [HumanMessage "abc"; AIMessage "2"] "z")].
Proof.
  destruct (@sessions_share_history length_backend "ctx" "abc" "z" [] (mkApp sample_world {[history_key := []]} [])
              "alice" "bob" [3%Z] [] "2" [1%Z] [] "4")
    as (out & s' & pre & Hrun & Hlog); [reflexivity|reflexivity|reflexivity|reflexivity|reflexivity|].
  exists out, s', pre. split; [exact Hrun|rewrite Hlog; reflexivity].
Defined.

(** Witness of C15: from an empty session, a run answering "abc" and a
    second run answering "z" on the page it leaves. *)
Lemma rerun_history_invariant_witness :
  let s0 := mkApp sample_world ∅ [] in
  let s1 := snd (@main_run length_backend (mkDate 2026 11 9) (Some "abc") (clear_page s0)) in
  let s2 := snd (@main_run length_backend (mkDate 2026 11 10) (Some "z") (clear_page s1)) in
  rtc (@rerun length_backend) s0 s2 /\
  session_state s2 !! "messages" = None /\
  (forall h, session_state s2 !! history_key = Some h -> exists turns, h = qa_pairs turns).
Proof.
  intros s0 s1 s2.
  assert (Hr : rtc (@rerun length_backend) s0 s2).
  { eapply rtc_l; [|eapply rtc_l; [|apply rtc_refl]].
    - apply (rerun_step s0 s1 (mkDate 2026 11 9) (Some "abc")
               (fst (@main_run length_backend (mkDate 2026 11 9) (Some "abc") (clear_page s0)))).
      apply surjective_pairing.
    - apply (rerun_step s1 s2 (mkDate 2026 11 10) (Some "z")
               (fst (@main_run length_backend (mkDate 2026 11 10) (Some "z") (clear_page s1)))).
      apply surjective_pairing. }
  split; [exact Hr|]. apply (@rerun_history_invariant length_backend s0 s2); [reflexivity|exact Hr].
Defined.

(** Witness of C16: on [sample_app] the run on "abc" shows the greeting,
    the earlier exchange, the question and the answer "4". *)
Lemma main_run_answers_witness :
  exists s',
    @main_run length_backend (mkDate 2026 11 9) (Some "abc") sample_app = (Ok tt, s') /\
    page s' = [("header", header_title); ("assistant", greeting); ("human", "hi"); ("ai", "hello");
               ("human", "abc"); ("assistant", "4")] /\
    session_state s' !! history_key =
      Some [HumanMessage "hi"; AIMessage "hello"; HumanMessage "abc"; AIMessage "4"].
Proof.
  destruct (@main_run_answers length_backend (mkDate 2026 11 9) "abc" sample_app [3%Z] [] "4")
    as (s' & Hrun & Hpage & Hss & _); [reflexivity|reflexivity|reflexivity|].
  exists s'. split_and!; [exact Hrun|rewrite Hpage; reflexivity|rewrite Hss; reflexivity].
Defined.

(** Witness of C23: the turn on "abc" with the script's rewriting
    prompt and with an unrelated one give the same result. *)
Lemma conversational_ignores_contextualizer_witness :
  @conversational_invoke length_backend (main_chain "ctx") (<["input" := VStr "abc"]> ∅) "any" sample_app =
  @conversational_invoke length_backend
    (mkRagChain (mkRetriever (mkChroma "./db") 5) (mkChatPrompt "rewrite {input}") (mkChatPrompt qa_system_prompt))
    (<["input" := VStr "abc"]> ∅) "any" sample_app.
Proof. apply conversational_ignores_contextualizer. reflexivity. Defined.

(** Witness of C25: from an empty session the question "abc" is
    answered "2" (the system message and the question were sent). *)
Lemma rerun_answers_progress_witness :
  exists s',
    @rerun length_backend (mkApp sample_world ∅ []) s' /\
    session_state s' !! history_key = Some [HumanMessage "abc"; AIMessage "2"] /\
    last (page s') = Some ("assistant", "2").
Proof.
  destruct (@rerun_answers_progress length_backend (mkApp sample_world ∅ []) (mkApp sample_world ∅ [])
              (mkDate 2026 11 9) "abc" [3%Z] [] "2")
    as (s' & Hstep & Hss & Hlast); [reflexivity|apply rtc_refl|reflexivity|reflexivity|].
  exists s'. split_and!; [exact Hstep|rewrite Hss; reflexivity|exact Hlast].
Defined.
