(* ===== verification/Refine.v ===== *)
(** * The table refinement script refineData.py

    A pandas [DataFrame] is a number of rows and its columns in order,
    each a name and one cell per row ([frame]).  The script keeps 35
    columns ([frame_loc] on [selected_columns]), strips the HTML markup of
    ["detail_text"] ([remove_html_tags]), turns the twelve flag columns
    into "가능"/"불가능" by Python truthiness ([to_possible]), and renames
    the columns to Korean ([rename_columns] with [rename_map]); [to_csv]
    is what [df_refined.to_csv(path, index=False)] writes, as a header and
    rows of strings, a float64 cell printed by [float_repr] as numpy
    prints it.

    BeautifulSoup's [get_text] is a library call: the definitions take it
    as a parameter [get_text] and the theorems hold for every choice of
    it. *)

From Stdlib Require Import Ascii.
From S2P Require Import Prelude.

(** ** Cells and frames *)

(** What [pd.read_csv] puts in a cell: a string, an integer, a boolean, a
    float or a missing value ([NaN]).  A float [CFloat neg m e] is the
    double nearest to [(-1)^neg * m * 10^e], kept as that decimal (see
    [float_repr]). *)
Inductive cell :=
| CStr (s : string)
| CInt (z : Z)
| CBool (b : bool)
| CFloat (neg : bool) (m : N) (e : Z)
| CNaN.

Global Instance cell_eq_dec : EqDecision cell.
Proof. solve_decision. Defined.

Record frame := mkFrame {
  f_nrows : nat;
  f_cols : list (string * list cell) }.

(** What every frame pandas builds satisfies: distinct column names
    ([read_csv] renames duplicates) and one cell per row in each column. *)
Definition frame_wf (f : frame) : Prop :=
  NoDup (map fst (f_cols f)) /\ Forall (fun c => length c.2 = f_nrows f) (f_cols f).

(** The first column of a name ([df[name]]). *)
Fixpoint col_lookup (cols : list (string * list cell)) (n : string) : option (list cell) :=
  match cols with
  | [] => None
  | (m, v) :: cols' => if decide (m = n) then Some v else col_lookup cols' n
  end.

(** [repr] of a list of strings, as in pandas' [KeyError] message. *)
Definition py_list_repr (names : list string) : string :=
  "[" +:+ String.concat ", " (map (fun n => "'" +:+ n +:+ "'") names) +:+ "]".

(** A Python dict written as a literal: the pairs are inserted from left
    to right, a later key overwriting an earlier one. *)
Definition py_dict {V} (kvs : list (string * V)) : gmap string V :=
  foldl (fun m '(k, v) => <[k := v]> m) ∅ kvs.

(** ** pandas' [repr] of an Index of names *)

(** [default_pprint] of a name: the name in single quotes. *)
Definition quote_name (n : string) : string := "'" +:+ n +:+ "'".

Definition nl : string := String "010" EmptyString.
Definition spaces (k : nat) : string := String.string_of_list_ascii (repeat " "%char k).

(** [display.width] *)
Definition display_width : nat := 80.

(** The prefixes of the continuation lines: [len("Index") + 1] and
    [len("Index") + 2] spaces. *)
Definition space1 : string := nl +:+ spaces 6.
Definition space2 : string := nl +:+ spaces 7.

(** [_extend_line] of [format_object_summary]. *)
Definition extend_line (st : string * string) (value : string) (width : nat) : string * string :=
  let '(s, line) := st in
  if decide (width <= py_len (py_rstrip line) + py_len (py_rstrip value))
  then (s +:+ py_rstrip line, space2 +:+ value)
  else (s, line +:+ value).

(** [format_object_summary(index, default_pprint, is_justify=False)] for
    an Index of at most [display.max_seq_items] (100) names, which is
    never truncated; object Indexes of names are not justified. *)
Definition format_summary (names : list string) : string :=
  match map quote_name names with
  | [] => "[], "
  | [a] => "[" +:+ a +:+ "], "
  | [a; b] => "[" +:+ a +:+ ", " +:+ b +:+ "], "
  | items =>
      let st := foldl (fun st w => extend_line st (w +:+ ", ") display_width) ("", space2) (removelast items) in
      let '(s, line) := extend_line st (default "" (last items)) (display_width - 2) in
      let summary := s +:+ line +:+ "]," in
      let summary := if decide (display_width < py_len summary) then summary +:+ space1 else summary +:+ " " in
      "[" +:+ String.substring (String.length space2) (String.length summary) summary
  end.

(** [repr(Index(names))] for an Index of dtype object without a name. *)
Definition index_repr (names : list string) : string :=
  "Index(" +:+ format_summary names +:+ "dtype='object')".

(** ** The pandas operations the script uses *)

(** [df.loc[:, names]] and [df[names]]: the columns [names] in this
    order; [_raise_if_missing] raises [KeyError] naming the Index of all
    the names when none is a column, and listing the missing ones
    otherwise. *)
Definition frame_loc (f : frame) (names : list string) : outcome frame :=
  let missing := filter (fun n => col_lookup (f_cols f) n = None) names in
  if decide (missing = []) then
    Ok (mkFrame (f_nrows f) (map (fun n => (n, default [] (col_lookup (f_cols f) n))) names))
  else if decide (length missing = length names) then
    Err (KeyError ("None of [" +:+ index_repr names +:+ "] are in the [columns]"))
  else Err (KeyError (py_list_repr missing +:+ " not in index")).

(** [df[name]] *)
Definition get_column (f : frame) (n : string) : outcome (list cell) :=
  match col_lookup (f_cols f) n with
  | Some v => Ok v
  | None => Err (KeyError n)
  end.

(** [df.loc[:, name] = values]: an existing column is replaced in place,
    a new one is appended. *)
Definition set_column (f : frame) (n : string) (v : list cell) : frame :=
  match col_lookup (f_cols f) n with
  | Some _ => mkFrame (f_nrows f) (map (fun '(m, w) => if decide (m = n) then (m, v) else (m, w)) (f_cols f))
  | None => mkFrame (f_nrows f) (f_cols f ++ [(n, v)])
  end.

(** [df.applymap(h)] *)
Definition applymap (h : cell -> cell) (f : frame) : frame :=
  mkFrame (f_nrows f) (map (fun '(n, v) => (n, map h v)) (f_cols f)).

(** [df[names] = g]: each column of [g] is assigned by its name. *)
Definition assign_columns (f g : frame) : frame :=
  foldl (fun acc '(n, v) => set_column acc n v) f (f_cols g).

(** [df.rename(columns=mapping)]: names absent from the mapping stay. *)
Definition rename_columns (mapping : gmap string string) (f : frame) : frame :=
  mkFrame (f_nrows f) (map (fun '(n, v) => (default n (mapping !! n), v)) (f_cols f)).

(** ** The script's data *)

Definition selected_columns : list string :=
  ["title"; "activity_start_date"; "activity_end_date";
   "detail_text"; "main_text";
   "max_activity_day"; "max_per_team"; "min_activity_day";
   "min_per_team"; "notice_end_at"; "notice_start_at"; "person_number";
   "possible_child"; "team_number"; "participation_fee"; "supportive_child";
   "pet"; "is_paid_program"; "fcfs"; "participation_fee_by_team"; "sido_name";
   "sigg_name"; "is_full_subsidy"; "subsidy_for_1"; "subsidy_for_2"; "subsidy_for_3";
   "subsidy_for_4"; "subsidy_for_5"; "transportation_subsidy"; "accommodation_subsidy"; "experience_subsidy";
   "meal_subsidy"; "travel_subsidy"; "etc_subsidy"; "monthler_url"].

Definition bool_columns : list string :=
  ["possible_child"; "supportive_child"; "pet"; "is_paid_program"; "fcfs";
   "participation_fee_by_team"; "is_full_subsidy"; "transportation_subsidy";
   "accommodation_subsidy"; "experience_subsidy"; "meal_subsidy"; "travel_subsidy"].

Definition rename_map : gmap string string := py_dict [
  ("monthler_url", "한달살러 링크");
  ("title", "프로그램 제목");
  ("activity_start_date", "활동 시작 시간");
  ("activity_end_date", "활동 종료 시간");
  ("detail_text", "프로그램 상세 설명");
  ("main_text", "프로그램 요약 설명");
  ("max_activity_day", "최대 활동(여행)일수");
  ("min_activity_day", "최소 활동(여행)일수");
  ("max_per_team", "팀당 최대 인원");
  ("min_per_team", "팀당 최소 인원");
  ("notice_end_at", "공고(지원) 마감 시간");
  ("notice_start_at", "공고(지원) 시작 시간");
  ("person_number", "모집 인원 수");
  ("possible_child", "아이 동반 가능(아이 함께 가기)");
  ("team_number", "모집 팀 수");
  ("participation_fee", "참가비");
  ("supportive_child", "아이 지원금 지원 여부");
  ("pet", "반려동물 동반 가능 여부");
  ("is_paid_program", "유료 프로그램 여부");
  ("fcfs", "선착순 여부");
  ("participation_fee_by_team", "참가비가 팀 당 필요한지 여부");
  ("sido_name", "광역시/도 이름");
  ("sigg_name", "시/군/구 이름");
  ("is_full_subsidy", "전액 지원 여부");
  ("subsidy_for_1", "1인당 지원금");
  ("subsidy_for_2", "2인당 지원금");
  ("subsidy_for_3", "3인당 지원금");
  ("subsidy_for_4", "4인당 지원금");
  ("subsidy_for_5", "5인당 지원금");
  ("transportation_subsidy", "교통비 지원 여부");
  ("accommodation_subsidy", "숙박비 지원 여부");
  ("experience_subsidy", "체험비 지원 여부");
  ("meal_subsidy", "식비 지원 여부");
  ("travel_subsidy", "여행비 지원 여부");
  ("etc_subsidy", "기타 지원금 항목")].

(** ** The cell functions *)

(** Whether the double nearest to [m * 10^e] is 0.0: the decimal is at
    most half the smallest subnormal, 2^-1075, the tie rounding to the
    even 0.0. *)
Definition underflows (m : N) (e : Z) : bool :=
  (e <? 0)%Z && (Z.of_N m * 2 ^ 1075 <=? 10 ^ (- e))%Z.

(** Python's [bool(x)] on a cell; a float is false when it is 0.0, and a
    missing value is a float [nan], which is truthy. *)
Definition py_truthy (c : cell) : bool :=
  match c with
  | CStr s => negb (String.eqb s "")
  | CInt z => negb (Z.eqb z 0)
  | CBool b => b
  | CFloat _ m e => negb (N.eqb m 0) && negb (underflows m e)
  | CNaN => true
  end.

Definition possible : string := "가능".
Definition impossible : string := "불가능".

(** [lambda x: '가능' if x else '불가능'] *)
Definition to_possible (x : cell) : cell :=
  CStr (if py_truthy x then possible else impossible).

(** [ch in text] for one character. *)
Definition str_has (c : ascii) (t : string) : bool :=
  bool_decide (c ∈ String.list_ascii_of_string t).

Section Refine.
Variable get_text : string -> string.

(** [remove_html_tags(text)] *)
Definition remove_html_tags (text : cell) : cell :=
  match text with
  | CStr t => if str_has "<" t && str_has ">" t then CStr (get_text t) else text
  | _ => text
  end.

(** Lines 20-89 of refineData.py, from the frame [pd.read_csv] returns. *)
Definition refine_data (df : frame) : outcome frame :=
  df_refined ← frame_loc df selected_columns;
  detail ← get_column df_refined "detail_text";
  let df_refined := set_column df_refined "detail_text" (map remove_html_tags detail) in
  flags ← frame_loc df_refined bool_columns;
  let df_refined := assign_columns df_refined (applymap to_possible flags) in
  mret (rename_columns rename_map df_refined).

End Refine.

(** ** Printing floats

    [to_csv] writes a float64 column with [values.astype(str)], numpy's
    shortest round-trip [repr], whose rules are CPython's
    [format_float_short] in mode 'r' with [Py_DTSF_ADD_DOT_0]: with the
    digits [d] (no trailing zero) and the position [decpt] of the decimal
    point ([x = 0.d * 10^decpt]), the exponent form when
    [decpt <= -4] or [decpt > 16], else the positional form, with ".0"
    after an integral value.  For a decimal of at most 15 significant
    digits, the shortest digits of its double are its own digits, so the
    digits of [m] are the digits printed. *)
Fixpoint drop_zeros (cs : list ascii) : list ascii :=
  match cs with
  | c :: cs' => if decide (c = "0"%char) then drop_zeros cs' else cs
  | [] => []
  end.

Definition strip_zeros (d : string) : string :=
  String.string_of_list_ascii (rev (drop_zeros (rev (String.list_ascii_of_string d)))).

Definition zeros (n : nat) : string := String.string_of_list_ascii (repeat "0"%char n).

(** The exponent, with at least two digits. *)
Definition exp_digits (x : nat) : string := if decide (x < 10) then "0" +:+ pretty x else pretty x.

Definition float_repr (neg : bool) (m : N) (e : Z) : string :=
  (if neg then "-" else "") +:+
  (if decide (m = 0%N) then "0.0" else
   let d0 := pretty m in
   let decpt := (Z.of_nat (String.length d0) + e)%Z in
   let d := strip_zeros d0 in
   let n := String.length d in
   if decide (decpt <= -4 \/ 16 < decpt)%Z then
     let x := (decpt - 1)%Z in
     String.substring 0 1 d +:+ (if decide (n = 1) then "" else "." +:+ String.substring 1 (n - 1) d) +:+
     "e" +:+ (if decide (x < 0)%Z then "-" else "+") +:+ exp_digits (Z.to_nat (Z.abs x))
   else if decide (decpt <= 0)%Z then "0." +:+ zeros (Z.to_nat (- decpt)) +:+ d
   else if decide (Z.of_nat n <= decpt)%Z then d +:+ zeros (Z.to_nat decpt - n) +:+ ".0"
   else String.substring 0 (Z.to_nat decpt) d +:+ "." +:+
        String.substring (Z.to_nat decpt) (n - Z.to_nat decpt) d).

(** [str(x)] of a cell as [to_csv] writes it; a missing value is written
    as the empty string. *)
Definition cell_str (c : cell) : string :=
  match c with
  | CStr s => s
  | CInt z => pretty z
  | CBool b => if b then "True" else "False"
  | CFloat neg m e => float_repr neg m e
  | CNaN => ""
  end.

(** The cells [cell_str] writes as Python does: the floats of at most 15
    significant digits ([DBL_DIG]) whose decimal point position
    [decpt] lies in [-306, 308], inside the normal range of doubles; a
    float outside this range is written by numpy from its nearest
    double, which the decimal does not give. *)
Definition float_exact (c : cell) : bool :=
  match c with
  | CFloat _ m e =>
      let decpt := (Z.of_nat (String.length (pretty m)) + e)%Z in
      bool_decide (m = 0%N) ||
      (bool_decide (String.length (strip_zeros (pretty m)) <= 15) && bool_decide (-306 <= decpt <= 308)%Z)
  | _ => true
  end.

Definition frame_exact (f : frame) : bool := forallb (fun '(_, v) => forallb float_exact v) (f_cols f).

Definition frame_rows (f : frame) : list (list cell) :=
  map (fun i => map (fun '(_, v) => default CNaN (v !! i)) (f_cols f)) (seq 0 (f_nrows f)).

(** [df.to_csv(path, index=False)] before quoting: the header and the
    rows of strings. *)
Definition to_csv (f : frame) : list string * list (list string) :=
  (map fst (f_cols f), map (map cell_str) (frame_rows f)).

(** What pandas prints for [df.loc[:, selected_columns]] when no
    selected column is in [df]. *)
Definition none_of_selected : string :=
  "None of [Index(['title', 'activity_start_date', 'activity_end_date', 'detail_text',
       'main_text', 'max_activity_day', 'max_per_team', 'min_activity_day',
       'min_per_team', 'notice_end_at', 'notice_start_at', 'person_number',
       'possible_child', 'team_number', 'participation_fee',
       'supportive_child', 'pet', 'is_paid_program', 'fcfs',
       'participation_fee_by_team', 'sido_name', 'sigg_name',
       'is_full_subsidy', 'subsidy_for_1', 'subsidy_for_2', 'subsidy_for_3',
       'subsidy_for_4', 'subsidy_for_5', 'transportation_subsidy',
       'accommodation_subsidy', 'experience_subsidy', 'meal_subsidy',
       'travel_subsidy', 'etc_subsidy', 'monthler_url'],
      dtype='object')] are in the [columns]".

(** The columns of the refined table, in order. *)
Definition refined_columns : list string :=
  ["프로그램 제목"; "활동 시작 시간"; "활동 종료 시간";
   "프로그램 상세 설명"; "프로그램 요약 설명";
   "최대 활동(여행)일수"; "팀당 최대 인원"; "최소 활동(여행)일수";
   "팀당 최소 인원"; "공고(지원) 마감 시간"; "공고(지원) 시작 시간"; "모집 인원 수";
   "아이 동반 가능(아이 함께 가기)"; "모집 팀 수"; "참가비"; "아이 지원금 지원 여부";
   "반려동물 동반 가능 여부"; "유료 프로그램 여부"; "선착순 여부"; "참가비가 팀 당 필요한지 여부";
   "광역시/도 이름"; "시/군/구 이름"; "전액 지원 여부"; "1인당 지원금"; "2인당 지원금";
   "3인당 지원금"; "4인당 지원금"; "5인당 지원금"; "교통비 지원 여부"; "숙박비 지원 여부";
   "체험비 지원 여부"; "식비 지원 여부"; "여행비 지원 여부"; "기타 지원금 항목"; "한달살러 링크"].

(** The name a column gets from [rename]. *)
Definition renamed (c : string) : string := default c (rename_map !! c).

(** What the script does to the cells of the selected column [c]. *)
Definition refine_cell (get_text : string -> string) (c : string) : cell -> cell :=
  if decide (c ∈ bool_columns) then to_possible
  else if decide (c = "detail_text") then remove_html_tags get_text else id.

(** A table whose columns are [names], each computed from its name. *)
Definition named_cols (names : list string) (g : string -> list cell) : list (string * list cell) :=
  map (fun n => (n, g n)) names.

(** ** Lemmas on the printing of floats *)

Lemma drop_zeros_spec (r : list ascii) :
  exists k, k <= length r /\ drop_zeros r = drop k r /\ take k r = repeat "0"%char k.
Proof.
  induction r as [|c r IH]; [by exists 0|]. cbn [drop_zeros].
  destruct (decide (c = "0"%char)) as [->|Hc].
  - destruct IH as (k & Hk & Hd & Ht). exists (S k). simpl. rewrite Ht. split_and!; [lia|done|done].
  - exists 0. split_and!; [lia|done|done].
Qed.

(** The digits without their trailing zeros, and the zeros. *)
Lemma strip_zeros_spec d :
  exists k, k <= String.length d /\ strip_zeros d +:+ zeros k = d /\
    String.length (strip_zeros d) = String.length d - k.
Proof.
  destruct (drop_zeros_spec (rev (String.list_ascii_of_string d))) as (k & Hk & Hd & Ht).
  rewrite length_rev, <- string_length_list in Hk.
  exists k. unfold strip_zeros, zeros. rewrite Hd. split_and!; [done| |].
  - apply list_ascii_of_string_inj.
    rewrite list_ascii_of_string_append, !String.list_ascii_of_string_of_list_ascii.
    rewrite <- (rev_repeat k "0"%char), <- Ht, <- rev_app_distr, take_drop. apply rev_involutive.
  - rewrite !string_length_list, String.list_ascii_of_string_of_list_ascii, length_rev, length_drop, length_rev.
    done.
Qed.
Lemma pretty_N_go_length x s : String.length s <= String.length (pretty_N_go x s).
Proof.
  revert s. induction (N.lt_wf_0 x) as [x _ IH]; intros s.
  destruct (decide (x = 0%N)) as [->|Hx]; [by rewrite pretty_N_go_0|].
  rewrite pretty_N_go_step by lia. etrans; [|apply IH; apply N.div_lt; lia]. simpl. lia.
Qed.

Lemma pretty_N_nonempty (m : N) : 1 <= String.length (pretty m).
Proof.
  unfold pretty, pretty_N. case_decide; [done|].
  rewrite pretty_N_go_step by lia. apply (pretty_N_go_length _ (String _ "")).
Qed.

Lemma pretty_N_go_bound k : forall x s,
  (x < 10 ^ N.of_nat k)%N -> String.length (pretty_N_go x s) <= String.length s + k.
Proof.
  induction k as [|k IH]; intros x s Hx.
  - assert (x = 0%N) as -> by (simpl in Hx; lia). rewrite pretty_N_go_0. lia.
  - destruct (decide (x = 0%N)) as [->|Hnz]; [rewrite pretty_N_go_0; lia|].
    rewrite pretty_N_go_step by lia. etrans; [apply IH|simpl; lia].
    apply N.Div0.div_lt_upper_bound. by rewrite Nat2N.inj_succ, N.pow_succ_r' in Hx.
Qed.

(** A number below [10^k] has at most [k] digits. *)
Lemma pretty_N_length_bound (m : N) k : 1 <= k -> (m < 10 ^ N.of_nat k)%N -> String.length (pretty m) <= k.
Proof.
  intros Hk Hm. unfold pretty, pretty_N. case_decide; [simpl; lia|].
  apply (pretty_N_go_bound k m ""). done.
Qed.

(** A non-zero integral float of at most 16 digits is written with its
    digits and ".0". *)
Lemma float_repr_integral neg (m : N) :
  m <> 0%N -> String.length (pretty m) <= 16 ->
  float_repr neg m 0 = (if neg then "-" else "") +:+ pretty m +:+ ".0".
Proof.
  intros Hm Hlen. pose proof (pretty_N_nonempty m).
  destruct (strip_zeros_spec (pretty m)) as (k & Hk & Hd & Hn).
  unfold float_repr. rewrite decide_False by done. cbv zeta. rewrite Z.add_0_r.
  rewrite decide_False by lia. rewrite decide_False by lia. rewrite decide_True by lia.
  f_equal. rewrite <- string_append_assoc. f_equal.
  rewrite Nat2Z.id, Hn. replace (String.length (pretty m) - (String.length (pretty m) - k)) with k by lia.
  exact Hd.
Qed.

(** ** Lemmas on the pandas operations *)

Lemma col_lookup_named names g n :
  col_lookup (named_cols names g) n = if decide (n ∈ names) then Some (g n) else None.
Proof.
  induction names as [|m names IH]; cbn [named_cols map col_lookup]; [done|].
  destruct (decide (m = n)) as [<-|Hmn]; [by rewrite decide_True by set_solver|].
  fold (named_cols names g). rewrite IH. case_decide; case_decide; set_solver.
Qed.

Lemma filter_none_nil (P : string -> Prop) `{!forall n, Decision (P n)} names :
  (forall n, n ∈ names -> ~ P n) -> filter P names = [].
Proof.
  induction names as [|m names IH]; intros Hn; [done|].
  rewrite filter_cons_False by set_solver. apply IH. set_solver.
Qed.

Lemma frame_loc_ok f names :
  (forall n, n ∈ names -> is_Some (col_lookup (f_cols f) n)) ->
  frame_loc f names = Ok (mkFrame (f_nrows f) (named_cols names (fun n => default [] (col_lookup (f_cols f) n)))).
Proof.
  intros Hall. unfold frame_loc. cbv zeta. rewrite filter_none_nil; [by rewrite decide_True|].
  intros n Hn Hnone. destruct (Hall n Hn) as [v Hv]. congruence.
Qed.

Lemma frame_loc_all_missing f names :
  names <> [] -> Forall (fun n => col_lookup (f_cols f) n = None) names ->
  frame_loc f names = Err (KeyError ("None of [" +:+ index_repr names +:+ "] are in the [columns]")).
Proof.
  intros Hne Hall. unfold frame_loc. cbv zeta. rewrite filter_all by done.
  rewrite decide_False by done. by rewrite decide_True.
Qed.

Lemma frame_loc_some_missing f names m :
  filter (fun n => col_lookup (f_cols f) n = None) names <> [] ->
  m ∈ names -> col_lookup (f_cols f) m <> None ->
  frame_loc f names =
  Err (KeyError (py_list_repr (filter (fun n => col_lookup (f_cols f) n = None) names) +:+ " not in index")).
Proof.
  intros Hne Hm Hsome. unfold frame_loc. cbv zeta. rewrite decide_False by done.
  pose proof (length_filter_lt (fun n => col_lookup (f_cols f) n = None) names m Hm Hsome).
  rewrite decide_False; [done|lia].
Qed.

Lemma set_column_named k names g n v :
  n ∈ names ->
  set_column (mkFrame k (named_cols names g)) n v =
  mkFrame k (named_cols names (fun m => if decide (m = n) then v else g m)).
Proof.
  intros Hn. unfold set_column. simpl. rewrite col_lookup_named, decide_True by done.
  f_equal. unfold named_cols. rewrite map_map. apply map_ext. intros m. by case_decide.
Qed.

Lemma assign_columns_named k names g names2 h :
  names2 ⊆ names ->
  assign_columns (mkFrame k (named_cols names g)) (mkFrame k (named_cols names2 h)) =
  mkFrame k (named_cols names (fun m => if decide (m ∈ names2) then h m else g m)).
Proof.
  unfold assign_columns. cbn [f_cols]. revert g.
  induction names2 as [|n names2 IH]; intros g Hsub; cbn [named_cols map foldl].
  - f_equal; unfold named_cols; apply map_ext; intros m; by rewrite decide_False by set_solver.
  - rewrite set_column_named by set_solver. rewrite IH by set_solver.
    f_equal. unfold named_cols. apply map_ext. intros m. f_equal.
    repeat case_decide; set_solver.
Qed.

Lemma applymap_named k names g h :
  applymap h (mkFrame k (named_cols names g)) = mkFrame k (named_cols names (fun n => map h (g n))).
Proof. unfold applymap, named_cols. simpl. f_equal. by rewrite map_map. Qed.

Lemma rename_columns_named k m names g :
  rename_columns m (mkFrame k (named_cols names g)) =
  mkFrame k (map (fun n => (default n (m !! n), g n)) names).
Proof. unfold rename_columns, named_cols. simpl. f_equal. by rewrite map_map. Qed.

Lemma bool_columns_selected : bool_columns ⊆ selected_columns.
Proof. decide_by_eval. Qed.

Lemma detail_text_not_flag : "detail_text" ∉ bool_columns.
Proof. decide_by_eval. Qed.

Lemma named_cols_ext names g g' :
  (forall n, n ∈ names -> g n = g' n) -> named_cols names g = named_cols names g'.
Proof. intros Hg. apply map_ext_in. intros n Hn. f_equal. apply Hg. by apply list_elem_of_In. Qed.

Lemma detail_text_selected : "detail_text" ∈ selected_columns.
Proof. decide_by_eval. Qed.

Lemma get_column_named k names g n :
  n ∈ names -> get_column (mkFrame k (named_cols names g)) n = Ok (g n).
Proof. intros Hn. unfold get_column. simpl. by rewrite col_lookup_named, decide_True. Qed.

(** The refined table, column by column: for each selected column [c] in
    the order of the selection, the column [renamed c] holding the cells
    of [c] transformed by [refine_cell c]. *)
Definition refined_frame (get_text : string -> string) (df : frame) : frame :=
  mkFrame (f_nrows df)
    (map (fun c => (renamed c, map (refine_cell get_text c) (default [] (col_lookup (f_cols df) c))))
       selected_columns).

Lemma refine_data_ok get_text df :
  (forall n, n ∈ selected_columns -> is_Some (col_lookup (f_cols df) n)) ->
  refine_data get_text df = Ok (refined_frame get_text df).
Proof.
  intros Hall. unfold refine_data. rewrite frame_loc_ok by done. cbn [mbind outcome_bind].
  rewrite get_column_named by apply detail_text_selected. cbn [mbind outcome_bind].
  rewrite set_column_named by apply detail_text_selected.
  rewrite frame_loc_ok; cycle 1.
  { intros n Hn. cbn [f_cols]. rewrite col_lookup_named, decide_True; [done|].
    by apply bool_columns_selected. }
  cbn [mbind outcome_bind f_cols f_nrows].
  rewrite (named_cols_ext bool_columns _
             (fun n => default [] (col_lookup (f_cols df) n))); cycle 1.
  { intros n Hn. rewrite col_lookup_named, decide_True by (by apply bool_columns_selected).
    simpl. rewrite decide_False; [done|]. intros ->. by apply detail_text_not_flag. }
  rewrite applymap_named, assign_columns_named by apply bool_columns_selected.
  unfold mret, outcome_ret. rewrite rename_columns_named. unfold refined_frame, refine_cell, renamed.
  do 2 f_equal. apply map_ext. intros c. f_equal.
  destruct (decide (c ∈ bool_columns)); [done|].
  destruct (decide (c = "detail_text")) as [->|]; [done|]. by rewrite map_id.
Qed.

Lemma col_lookup_in cols n v : col_lookup cols n = Some v -> (n, v) ∈ cols.
Proof.
  induction cols as [|[m w] cols IH]; simpl; [done|].
  case_decide; [intros [= <-]; subst; by left|]. intros. right. by apply IH.
Qed.

Lemma col_lookup_length f n v :
  frame_wf f -> col_lookup (f_cols f) n = Some v -> length v = f_nrows f.
Proof.
  intros [_ Hlen] Hn. apply col_lookup_in in Hn.
  by apply (proj1 (Forall_forall _ _) Hlen) in Hn.
Qed.

Lemma col_lookup_map_inj (r : string -> string) (g : string -> list cell) names n :
  NoDup (map r names) -> n ∈ names ->
  col_lookup (map (fun c => (r c, g c)) names) (r n) = Some (g n).
Proof.
  induction names as [|m names IH]; simpl; [set_solver|].
  intros Hnd Hn. apply NoDup_cons in Hnd as [Hm Hnd].
  case_decide as Hr.
  - destruct (decide (m = n)) as [->|Hne]; [done|].
    exfalso. apply Hm. rewrite Hr. apply (list_elem_of_fmap_2 r). set_solver.
  - apply IH; [done|]. apply elem_of_cons in Hn as [->|]; [done|done].
Qed.

Lemma renamed_columns : map renamed selected_columns = refined_columns.
Proof. vm_compute. reflexivity. Qed.

Lemma refined_columns_NoDup : NoDup refined_columns.
Proof. decide_by_eval. Qed.

Lemma refined_frame_lookup get_text df c v :
  c ∈ selected_columns -> col_lookup (f_cols df) c = Some v ->
  col_lookup (f_cols (refined_frame get_text df)) (renamed c) = Some (map (refine_cell get_text c) v).
Proof.
  intros Hc Hv. unfold refined_frame. cbn [f_cols].
  rewrite (col_lookup_map_inj renamed (fun c => map (refine_cell get_text c) (default [] (col_lookup (f_cols df) c))));
    [by rewrite Hv|by rewrite renamed_columns; apply refined_columns_NoDup|done].
Qed.

(** ** The refined table *)

(** C17: when the raw table has the 35 selected columns, the script
    succeeds and the refined table has exactly the 35 Korean column names
    in the order of the selection, pairwise distinct, as many rows as the
    raw table, and one cell per row in every column. *)
Theorem refine_data_columns get_text df :
  frame_wf df ->
  (forall n, n ∈ selected_columns -> is_Some (col_lookup (f_cols df) n)) ->
  exists out,
    refine_data get_text df = Ok out /\
    map fst (f_cols out) = refined_columns /\
    f_nrows out = f_nrows df /\ frame_wf out.
Proof.
  intros Hwf Hall. exists (refined_frame get_text df).
  rewrite refine_data_ok by done.
  assert (Hnames : map fst (f_cols (refined_frame get_text df)) = refined_columns).
  { unfold refined_frame. cbn [f_cols]. rewrite map_map. apply renamed_columns. }
  split_and!; [done|done|done|split].
  - rewrite Hnames. apply refined_columns_NoDup.
  - apply Forall_forall. intros [n w] Hin. unfold refined_frame in Hin. cbn [f_cols] in Hin.
    apply list_elem_of_fmap_1 in Hin as (c & [= -> ->] & Hc). cbn [snd f_nrows].
    destruct (Hall c Hc) as [v Hv]. rewrite Hv, length_map.
    by apply (col_lookup_length df c).
Qed.

(** C18: each of the twelve flag columns becomes, under its Korean name,
    the column of "가능" where the raw cell is truthy in Python and
    "불가능" where it is not; a missing cell ([NaN], a truthy float) is
    written "가능". *)
Theorem refine_data_flags get_text df c v :
  (forall n, n ∈ selected_columns -> is_Some (col_lookup (f_cols df) n)) ->
  c ∈ bool_columns -> col_lookup (f_cols df) c = Some v ->
  exists out,
    refine_data get_text df = Ok out /\
    col_lookup (f_cols out) (renamed c) =
      Some (map (fun x => CStr (if py_truthy x then possible else impossible)) v) /\
    (forall i, v !! i = Some CNaN -> col_lookup (f_cols out) (renamed c) ≫= (fun w => w !! i) = Some (CStr possible)).
Proof.
  intros Hall Hc Hv. exists (refined_frame get_text df).
  rewrite refine_data_ok by done.
  rewrite (refined_frame_lookup get_text df c v (bool_columns_selected c Hc) Hv).
  unfold refine_cell. rewrite decide_True by done.
  split_and!; [done|done|]. intros i Hi. simpl. by rewrite list_lookup_fmap, Hi.
Qed.

(** C19: the selected columns other than the flags keep their cells
    under their Korean name, except ["detail_text"], where exactly the
    string cells containing both '<' and '>' are replaced by
    BeautifulSoup's text of them; missing and numeric cells stay. *)
Theorem refine_data_text_columns get_text df c v :
  (forall n, n ∈ selected_columns -> is_Some (col_lookup (f_cols df) n)) ->
  c ∈ selected_columns -> c ∉ bool_columns -> col_lookup (f_cols df) c = Some v ->
  exists out,
    refine_data get_text df = Ok out /\
    col_lookup (f_cols out) (renamed c) =
      Some (if decide (c = "detail_text")
            then map (fun x => match x with
                               | CStr t => if str_has "<" t && str_has ">" t then CStr (get_text t) else x
                               | _ => x
                               end) v
            else v).
Proof.
  intros Hall Hc Hnf Hv. exists (refined_frame get_text df).
  rewrite refine_data_ok, (refined_frame_lookup get_text df c v Hc Hv) by done.
  split; [done|]. unfold refine_cell. rewrite decide_False by done.
  case_decide; [done|by rewrite map_id].
Qed.

(** The message of pandas when none of the 35 selected columns is in the
    table: the Index of the selection, as [repr] prints it on 80
    columns. *)
Lemma none_of_selected_msg :
  "None of [" +:+ index_repr selected_columns +:+ "] are in the [columns]" = none_of_selected.
Proof. vm_compute. reflexivity. Qed.

(** C20: when some selected columns are absent from the raw table, the
    script stops at the selection with pandas' [KeyError] and writes
    nothing: when none of the 35 is a column the message shows the Index
    of the selection ([none_of_selected]), otherwise it lists the absent
    ones. *)
Theorem refine_data_missing_column get_text df n :
  n ∈ selected_columns -> col_lookup (f_cols df) n = None ->
  refine_data get_text df =
  Err (KeyError
    (if decide (Forall (fun m => col_lookup (f_cols df) m = None) selected_columns)
     then none_of_selected
     else py_list_repr (filter (fun m => col_lookup (f_cols df) m = None) selected_columns) +:+ " not in index")).
Proof.
  intros Hn Hnone. unfold refine_data. case_decide as Hall.
  - rewrite frame_loc_all_missing by (done || by intros ?). by rewrite none_of_selected_msg.
  - apply not_Forall_Exists in Hall; [|apply _]. apply Exists_exists in Hall as (m & Hm & Hsome).
    rewrite (frame_loc_some_missing _ _ m); [done| |done|done].
    intros Hnil. eapply filter_nil_not_elem_of; [exact Hnil|exact Hnone|exact Hn].
Qed.

(** ** Concrete runs *)

(** A stand-in for BeautifulSoup's [get_text] on simple markup: the
    characters outside [<...>]. *)
Fixpoint strip_tags_go (in_tag : bool) (cs : list ascii) : list ascii :=
  match cs with
  | [] => []
  | c :: cs' =>
      if decide (c = "<"%char) then strip_tags_go true cs'
      else if in_tag then strip_tags_go (negb (bool_decide (c = ">"%char))) cs'
      else c :: strip_tags_go false cs'
  end.

Definition strip_tags (t : string) : string :=
  String.string_of_list_ascii (strip_tags_go false (String.list_ascii_of_string t)).

(** A raw table of two rows with an extra column "program_id": flags
    false and missing, a detail text with markup and one with a bare
    '<'. *)
Definition sample_raw_col (c : string) : list cell :=
  if decide (c ∈ bool_columns) then [CBool false; CNaN]
  else if decide (c = "detail_text") then [CStr "<p>Jeju</p>"; CStr "1 < 2"]
  else [CStr c; CInt 3].

Definition sample_raw : frame :=
  mkFrame 2 (map (fun c => (c, sample_raw_col c)) ("program_id" :: selected_columns)).

Lemma sample_raw_wf : frame_wf sample_raw.
Proof. unfold frame_wf. decide_by_eval. Qed.

Lemma sample_raw_complete n : n ∈ selected_columns -> is_Some (col_lookup (f_cols sample_raw) n).
Proof.
  revert n. apply Forall_forall.
  apply (bool_decide_unpack (Forall (fun n => is_Some (col_lookup (f_cols sample_raw) n)) selected_columns)
           (dec := _)). by vm_compute.
Qed.

(** Witness of C17. *)
Lemma refine_data_columns_witness :
  exists out,
    refine_data strip_tags sample_raw = Ok out /\ map fst (f_cols out) = refined_columns /\ f_nrows out = 2.
Proof.
  destruct (refine_data_columns strip_tags sample_raw sample_raw_wf sample_raw_complete)
    as (out & Hrun & Hcols & Hrows & _).
  exists out. split_and!; [exact Hrun|exact Hcols|exact Hrows].
Defined.

(** Witness of C18: the pet flag, false then missing. *)
Lemma refine_data_flags_witness :
  exists out,
    refine_data strip_tags sample_raw = Ok out /\
    col_lookup (f_cols out) "반려동물 동반 가능 여부" = Some [CStr "불가능"; CStr "가능"].
Proof.
  destruct (refine_data_flags strip_tags sample_raw "pet" [CBool false; CNaN] sample_raw_complete)
    as (out & Hrun & Hcol & _); [decide_by_eval|reflexivity|].
  exists out. split; [exact Hrun|].
  replace "반려동물 동반 가능 여부" with (renamed "pet") by (vm_compute; reflexivity).
  rewrite Hcol. reflexivity.
Defined.

(** Witness of C19: the markup of the first detail text is stripped, the
    second text, with no '>', is kept. *)
Lemma refine_data_text_columns_witness :
  exists out,
    refine_data strip_tags sample_raw = Ok out /\
    col_lookup (f_cols out) "프로그램 상세 설명" = Some [CStr "Jeju"; CStr "1 < 2"].
Proof.
  destruct (refine_data_text_columns strip_tags sample_raw "detail_text"
              [CStr "<p>Jeju</p>"; CStr "1 < 2"] sample_raw_complete)
    as (out & Hrun & Hcol); [decide_by_eval|decide_by_eval|reflexivity|].
  exists out. split; [exact Hrun|].
  replace "프로그램 상세 설명" with (renamed "detail_text") by (vm_compute; reflexivity).
  rewrite Hcol. vm_compute. reflexivity.
Defined.

(** Witness of C20: without the "pet" column the message lists it;
    with no column at all it shows the Index of the selection. *)
Lemma refine_data_missing_column_witness :
  refine_data strip_tags (mkFrame 2 (filter (fun c => c.1 <> "pet") (f_cols sample_raw))) =
  Err (KeyError "['pet'] not in index") /\
  refine_data strip_tags (mkFrame 0 []) = Err (KeyError none_of_selected).
Proof.
  split.
  - rewrite (refine_data_missing_column strip_tags _ "pet"); [|decide_by_eval|reflexivity].
    vm_compute. reflexivity.
  - rewrite (refine_data_missing_column strip_tags _ "title"); [|decide_by_eval|reflexivity].
    rewrite decide_True; [done|]. apply Forall_forall. intros m _. reflexivity.
Defined.
