(* ===== verification/Csv.v ===== *)
(** * The CSV file between the two scripts

    refineData.py writes the refined table with [df.to_csv(path,
    index=False)], which runs Python's [csv.writer] (dialect "excel",
    [QUOTE_MINIMAL], line terminator "\n"); embeddingPrograms.py reads it
    back with [CSVLoader], which runs [csv.DictReader] on the file opened
    with [newline=''].  This file models the writer ([write_csv]), the
    line splitting of a text file in universal-newline mode ([to_syms],
    which marks the end of each line with [EOL]), the reader's state
    machine of CPython's [_csv.c] ([read_char], [read_eol], [read_syms]),
    with its field size limit of 131072 characters, and [CSVLoader] on
    the text ([csv_load]).  The same state machine, without the limit
    and refusing a file that ends inside a quoted field, is pandas' C
    tokenizer ([tokenize PandasC], used by Pandas.v).  The main theorem
    is the round trip: reading what the writer wrote gives back the rows,
    for every field content (commas, quotes, newlines and carriage
    returns included), exactly when every field has at most 131072
    characters, and raises the field limit error otherwise; and the
    field limit is the only error the reader raises, on any text. *)

From Stdlib Require Import Ascii.
From S2P Require Import Prelude OpenAI Ingest.

(** ** The writer *)

Definition dquote : ascii := "034"%char.
Definition comma : ascii := ","%char.
Definition lf : ascii := "010"%char.
Definition cr : ascii := "013"%char.

(** [QUOTE_MINIMAL]: a field is quoted when it contains the delimiter,
    the quote character or a line break. *)
Definition needs_quote (cs : list ascii) : bool :=
  existsb (fun c => bool_decide (c ∈ [comma; dquote; lf; cr])) cs.

(** [doublequote=True]: a quote inside a quoted field is doubled. *)
Fixpoint escape_quotes (cs : list ascii) : list ascii :=
  match cs with
  | [] => []
  | c :: cs' => if decide (c = dquote) then dquote :: dquote :: escape_quotes cs' else c :: escape_quotes cs'
  end.

Definition quote_field (f : string) : list ascii :=
  let cs := String.list_ascii_of_string f in
  if needs_quote cs then dquote :: escape_quotes cs ++ [dquote] else cs.

Fixpoint join_fields (fs : list string) : list ascii :=
  match fs with
  | [] => []
  | [f] => quote_field f
  | f :: fs' => quote_field f ++ comma :: join_fields fs'
  end.

(** [writer.writerow(fields)]: a record made of one empty field is
    written as a quoted empty string, so that it is not read back as an
    empty line. *)
Definition write_row (fields : list string) : list ascii :=
  match fields with
  | [f] => if String.eqb f "" then [dquote; dquote] else quote_field f
  | _ => join_fields fields
  end ++ [lf].

(** The text [to_csv] writes: the header line, then one line per row. *)
Definition write_csv (header : list string) (rows : list (list string)) : list ascii :=
  concat (map write_row (header :: rows)).

(** ** Reading a text file line by line *)

(** The reader sees each line of the file, its terminator included, then
    the end-of-line mark [EOL]; with [newline=''] a line ends at "\n",
    at "\r\n" or at a "\r" not followed by "\n", and the last line may
    have no terminator. *)
Inductive sym := Ch (c : ascii) | EOL.

Fixpoint to_syms (cs : list ascii) : list sym :=
  match cs with
  | [] => []
  | c :: cs' =>
      if decide (c = lf) then Ch c :: EOL :: to_syms cs'
      else if decide (c = cr) then
        match cs' with
        | c' :: cs'' => if decide (c' = lf) then Ch c :: Ch c' :: EOL :: to_syms cs''
                        else Ch c :: EOL :: to_syms cs'
        | [] => [Ch c; EOL]
        end
      else match cs' with
           | [] => [Ch c; EOL]
           | _ => Ch c :: to_syms cs'
           end
  end.

(** ** The reader's state machine *)

Inductive rstate :=
| StartRecord | StartField | InField | InQuoted | QuoteInQuoted | EatCRNL.

Global Instance rstate_eq_dec : EqDecision rstate.
Proof. solve_decision. Defined.

(** The parser: its state, the field being read and the fields of the
    record read so far. *)
Record reader := mkReader { r_state : rstate; r_field : list ascii; r_fields : list string }.

Definition reader0 : reader := mkReader StartRecord [] [].

(** The two tokenizers that run this state machine on the quoting rules
    of the dialect "excel": Python's [csv.reader] ([_csv.c]) and pandas'
    C tokenizer ([tokenizer.c]).  They differ in the size limit of a
    field and at the end of a file left inside a quoted field. *)
Inductive tokenizer := PyCsv | PandasC.

(** [_csv.field_size_limit()], 128 * 1024 by default. *)
Definition field_limit : N := 131072.

(** [field_len]: the number of characters of a field, a character being
    a byte that is not a UTF-8 continuation byte. *)
Fixpoint char_count (cs : list ascii) : N :=
  match cs with
  | [] => 0
  | c :: cs' => (if is_cont_byte c then 0 else 1) + char_count cs'
  end%N.

Definition field_limit_error : exn := CsvError "field larger than field limit (131072)".

(** [parse_save_field] *)
Definition save_field (st : rstate) (r : reader) : reader :=
  mkReader st [] (r_fields r ++ [String.string_of_list_ascii (r_field r)]).

(** [parse_add_char]: [csv.reader] refuses to start a character of a
    field that has [field_limit] characters already; pandas has no
    limit. *)
Definition add_char (tk : tokenizer) (st : rstate) (c : ascii) (r : reader) : outcome reader :=
  if (if tk is PyCsv then negb (is_cont_byte c) && (field_limit <=? char_count (r_field r))%N else false)
  then Err field_limit_error
  else Ok (mkReader st (r_field r ++ [c]) (r_fields r)).

Definition set_state (st : rstate) (r : reader) : reader :=
  mkReader st (r_field r) (r_fields r).

Definition is_newline (c : ascii) : bool := bool_decide (c = lf \/ c = cr).

(** [START_FIELD] on a character. *)
Definition start_field (tk : tokenizer) (c : ascii) (r : reader) : outcome reader :=
  if is_newline c then Ok (save_field EatCRNL r)
  else if decide (c = dquote) then Ok (set_state InQuoted r)
  else if decide (c = comma) then Ok (save_field StartField r)
  else add_char tk InField c r.

(** [parse_process_char] on a character, for the dialect "excel"
    ([strict] false, no escape character, [skipinitialspace] false). *)
Definition read_char (tk : tokenizer) (c : ascii) (r : reader) : outcome reader :=
  match r_state r with
  | StartRecord => if is_newline c then Ok (set_state EatCRNL r) else start_field tk c r
  | StartField => start_field tk c r
  | InField =>
      if is_newline c then Ok (save_field EatCRNL r)
      else if decide (c = comma) then Ok (save_field StartField r)
      else add_char tk InField c r
  | InQuoted => if decide (c = dquote) then Ok (set_state QuoteInQuoted r) else add_char tk InQuoted c r
  | QuoteInQuoted =>
      if decide (c = dquote) then add_char tk InQuoted c r
      else if decide (c = comma) then Ok (save_field StartField r)
      else if is_newline c then Ok (save_field EatCRNL r)
      else add_char tk InField c r
  | EatCRNL =>
      if is_newline c then Ok r
      else Err (CsvError "new-line character seen in unquoted field - do you need to open the file in universal-newline mode?")
  end.

(** [parse_process_char] on the end-of-line mark. *)
Definition read_eol (r : reader) : reader :=
  match r_state r with
  | StartRecord => r
  | StartField | InField | QuoteInQuoted => save_field StartRecord r
  | InQuoted => r
  | EatCRNL => set_state StartRecord r
  end.

(** pandas' [parser_handle_eof] in a quoted field; [file_lines] counts the
    lines ended before, blank ones included. *)
Definition eof_in_string (line : nat) : exn :=
  ParserError ("Error tokenizing data. C error: EOF inside string starting at row " +:+ pretty line).

(** The records of a text: a record is complete when a line leaves the
    parser at [START_RECORD], and [n] counts the records read.  At the
    end of the file an unfinished record is kept when its last field
    has text; an open quoted field is kept by [csv.reader] and refused
    by pandas. *)
Fixpoint read_syms (tk : tokenizer) (n : nat) (r : reader) (ss : list sym) : outcome (list (list string)) :=
  match ss with
  | [] =>
      match r_state r with
      | StartRecord => Ok []
      | InQuoted => if tk is PyCsv then Ok [r_fields (save_field StartRecord r)] else Err (eof_in_string n)
      | _ => if r_field r is [] then Ok [] else Ok [r_fields (save_field StartRecord r)]
      end
  | EOL :: ss' =>
      let r' := read_eol r in
      if decide (r_state r' = StartRecord) then
        recs ← read_syms tk (S n) reader0 ss'; mret (r_fields r' :: recs)
      else read_syms tk n r' ss'
  | Ch c :: ss' => r' ← read_char tk c r; read_syms tk n r' ss'
  end.

Definition tokenize (tk : tokenizer) (cs : list ascii) : outcome (list (list string)) :=
  read_syms tk 0 reader0 (to_syms cs).

(** [csv.reader] on the text of a file opened with [newline='']. *)
Definition read_csv (cs : list ascii) : outcome (list (list string)) := tokenize PyCsv cs.

(** [CSVLoader(file_path).load()] on the text of the file: the first
    record is [DictReader]'s field names, empty records are skipped. *)
Definition csv_load (file_path : string) (cs : list ascii) : outcome (list document) :=
  recs ← read_csv cs;
  match recs with
  | [] => mret []
  | header :: rows => mret (csv_loader file_path header (filter (fun row => row <> []) rows))
  end.

(** ** Lemmas on the line splitting *)

Lemma to_syms_plain c Y :
  c <> lf -> c <> cr -> Y <> [] -> to_syms (c :: Y) = Ch c :: to_syms Y.
Proof. intros Hlf Hcr HY. simpl. rewrite !decide_False by done. by destruct Y. Qed.

Lemma to_syms_lf Y : to_syms (lf :: Y) = Ch lf :: EOL :: to_syms Y.
Proof. done. Qed.

Lemma to_syms_cr_lf Y : to_syms (cr :: lf :: Y) = Ch cr :: Ch lf :: EOL :: to_syms Y.
Proof. done. Qed.

Lemma to_syms_cr c Y : c <> lf -> to_syms (cr :: c :: Y) = Ch cr :: EOL :: to_syms (c :: Y).
Proof. intros Hc. simpl. by rewrite decide_False. Qed.

Lemma dquote_plain : dquote <> lf /\ dquote <> cr.
Proof. done. Qed.

Lemma comma_plain : comma <> lf /\ comma <> cr.
Proof. done. Qed.

(** ** Lemmas on the reader *)

(** Whether a tokenizer reads a field of this text without raising. *)
Definition field_fits (tk : tokenizer) (cs : list ascii) : bool :=
  if tk is PyCsv then (char_count cs <=? field_limit)%N else true.

Definition str_fits (tk : tokenizer) (f : string) : bool := field_fits tk (String.list_ascii_of_string f).

(** The fields [csv.reader] accepts: at most [field_limit] characters. *)
Definition fits_limit (f : string) : bool := str_fits PyCsv f.

Lemma char_count_app xs ys : char_count (xs ++ ys) = (char_count xs + char_count ys)%N.
Proof. induction xs as [|c xs IH]; [done|]. simpl. rewrite IH. lia. Qed.

Lemma field_fits_app tk xs ys : field_fits tk (xs ++ ys) = true -> field_fits tk xs = true.
Proof.
  destruct tk; [|done]. simpl. rewrite !N.leb_le, char_count_app. lia.
Qed.

Lemma field_fits_app_false tk xs ys : field_fits tk xs = false -> field_fits tk (xs ++ ys) = false.
Proof. destruct (field_fits tk (xs ++ ys)) eqn:E; [|done]. by rewrite (field_fits_app _ _ _ E). Qed.

Lemma field_fits_nil tk : field_fits tk [] = true.
Proof. by destruct tk. Qed.

(** [parse_add_char] raises exactly when the field with the new byte is
    over the limit. *)
Lemma add_char_spec tk st c r :
  field_fits tk (r_field r) = true ->
  add_char tk st c r =
  if field_fits tk (r_field r ++ [c]) then Ok (mkReader st (r_field r ++ [c]) (r_fields r))
  else Err field_limit_error.
Proof.
  unfold add_char, field_fits. destruct tk; [|done].
  rewrite char_count_app. simpl. rewrite N.leb_le. intros H.
  destruct (is_cont_byte c); simpl.
  - by rewrite (proj2 (N.leb_le _ _)) by lia.
  - destruct (N.leb_spec field_limit (char_count (r_field r))),
      (N.leb_spec (char_count (r_field r) + (1 + 0)) field_limit); done || lia.
Qed.

(** Adding a character, then reading on: an error of the limit or the
    rest of the reading. *)
Lemma add_char_then {A} tk st c r cs (k : reader -> outcome A) (K : outcome A) :
  field_fits tk (r_field r) = true ->
  (field_fits tk (r_field r ++ [c]) = true ->
   k (mkReader st (r_field r ++ [c]) (r_fields r)) =
   if field_fits tk ((r_field r ++ [c]) ++ cs) then K else Err field_limit_error) ->
  (r' ← add_char tk st c r; k r') = if field_fits tk (r_field r ++ c :: cs) then K else Err field_limit_error.
Proof.
  intros Hr Hk. replace (r_field r ++ c :: cs) with ((r_field r ++ [c]) ++ cs) by (by rewrite <- app_assoc).
  rewrite add_char_spec by done.
  destruct (field_fits tk (r_field r ++ [c])) eqn:F; cbn [mbind outcome_bind]; [by apply Hk|].
  by rewrite (field_fits_app_false tk (r_field r ++ [c]) cs F).
Qed.

Lemma read_syms_ch tk n r c ss : read_syms tk n r (Ch c :: ss) = (r' ← read_char tk c r; read_syms tk n r' ss).
Proof. done. Qed.

Lemma read_syms_ch_ok tk n r c ss r' :
  read_char tk c r = Ok r' -> read_syms tk n r (Ch c :: ss) = read_syms tk n r' ss.
Proof. intros H. simpl. by rewrite H. Qed.

Lemma read_syms_eol_cont tk n r ss :
  r_state (read_eol r) <> StartRecord -> read_syms tk n r (EOL :: ss) = read_syms tk n (read_eol r) ss.
Proof. intros H. simpl. by rewrite decide_False. Qed.

Lemma read_syms_eol_emit tk n r ss :
  r_state (read_eol r) = StartRecord ->
  read_syms tk n r (EOL :: ss) = (recs ← read_syms tk (S n) reader0 ss; mret (r_fields (read_eol r) :: recs)).
Proof. intros H. simpl. by rewrite decide_True. Qed.

Lemma read_char_quoted tk c r :
  r_state r = InQuoted -> c <> dquote -> read_char tk c r = add_char tk InQuoted c r.
Proof. intros H Hc. unfold read_char. rewrite H. by rewrite decide_False. Qed.

Lemma add_char_state tk st c r r' : add_char tk st c r = Ok r' -> r_state r' = st.
Proof. unfold add_char. case_match; [done|]. by intros [= <-]. Qed.

Lemma bind_ext {A B} (m : outcome A) (k1 k2 : A -> outcome B) :
  (forall a, m = Ok a -> k1 a = k2 a) -> (a ← m; k1 a) = (a ← m; k2 a).
Proof. destruct m as [a|e]; [|done]. intros H. by apply H. Qed.

(** Inside a quoted field every character but the quote is added to
    the field, and the line ends are ignored. *)
Lemma read_quoted_char tk n r c Y :
  r_state r = InQuoted -> c <> dquote -> Y <> [] ->
  read_syms tk n r (to_syms (c :: Y)) = (r1 ← add_char tk InQuoted c r; read_syms tk n r1 (to_syms Y)).
Proof.
  intros Hst Hc HY.
  assert (Heol : forall ss, (r1 ← add_char tk InQuoted c r; read_syms tk n r1 (EOL :: ss)) =
                            (r1 ← add_char tk InQuoted c r; read_syms tk n r1 ss)).
  { intros ss. apply bind_ext. intros r1 Hr1%add_char_state.
    destruct r1 as [st f fs]. cbn in Hr1. subst st. by rewrite read_syms_eol_cont. }
  destruct (decide (c = lf)) as [->|Hlf].
  { rewrite to_syms_lf, read_syms_ch, read_char_quoted by done. apply Heol. }
  destruct (decide (c = cr)) as [->|Hcr];
    [|by rewrite to_syms_plain, read_syms_ch, read_char_quoted].
  destruct Y as [|c' Y']; [done|].
  destruct (decide (c' = lf)) as [->|Hlf'].
  - by rewrite to_syms_cr_lf, read_syms_ch, read_char_quoted.
  - rewrite to_syms_cr, read_syms_ch, read_char_quoted by done. apply Heol.
Qed.

Lemma app_dquote_nonempty xs Y : xs ++ dquote :: Y <> [].
Proof. by destruct xs. Qed.

(** The body of a quoted field, up to its closing quote. *)
Lemma read_quoted_body tk n cs r Y :
  r_state r = InQuoted -> field_fits tk (r_field r) = true -> Y <> [] ->
  read_syms tk n r (to_syms (escape_quotes cs ++ dquote :: Y)) =
  if field_fits tk (r_field r ++ cs)
  then read_syms tk n (mkReader QuoteInQuoted (r_field r ++ cs) (r_fields r)) (to_syms Y)
  else Err field_limit_error.
Proof.
  revert r. induction cs as [|c cs IH]; intros r Hst Hr HY; simpl escape_quotes.
  - rewrite app_nil_l, to_syms_plain by done. rewrite !app_nil_r, Hr.
    rewrite (read_syms_ch_ok _ _ _ _ _ (set_state QuoteInQuoted r)); [done|].
    unfold read_char. by rewrite Hst, decide_True.
  - destruct (decide (c = dquote)) as [->|Hc].
    + rewrite <- !app_comm_cons, !to_syms_plain by (done || apply app_dquote_nonempty || discriminate).
      rewrite (read_syms_ch_ok _ _ _ _ _ (set_state QuoteInQuoted r)) by (unfold read_char; by rewrite Hst, decide_True).
      rewrite read_syms_ch. unfold read_char at 1. cbn [r_state set_state]. rewrite decide_True by done.
      apply (add_char_then tk InQuoted dquote (set_state QuoteInQuoted r) cs); [done|].
      intros Hf. rewrite IH by (cbn in *; done). cbn [r_field r_fields set_state]. by rewrite <- app_assoc.
    + rewrite <- app_comm_cons, read_quoted_char by (done || apply app_dquote_nonempty).
      apply add_char_then; [done|]. intros Hf. rewrite IH by done. cbn [r_field r_fields]. by rewrite <- app_assoc.
Qed.

Definition special (c : ascii) : Prop := c ∈ [comma; dquote; lf; cr].

Lemma needs_quote_false c cs :
  needs_quote (c :: cs) = false -> ~ special c /\ needs_quote cs = false.
Proof.
  unfold needs_quote. cbn [existsb]. intros [Hc Hcs]%orb_false_iff.
  split; [|done]. by apply bool_decide_eq_false in Hc.
Qed.

Lemma not_special c : ~ special c -> c <> comma /\ c <> dquote /\ c <> lf /\ c <> cr.
Proof. unfold special. intros H. split_and!; intros ->; apply H; set_solver. Qed.

(** The characters of an unquoted field. *)
Lemma read_plain_chars tk n cs r Y :
  r_state r = InField -> field_fits tk (r_field r) = true -> needs_quote cs = false -> Y <> [] ->
  read_syms tk n r (to_syms (cs ++ Y)) =
  if field_fits tk (r_field r ++ cs)
  then read_syms tk n (mkReader InField (r_field r ++ cs) (r_fields r)) (to_syms Y)
  else Err field_limit_error.
Proof.
  revert r. induction cs as [|c cs IH]; intros r Hst Hr Hq HY.
  - rewrite app_nil_r, Hr. destruct r; simpl in *; by subst.
  - apply needs_quote_false in Hq as [(Hcm & Hdq & Hlf & Hcr)%not_special Hq].
    rewrite <- app_comm_cons, to_syms_plain, read_syms_ch by (done || by destruct cs).
    unfold read_char. rewrite Hst. unfold is_newline.
    rewrite bool_decide_eq_false_2 by tauto. rewrite decide_False by done.
    apply add_char_then; [done|]. intros Hf. rewrite IH by done. cbn [r_field r_fields]. by rewrite <- app_assoc.
Qed.

Lemma read_char_start tk c r :
  r_state r = StartField \/ r_state r = StartRecord -> c <> lf -> c <> cr ->
  read_char tk c r = start_field tk c r.
Proof.
  intros Hst Hlf Hcr. unfold read_char, is_newline.
  destruct Hst as [-> | ->]; [done|]. by rewrite bool_decide_eq_false_2 by tauto.
Qed.

(** The text of a field, up to the character after it. *)
Lemma read_field_text tk n f r c Y :
  r_field r = [] -> r_state r = StartField \/ r_state r = StartRecord ->
  exists r1,
    read_syms tk n r (to_syms (quote_field f ++ c :: Y)) =
      (if str_fits tk f then read_syms tk n r1 (to_syms (c :: Y)) else Err field_limit_error) /\
    r_field r1 = String.list_ascii_of_string f /\ r_fields r1 = r_fields r /\
    (r_state r1 = InField \/ r_state r1 = QuoteInQuoted \/ (r_state r1 = r_state r /\ f = "")).
Proof.
  intros Hfld Hst. unfold quote_field, str_fits.
  destruct (needs_quote (String.list_ascii_of_string f)) eqn:Hq.
  - exists (mkReader QuoteInQuoted (String.list_ascii_of_string f) (r_fields r)).
    split; [|by split_and!; [..|right; left]].
    rewrite <- app_comm_cons, <- app_assoc, to_syms_plain by (done || apply app_dquote_nonempty).
    rewrite (read_syms_ch_ok _ _ _ _ _ (set_state InQuoted r)).
    + change ([dquote] ++ c :: Y) with (dquote :: c :: Y).
      rewrite read_quoted_body by (simpl; rewrite ?Hfld; done || apply field_fits_nil).
      cbn [set_state r_field r_fields]. by rewrite Hfld.
    + rewrite read_char_start by done. unfold start_field, is_newline.
      rewrite bool_decide_eq_false_2 by (intros [H|H]; inversion H). by rewrite decide_True.
  - destruct (String.list_ascii_of_string f) as [|c0 cs] eqn:Ef.
    + exists r. split_and!; [by rewrite field_fits_nil|done|done|right; right; split; [done|]].
      rewrite <- (String.string_of_list_ascii_of_string f), Ef. done.
    + pose proof Hq as [(Hcm & Hdq & Hlf & Hcr)%not_special Hq'] %needs_quote_false.
      exists (mkReader InField (c0 :: cs) (r_fields r)).
      split; [|by split_and!; [..|left]].
      rewrite <- app_comm_cons, to_syms_plain, read_syms_ch by (done || by destruct cs).
      rewrite read_char_start by done. unfold start_field, is_newline.
      rewrite bool_decide_eq_false_2 by tauto. rewrite !decide_False by done.
      rewrite <- (app_nil_l (c0 :: cs)), <- Hfld.
      apply add_char_then; [by rewrite Hfld, field_fits_nil|]. intros Hf.
      rewrite read_plain_chars by done. cbn [r_field r_fields]. by rewrite Hfld.
Qed.

Lemma string_of_field f : String.string_of_list_ascii (String.list_ascii_of_string f) = f.
Proof. apply String.string_of_list_ascii_of_string. Qed.

(** After a field, a comma starts the next field and a line feed ends the
    record. *)
Lemma read_after_field_comma tk n r1 Y :
  r_state r1 = InField \/ r_state r1 = QuoteInQuoted \/ r_state r1 = StartField \/ r_state r1 = StartRecord ->
  Y <> [] ->
  read_syms tk n r1 (to_syms (comma :: Y)) = read_syms tk n (save_field StartField r1) (to_syms Y).
Proof.
  intros Hst HY. rewrite to_syms_plain by done. apply read_syms_ch_ok.
  unfold read_char, start_field, is_newline.
  destruct Hst as [-> | [-> | [-> | ->]]]; rewrite ?bool_decide_eq_false_2 by (intros [H|H]; inversion H);
    rewrite ?decide_False, ?decide_True by done; done.
Qed.

Lemma read_after_field_lf tk n r1 Z :
  r_state r1 = InField \/ r_state r1 = QuoteInQuoted \/ r_state r1 = StartField ->
  read_syms tk n r1 (to_syms (lf :: Z)) =
  (recs ← read_syms tk (S n) reader0 (to_syms Z);
   mret ((r_fields r1 ++ [String.string_of_list_ascii (r_field r1)]) :: recs)).
Proof.
  intros Hst. rewrite to_syms_lf.
  rewrite (read_syms_ch_ok _ _ _ _ _ (save_field EatCRNL r1)); [by rewrite read_syms_eol_emit|].
  unfold read_char, start_field, is_newline.
  destruct Hst as [-> | [-> | ->]]; rewrite ?bool_decide_eq_true_2 by (by left);
    rewrite ?decide_False by done; done.
Qed.

(** The fields of a record, joined by commas, then its line feed. *)
Lemma read_join tk n fs r Z :
  fs <> [] -> r_field r = [] ->
  r_state r = StartField \/ (r_state r = StartRecord /\ fs <> [""]) ->
  read_syms tk n r (to_syms (join_fields fs ++ lf :: Z)) =
  if forallb (str_fits tk) fs
  then (recs ← read_syms tk (S n) reader0 (to_syms Z); mret ((r_fields r ++ fs) :: recs))
  else Err field_limit_error.
Proof.
  revert r. induction fs as [|f fs IH]; intros r Hne Hfld Hst; [done|].
  assert (Hst' : r_state r = StartField \/ r_state r = StartRecord) by tauto.
  destruct fs as [|f' fs'].
  - destruct (read_field_text tk n f r lf Z Hfld Hst') as (r1 & Hrun & Hf1 & Hfs1 & Hs1).
    cbn [join_fields forallb]. rewrite Hrun, andb_true_r. destruct (str_fits tk f); [|done].
    rewrite read_after_field_lf.
    + by rewrite Hf1, Hfs1, string_of_field.
    + destruct Hs1 as [|[|[Hs ->]]]; [tauto|tauto|]. rewrite Hs. destruct Hst as [|[_ []]]; tauto.
  - change (join_fields (f :: f' :: fs')) with (quote_field f ++ comma :: join_fields (f' :: fs')).
    rewrite <- app_assoc, <- app_comm_cons.
    destruct (read_field_text tk n f r comma (join_fields (f' :: fs') ++ lf :: Z) Hfld Hst')
      as (r1 & Hrun & Hf1 & Hfs1 & Hs1).
    rewrite Hrun. cbn [forallb]. destruct (str_fits tk f); [|done]. cbn [andb].
    rewrite read_after_field_comma;
      [|destruct Hs1 as [|[|[-> _]]]; tauto|by destruct (join_fields _)].
    rewrite IH by (done || by left).
    unfold save_field. cbn [r_fields]. by rewrite Hf1, Hfs1, string_of_field, <- app_assoc.
Qed.

(** A written row, read from the start of a record. *)
Lemma read_write_row tk n fs Z :
  read_syms tk n reader0 (to_syms (write_row fs ++ Z)) =
  if forallb (str_fits tk) fs
  then (recs ← read_syms tk (S n) reader0 (to_syms Z); mret (fs :: recs))
  else Err field_limit_error.
Proof.
  unfold write_row. destruct fs as [|f [|f' fs']].
  - reflexivity.
  - destruct (String.eqb_spec f "") as [->|Hne].
    + by destruct tk.
    + rewrite <- app_assoc. apply (read_join tk n [f] reader0); [done|done|right; split; [done|congruence]].
  - rewrite <- app_assoc. apply (read_join tk n (f :: f' :: fs') reader0); [done|done|by right].
Qed.

(** Both tokenizers on a text [to_csv] wrote, then any text: the
    records of the rows, then those of the rest. *)
Lemma read_write_prefix tk n rs Z :
  read_syms tk n reader0 (to_syms (concat (map write_row rs) ++ Z)) =
  if forallb (forallb (str_fits tk)) rs
  then (recs ← read_syms tk (n + length rs) reader0 (to_syms Z); mret (rs ++ recs))
  else Err field_limit_error.
Proof.
  revert n. induction rs as [|r rs IH]; intros n.
  - rewrite Nat.add_0_r. cbn. by destruct (read_syms tk n reader0 (to_syms Z)).
  - cbn [map concat forallb]. rewrite <- app_assoc, read_write_row.
    destruct (forallb (str_fits tk) r); [|done]. cbn [andb]. rewrite IH.
    destruct (forallb (forallb (str_fits tk)) rs); [|done].
    replace (S n + length rs) with (n + length (r :: rs)) by (simpl; lia).
    by destruct (read_syms tk (n + length (r :: rs)) reader0 (to_syms Z)).
Qed.

Lemma tokenize_write tk header rows :
  tokenize tk (write_csv header rows) =
  if forallb (forallb (str_fits tk)) (header :: rows) then Ok (header :: rows) else Err field_limit_error.
Proof.
  unfold tokenize, write_csv. rewrite <- (app_nil_r (concat _)), read_write_prefix.
  destruct (forallb _ _); [|done]. cbn -[concat write_row]. by rewrite app_nil_r.
Qed.

(** C21: the CSV round trip.  Reading with Python's [csv] reader, in
    universal-newline mode, the text that [to_csv] writes gives back the
    header and every row, field for field, whatever the fields contain
    (commas, quotes, line feeds, carriage returns and empty fields
    included), exactly when every field has at most 131072 characters;
    otherwise the reader raises [_csv.Error: field larger than field
    limit (131072)]. *)
Theorem csv_roundtrip header rows :
  read_csv (write_csv header rows) =
  if forallb (forallb fits_limit) (header :: rows) then Ok (header :: rows) else Err field_limit_error.
Proof. apply tokenize_write. Qed.

(** pandas' tokenizer reads back every text [to_csv] writes. *)
Lemma tokenize_write_pandas header rows :
  tokenize PandasC (write_csv header rows) = Ok (header :: rows).
Proof.
  rewrite tokenize_write. cbn [forallb]. rewrite andb_true_intro; [done|].
  split; [by apply forallb_forall|]. apply forallb_forall. intros r _. by apply forallb_forall.
Qed.

(** [CSVLoader] on the written file: one document per non-empty row,
    when the fields fit. *)
Lemma csv_load_write file_path header rows :
  csv_load file_path (write_csv header rows) =
  if forallb (forallb fits_limit) (header :: rows)
  then Ok (csv_loader file_path header (filter (fun row => row <> []) rows))
  else Err field_limit_error.
Proof. unfold csv_load. rewrite csv_roundtrip. by destruct (forallb _ _). Qed.

(** ** A file ending inside a quoted field *)

Lemma to_syms_single c : to_syms [c] = [Ch c; EOL].
Proof. simpl. by repeat case_decide. Qed.

(** The rest of a file read in a quoted field that never closes:
    [csv.reader] keeps the open field as a last record, pandas
    raises. *)
Lemma read_open_quote tk n cs r :
  r_state r = InQuoted -> field_fits tk (r_field r) = true -> dquote ∉ cs ->
  read_syms tk n r (to_syms cs) =
  if field_fits tk (r_field r ++ cs)
  then (if tk is PyCsv then Ok [r_fields r ++ [String.string_of_list_ascii (r_field r ++ cs)]]
        else Err (eof_in_string n))
  else Err field_limit_error.
Proof.
  revert r. induction cs as [|c cs IH]; intros r Hst Hr Hq.
  - rewrite app_nil_r, Hr. simpl. rewrite Hst. by destruct tk.
  - apply not_elem_of_cons in Hq as [Hc Hq]. destruct cs as [|c' cs'].
    + rewrite to_syms_single, read_syms_ch, read_char_quoted by done.
      apply (add_char_then tk InQuoted c r []); [done|]. intros Hf.
      rewrite read_syms_eol_cont by done. rewrite app_nil_r, Hf. cbn. by destruct tk.
    + rewrite read_quoted_char by (done || discriminate).
      apply add_char_then; [done|]. intros Hf. rewrite IH by (done || cbn; done).
      cbn [r_field r_fields]. by rewrite <- app_assoc.
Qed.

(** A record that opens a quote and never closes it. *)
Lemma read_open_quote_record tk n cs :
  dquote ∉ cs ->
  read_syms tk n reader0 (to_syms (dquote :: cs)) =
  if field_fits tk cs
  then (if tk is PyCsv then Ok [[String.string_of_list_ascii cs]] else Err (eof_in_string n))
  else Err field_limit_error.
Proof.
  intros Hq. destruct cs as [|c cs'].
  - rewrite to_syms_single. by destruct tk.
  - rewrite to_syms_plain by done. rewrite (read_syms_ch_ok _ _ _ _ _ (set_state InQuoted reader0)) by done.
    rewrite read_open_quote by (done || apply field_fits_nil). done.
Qed.

Lemma forallb_str_fits_pandas (rs : list (list string)) : forallb (forallb (str_fits PandasC)) rs = true.
Proof. apply forallb_forall. intros r _. by apply forallb_forall. Qed.

(** ** The only error of the reader *)











