(* ===== verification/Pandas.v ===== *)
(** * [pd.read_csv]: from the text of program_raw.csv to a frame

    Line 17 of refineData.py, [df = pd.read_csv(input_file_path)], with
    pandas' defaults and its C parser: the records of the file (its
    tokenizer is the state machine of Csv.v on the quoting rules both
    implement, as [tokenize PandasC]: no field size limit, and a file
    ending inside a quoted field raises "EOF inside string") with blank
    records skipped; the first record is the header, whose empty names
    become ["Unnamed: i"] and whose duplicates are mangled to ["a.1"],
    ["a.2"], ... by the [while] loop of [TextReader._get_header]
    ([mangle_loop], given enough fuel: [dedup_header_total]); a data row
    with fewer fields is padded with missing values, a row with more
    fields than the first data row raises [ParserError], and the extra
    leading fields of the first data row make the index, which
    [to_csv(index=False)] never writes.  Each column gets the first type
    its non-missing tokens all parse as: int64 (float64 if a token is
    missing, each integer rounded to its nearest double), float64, bool,
    else object ([infer_column]).  A float token is kept as the decimal
    it writes; [cell_str] prints it as Python does when it has at most 15
    significant digits in the normal range of doubles (Refine.v).  A
    line of spaces and tabs only, which pandas skips as blank, is read
    here as a record of one field. *)

From Stdlib Require Import Ascii.
From S2P Require Import Prelude Refine Csv.

(** ** Tokens *)

(** pandas' default [na_values] ([STR_NA_VALUES]); a token is missing
    when it is exactly one of them. *)
Definition na_values : list string :=
  [""; "#N/A"; "#N/A N/A"; "#NA"; "-1.#IND"; "-1.#QNAN"; "-NaN"; "-nan"; "1.#IND";
   "1.#QNAN"; "<NA>"; "N/A"; "NA"; "NULL"; "NaN"; "None"; "n/a"; "nan"; "null"].

Definition is_na (t : string) : bool := bool_decide (t ∈ na_values).

(** [isspace_ascii] of pandas' tokenizer. *)
Definition isspace_ascii (c : ascii) : bool :=
  bool_decide (c ∈ [" "; "009"; "010"; "011"; "012"; "013"]%char).

Fixpoint skip_spaces (cs : list ascii) : list ascii :=
  match cs with
  | c :: cs' => if isspace_ascii c then skip_spaces cs' else cs
  | [] => []
  end.

Definition digit_val (c : ascii) : option N :=
  let n := nat_of_ascii c in
  if decide (48 <= n <= 57) then Some (N.of_nat (n - 48)) else None.

(** The longest prefix of digits and the rest. *)
Fixpoint span_digits (cs : list ascii) : list N * list ascii :=
  match cs with
  | c :: cs' =>
      match digit_val c with
      | Some d => let '(ds, r) := span_digits cs' in (d :: ds, r)
      | None => ([], cs)
      end
  | [] => ([], [])
  end.

Definition digits_value (ds : list N) : N := foldl (fun acc d => 10 * acc + d)%N 0%N ds.

(** An optional sign. *)
Definition read_sign (cs : list ascii) : bool * list ascii :=
  match cs with
  | "+"%char :: cs' => (false, cs')
  | "-"%char :: cs' => (true, cs')
  | _ => (false, cs)
  end.

(** [str_to_int64]: spaces, a sign, at least one digit, spaces. *)
Definition parse_int (t : string) : option Z :=
  let '(neg, cs) := read_sign (skip_spaces (String.list_ascii_of_string t)) in
  let '(ds, r) := span_digits cs in
  if decide (ds <> [] /\ skip_spaces r = []) then
    let v := Z.of_N (digits_value ds) in Some (if neg then (- v)%Z else v)
  else None.

(** The exponent of [xstrtod]: [e] or [E], a sign, at least one digit;
    without digits the [e] is not consumed. *)
Definition read_exponent (cs : list ascii) : Z * list ascii :=
  match cs with
  | c :: cs' =>
      if decide (c = "e"%char \/ c = "E"%char) then
        let '(neg, r) := read_sign cs' in
        let '(ds, r') := span_digits r in
        if decide (ds = []) then (0%Z, cs)
        else let v := Z.of_N (digits_value ds) in ((if neg then - v else v)%Z, r')
      else (0%Z, cs)
  | [] => (0%Z, [])
  end.

(** [xstrtod]: spaces, a sign, digits with an optional decimal point (at
    least one digit), an optional exponent, spaces; the value as the
    decimal [(-1)^neg * m * 10^e]. *)
Definition parse_float (t : string) : option (bool * N * Z) :=
  let '(neg, cs) := read_sign (skip_spaces (String.list_ascii_of_string t)) in
  let '(ip, r1) := span_digits cs in
  let '(fp, r2) := match r1 with "."%char :: r => span_digits r | _ => ([], r1) end in
  let '(x, r3) := read_exponent r2 in
  if decide (ip ++ fp <> [] /\ skip_spaces r3 = []) then
    Some (neg, digits_value (ip ++ fp), (x - Z.of_nat (length fp))%Z)
  else None.

(** The C parser's [_true_values] and [_false_values]. *)
Definition parse_bool (t : string) : option bool :=
  if decide (t ∈ ["True"; "TRUE"; "true"]) then Some true
  else if decide (t ∈ ["False"; "FALSE"; "false"]) then Some false
  else None.

(** The double nearest to a natural number, ties to even: from 2^53 on
    the number is rounded to 53 significant bits. *)
Definition round_to_double (n : N) : N :=
  let s := (N.log2 n - 52)%N in
  if (s =? 0)%N then n
  else
    let q := N.shiftr n s in
    let rest := (n - N.shiftl q s)%N in
    let half := N.shiftl 1 (s - 1) in
    let q' := if (rest <? half)%N then q
              else if (half <? rest)%N then (q + 1)%N
              else if N.even q then q else (q + 1)%N in
    N.shiftl q' s.

(** An int64 column with a missing value is upcast to float64
    ([astype(float64)]), each integer to its nearest double. *)
Definition float_of_int (z : Z) : cell := CFloat (Z.ltb z 0) (round_to_double (Z.abs_N z)) 0.

(** [_convert_tokens] over [dtype_cast_order]: the first type every
    non-missing token converts to, then [_maybe_upcast] when a token is
    missing. *)
Definition infer_column (toks : list string) : list cell :=
  let present := filter (fun t => is_na t = false) toks in
  let cell_of (f : string -> cell) := map (fun t => if is_na t then CNaN else f t) toks in
  if forallb (fun t => bool_decide (is_Some (parse_int t))) present then
    if existsb is_na toks then cell_of (fun t => float_of_int (default 0%Z (parse_int t)))
    else cell_of (fun t => CInt (default 0%Z (parse_int t)))
  else if forallb (fun t => bool_decide (is_Some (parse_float t))) present then
    cell_of (fun t => let '(neg, m, e) := default (false, 0%N, 0%Z) (parse_float t) in CFloat neg m e)
  else if forallb (fun t => bool_decide (is_Some (parse_bool t))) present then
    cell_of (fun t => CBool (default false (parse_bool t)))
  else cell_of CStr.

(** ** The header *)

(** An empty name [i] becomes ["Unnamed: i"]. *)
Definition unnamed (hdr : list string) : list string :=
  imap (fun i n => if String.eqb n "" then "Unnamed: " +:+ pretty i else n) hdr.

(** Named columns are mangled before the unnamed ones. *)
Definition col_loop_order (hdr : list string) : list nat :=
  filter (fun i => hdr !! i <> Some "") (seq 0 (length hdr)) ++
  filter (fun i => hdr !! i = Some "") (seq 0 (length hdr)).

(** [while cur_count > 0: counts[old_col] = cur_count + 1;
    col = f"{old_col}.{cur_count}"; cur_count = cur_count + 1 if col in
    this_header else counts.get(col, 0)], with [fuel] turns at most. *)
Fixpoint mangle_loop (fuel : nat) (hdr : list string) (counts : gmap string nat)
    (old_col col : string) (cur : nat) : option (string * nat * gmap string nat) :=
  match fuel with
  | 0 => None
  | S fuel' =>
      if decide (cur = 0) then Some (col, cur, counts)
      else
        let counts := <[old_col := S cur]> counts in
        let col := old_col +:+ "." +:+ pretty cur in
        let cur := if decide (col ∈ hdr) then S cur else default 0 (counts !! col) in
        mangle_loop fuel' hdr counts old_col col cur
  end.

(** One turn of [for i in col_loop_order]: the loop, then
    [this_header[i] = col; counts[col] = cur_count + 1]. *)
Definition mangle_col (st : list string * gmap string nat) (i : nat)
    : option (list string * gmap string nat) :=
  let '(hdr, counts) := st in
  let col := default "" (hdr !! i) in
  '(col', cur', counts') ← mangle_loop (S (S (length hdr))) hdr counts col col (default 0 (counts !! col));
  Some (<[i := col']> hdr, <[col' := S cur']> counts').

Fixpoint mangle_cols (order : list nat) (st : list string * gmap string nat)
    : option (list string * gmap string nat) :=
  match order with
  | [] => Some st
  | i :: order' => st' ← mangle_col st i; mangle_cols order' st'
  end.

(** The column names [_get_header] gives. *)
Definition dedup_header (hdr : list string) : option (list string) :=
  fst <$> mangle_cols (col_loop_order hdr) (unnamed hdr, ∅).

(** ** The rows *)

Definition tokenize_error (expected line saw : nat) : exn :=
  ParserError ("Error tokenizing data. C error: Expected " +:+ pretty expected +:+
               " fields in line " +:+ pretty line +:+ ", saw " +:+ pretty saw +:+ String "010" EmptyString).

(** The tokenizer's [end_line] for the rows after the first data row:
    the first one with more than [expected] fields raises. *)
Fixpoint check_rows (expected : nat) (rows : list (nat * list string)) : outcome unit :=
  match rows with
  | [] => mret ()
  | (line, r) :: rows' =>
      if decide (expected < length r) then Err (tokenize_error expected line (length r))
      else check_rows expected rows'
  end.

(** A short row is completed with empty, hence missing, fields. *)
Definition pad_to (n : nat) (r : list string) : list string := r ++ replicate (n - length r) "".

(** The fields every row is completed to: the header's, or the first
    data row's when it is longer (its extra leading fields are the
    index). *)
Definition expected_fields (header : list string) (data : list (nat * list string)) : nat :=
  match data with [] => length header | (_, r0) :: _ => Nat.max (length header) (length r0) end.

(** The data rows, completed and without their index fields. *)
Definition data_rows (header : list string) (data : list (nat * list string)) : list (list string) :=
  let n := expected_fields header data in
  map (fun lr => drop (n - length header) (pad_to n lr.2)) data.

Definition column_tokens (rows : list (list string)) (j : nat) : list string :=
  map (fun r => default "" (r !! j)) rows.

(** The records of the file, numbered from line 1, without the blank
    ones. *)
Definition numbered_records (recs : list (list string)) : list (nat * list string) :=
  filter (fun lr => lr.2 <> []) (imap (fun i r => (S i, r)) recs).

(** [pd.read_csv] on the records of the file.  The [None] branch of
    [dedup_header] is never taken ([dedup_header_total]). *)
Definition read_frame (recs : list (list string)) : outcome frame :=
  match numbered_records recs with
  | [] => Err (EmptyDataError "No columns to parse from file")
  | (_, header) :: data =>
      _ ← check_rows (expected_fields header data) (tail data);
      match dedup_header header with
      | None => Err (ValueError "header")
      | Some names =>
          let rows := data_rows header data in
          mret (mkFrame (length rows)
                  (imap (fun j n => (n, infer_column (column_tokens rows j))) names))
      end
  end.

(** The tokens of column [j] of a file without index fields, the rows
    completed with empty fields. *)
Definition plain_tokens (header : list string) (rows : list (list string)) (j : nat) : list string :=
  column_tokens (map (pad_to (length header)) rows) j.

(** The frame read from such a file. *)
Definition plain_frame (header : list string) (rows : list (list string)) : frame :=
  mkFrame (length rows) (imap (fun j n => (n, infer_column (plain_tokens header rows j))) header).

Definition pd_read_csv (cs : list ascii) : outcome frame :=
  recs ← tokenize PandasC cs; read_frame recs.

(** ** The header loop terminates *)

Lemma mangled_inj old (a b : nat) : old +:+ "." +:+ pretty a = old +:+ "." +:+ pretty b -> a = b.
Proof. intros Hab. apply (inj (String.append old)) in Hab. injection Hab. apply (inj pretty). Qed.

Lemma mangled_ne old (a : nat) : old +:+ "." +:+ pretty a <> old.
Proof.
  intros Heq. apply (f_equal String.length) in Heq.
  rewrite !string_length_append in Heq. simpl in Heq. lia.
Qed.

(** Among [|hdr| + 1] consecutive suffixes one is not a name of the
    header. *)
Lemma mangle_exit_exists (h : list string) old c :
  exists d, d <= length h /\ old +:+ "." +:+ pretty (c + d) ∉ h.
Proof.
  set (f := fun d => old +:+ "." +:+ pretty (c + d)).
  destruct (decide (Forall (fun d => f d ∈ h) (seq 0 (S (length h))))) as [Hall|Hn].
  - exfalso. assert (Hnd : NoDup (map f (seq 0 (S (length h))))).
    { apply NoDup_fmap_2; [|apply NoDup_seq]. intros a b Hab. apply mangled_inj in Hab. lia. }
    apply NoDup_submseteq with (k := h) in Hnd.
    + apply submseteq_length in Hnd. rewrite length_map, length_seq in Hnd. lia.
    + intros x Hx. apply list_elem_of_fmap_1 in Hx as (d & -> & Hd).
      by apply (proj1 (Forall_forall _ _) Hall).
  - apply not_Forall_Exists in Hn; [|apply _]. apply Exists_exists in Hn as (d & Hd & Hnot).
    apply elem_of_seq in Hd. exists d. split; [lia|done].
Qed.

Section MangleLoop.
Variables (h : list string) (old : string).
Hypothesis Hold : old ∈ h.

(** From a positive count [c], the loop ends at the first suffix
    [old.(c+d)] that is not a name of the header, with [d + 2] turns;
    only the count of [old] has changed, and the name it returns has no
    count. *)
Lemma mangle_loop_exit d : forall c counts col0 fuel,
  (forall k, is_Some (counts !! k) -> k ∈ h) -> 0 < c ->
  old +:+ "." +:+ pretty (c + d) ∉ h -> d + 2 <= fuel ->
  exists col v, mangle_loop fuel h counts old col0 c = Some (col, 0, <[old := S v]> counts) /\
    counts !! col = None /\ col <> old.
Proof.
  induction d as [|d IH]; intros c counts col0 fuel Hdom Hc Hnot Hfuel;
    (destruct fuel as [|fuel]; [lia|]); cbn [mangle_loop];
    rewrite decide_False by lia.
  - rewrite Nat.add_0_r in Hnot. rewrite decide_False by done.
    rewrite lookup_insert_ne by (apply not_eq_sym, mangled_ne).
    destruct (counts !! (old +:+ "." +:+ pretty c)) eqn:E; [by destruct (Hnot (Hdom _ ltac:(by rewrite E)))|].
    destruct fuel as [|fuel]; [lia|]. simpl.
    exists (old +:+ "." +:+ pretty c), c. split_and!; [done|done|apply mangled_ne].
  - assert (Hdom' : forall k, is_Some (<[old := S c]> counts !! k) -> k ∈ h).
    { intros k. rewrite lookup_insert_is_Some. intros [<-|[_ Hk]]; [done|by apply Hdom]. }
    destruct (decide (old +:+ "." +:+ pretty c ∈ h)) as [Hin|Hout].
    + destruct (IH (S c) (<[old := S c]> counts) (old +:+ "." +:+ pretty c) fuel Hdom')
        as (col & v & Hrun & Hcol & Hne); [lia|by replace (S c + d) with (c + S d) by lia|lia|].
      exists col, v. rewrite Hrun, insert_insert_eq. split; [done|].
      by rewrite lookup_insert_ne in Hcol by congruence.
    + rewrite lookup_insert_ne by (apply not_eq_sym, mangled_ne).
      destruct (counts !! (old +:+ "." +:+ pretty c)) eqn:E; [by destruct (Hout (Hdom _ ltac:(by rewrite E)))|].
      destruct fuel as [|fuel]; [lia|]. simpl.
      exists (old +:+ "." +:+ pretty c), c. split_and!; [done|done|apply mangled_ne].
Qed.

End MangleLoop.

(** One turn of the [for] loop at a position of the header: the loop
    ends, and it gives a name that has no count yet. *)
Lemma mangle_col_spec h counts i :
  i < length h ->
  (forall k, is_Some (counts !! k) -> k ∈ h) -> (forall k v, counts !! k = Some v -> 0 < v) ->
  exists col counts',
    mangle_col (h, counts) i = Some (<[i := col]> h, <[col := 1]> counts') /\
    counts !! col = None /\ (forall k, is_Some (counts' !! k) <-> is_Some (counts !! k)) /\
    (forall k v, counts' !! k = Some v -> 0 < v).
Proof.
  intros Hi Hdom Hpos. destruct (lookup_lt_is_Some_2 h i Hi) as [old Hold].
  assert (Hin : old ∈ h) by by eapply list_elem_of_lookup_2.
  unfold mangle_col. rewrite Hold. cbn [default id].
  destruct (counts !! old) as [c|] eqn:Hc; cbn [default id].
  - pose proof (Hpos old c Hc).
    destruct (mangle_exit_exists h old c) as (d & Hd & Hnot).
    destruct (mangle_loop_exit h old Hin d c counts old (S (S (length h))) Hdom ltac:(lia) Hnot ltac:(lia))
      as (col & v & Hrun & Hcol & Hne).
    rewrite Hrun. exists col, (<[old := S v]> counts). split_and!; [done|done| |].
    + intros k. rewrite lookup_insert_is_Some.
      split; [intros [<-|[_ ?]]; [by rewrite Hc|done]|]. destruct (decide (old = k)); auto.
    + intros k w. rewrite lookup_insert_Some. intros [[_ <-]|[_ Hk]]; [lia|by eapply Hpos].
  - exists old, counts. split_and!; [reflexivity|done|done|done].
Qed.

(** The invariant of the [for] loop, with [todo] the positions still to
    mangle: the names with a count are the names already given, all
    counts are positive, and the names given are pairwise distinct. *)
Definition mangle_inv (todo : list nat) (h : list string) (counts : gmap string nat) : Prop :=
  NoDup todo /\ (forall i, i ∈ todo -> i < length h) /\
  (forall k, is_Some (counts !! k) <-> (exists j, j ∉ todo /\ h !! j = Some k)) /\
  (forall k v, counts !! k = Some v -> 0 < v) /\
  (forall j j' k, j ∉ todo -> j' ∉ todo -> h !! j = Some k -> h !! j' = Some k -> j = j').

Lemma mangle_inv_step i todo h counts col counts' :
  mangle_inv (i :: todo) h counts -> counts !! col = None ->
  (forall k, is_Some (counts' !! k) <-> is_Some (counts !! k)) ->
  (forall k v, counts' !! k = Some v -> 0 < v) ->
  mangle_inv todo (<[i := col]> h) (<[col := 1]> counts').
Proof.
  intros (Hnd & Hlt & Hdom & Hpos & Hdist) Hcol Hdom' Hpos'.
  apply NoDup_cons in Hnd as [Hi Hnd].
  assert (Hil : i < length h) by (apply Hlt; set_solver).
  split_and!; [done|intros j Hj; rewrite length_insert; apply Hlt; set_solver| | |].
  - intros k. rewrite lookup_insert_is_Some, Hdom', Hdom. split.
    + intros [<-|[Hne (j & Hj & Hk)]].
      * exists i. split; [done|]. by rewrite list_lookup_insert_eq.
      * exists j. split; [set_solver|]. rewrite list_lookup_insert_ne; [done|]. set_solver.
    + intros (j & Hj & Hk). destruct (decide (i = j)) as [<-|Hne].
      * rewrite list_lookup_insert_eq in Hk by done. by left; injection Hk.
      * rewrite list_lookup_insert_ne in Hk by done.
        destruct (decide (col = k)); [by left|right; split; [done|exists j; split; [set_solver|done]]].
  - intros k v. rewrite lookup_insert_Some. intros [[_ <-]|[_ Hk]]; [lia|by eapply Hpos'].
  - assert (Hnew : forall j, j ∉ todo -> j <> i -> h !! j <> Some col).
    { intros j Hj Hne Hj'. assert (Hs : is_Some (counts !! col)) by (apply Hdom; exists j; split; [set_solver|done]).
      rewrite Hcol in Hs. by destruct Hs. }
    intros j j' k Hj Hj'.
    destruct (decide (i = j)) as [<-|Hne]; destruct (decide (i = j')) as [<-|Hne'];
      rewrite ?list_lookup_insert_eq, ?list_lookup_insert_ne by done; try done.
    + intros [= <-] Hk. by destruct (Hnew j' Hj' (not_eq_sym Hne') Hk).
    + intros Hk [= <-]. by destruct (Hnew j Hj (not_eq_sym Hne) Hk).
    + apply Hdist; set_solver.
Qed.

Lemma mangle_cols_spec todo : forall h counts,
  mangle_inv todo h counts ->
  exists h' counts', mangle_cols todo (h, counts) = Some (h', counts') /\
    length h' = length h /\ NoDup h'.
Proof.
  induction todo as [|i todo IH]; intros h counts Hinv.
  - exists h, counts. split_and!; [done|done|]. apply NoDup_alt.
    intros j j' k. destruct Hinv as (_ & _ & _ & _ & Hdist). apply Hdist; set_solver.
  - pose proof Hinv as (Hnd & Hlt & Hdom & Hpos & _).
    destruct (mangle_col_spec h counts i) as (col & counts' & Hrun & Hcol & Hdom' & Hpos');
      [apply Hlt; set_solver| |done|].
    { intros k Hk. apply Hdom in Hk as (j & _ & Hj). by eapply list_elem_of_lookup_2. }
    destruct (IH (<[i := col]> h) (<[col := 1]> counts')) as (h' & c' & Hrun' & Hlen & HND);
      [by eapply mangle_inv_step|].
    exists h', c'. cbn [mangle_cols]. rewrite Hrun. cbn [mbind option_bind].
    split_and!; [done|by rewrite Hlen, length_insert|done].
Qed.

Lemma length_unnamed hdr : length (unnamed hdr) = length hdr.
Proof. apply length_imap. Qed.

Lemma col_loop_order_spec hdr :
  NoDup (col_loop_order hdr) /\ forall i, i ∈ col_loop_order hdr <-> i < length hdr.
Proof.
  unfold col_loop_order. split.
  - apply NoDup_app. split_and!; [apply NoDup_filter, NoDup_seq| |apply NoDup_filter, NoDup_seq].
    intros i. rewrite !list_elem_of_filter. naive_solver.
  - intros i. rewrite elem_of_app, !list_elem_of_filter, elem_of_seq.
    destruct (decide (hdr !! i = Some "")); naive_solver lia.
Qed.

Lemma mangle_inv_init hdr : mangle_inv (col_loop_order hdr) (unnamed hdr) ∅.
Proof.
  destruct (col_loop_order_spec hdr) as [Hnd Hord].
  split_and!; [done|intros i; rewrite Hord, length_unnamed; done| |by intros k v; rewrite lookup_empty|].
  - intros k. rewrite lookup_empty. split; [by intros []|].
    intros (j & Hj & Hk). exfalso. apply Hj, Hord. rewrite <- length_unnamed. by eapply lookup_lt_Some.
  - intros j j' k Hj _ Hk _. exfalso. apply Hj, Hord. rewrite <- length_unnamed. by eapply lookup_lt_Some.
Qed.

(** The header loop of [pd.read_csv] terminates: for every header
    the fuel given to each [while] loop is enough, and the column names
    are as many as the header's fields and pairwise distinct, whatever
    the duplicates and empty names of the header. *)
Lemma dedup_header_total hdr :
  exists names, dedup_header hdr = Some names /\ length names = length hdr /\ NoDup names.
Proof.
  destruct (mangle_cols_spec (col_loop_order hdr) (unnamed hdr) ∅ (mangle_inv_init hdr))
    as (h' & c' & Hrun & Hlen & HND).
  exists h'. unfold dedup_header. rewrite Hrun. split_and!; [done|by rewrite Hlen, length_unnamed|done].
Qed.

(** ** The frame [read_frame] builds *)

Lemma length_infer_column toks : length (infer_column toks) = length toks.
Proof. unfold infer_column. repeat case_match; apply length_map. Qed.

(** A missing token is a missing cell, whatever the column's type. *)
Lemma infer_column_na toks i t :
  toks !! i = Some t -> is_na t = true -> infer_column toks !! i = Some CNaN.
Proof.
  intros Hi Hna. unfold infer_column.
  repeat case_match; rewrite list_lookup_fmap, Hi; simpl; by rewrite Hna.
Qed.

Lemma fst_imap_pair {B} (g : nat -> B) (names : list string) :
  map fst (imap (fun j n => (n, g j)) names) = names.
Proof.
  revert g. induction names as [|n names IH]; intros g; [done|].
  rewrite imap_cons. simpl. f_equal. apply (IH (fun j => g (S j))).
Qed.

Lemma col_lookup_imap (g : nat -> list cell) names j n :
  NoDup names -> names !! j = Some n -> col_lookup (imap (fun j n => (n, g j)) names) n = Some (g j).
Proof.
  revert g j. induction names as [|m names IH]; intros g j Hnd Hj; [done|].
  apply NoDup_cons in Hnd as [Hm Hnd]. rewrite imap_cons. cbn [col_lookup].
  destruct j as [|j]; simpl in Hj.
  - injection Hj as ->. by rewrite decide_True.
  - rewrite decide_False; [by apply (IH (fun j => g (S j)))|].
    intros ->. apply Hm. by eapply list_elem_of_lookup_2.
Qed.

Lemma length_data_rows header data : length (data_rows header data) = length data.
Proof. apply length_map. Qed.

(** C29: every frame [pd.read_csv] returns is well formed, as the
    refinement script assumes: its column names are pairwise distinct
    and every column has one cell per data row. *)
Theorem read_frame_wf recs f : read_frame recs = Ok f -> frame_wf f.
Proof.
  unfold read_frame. destruct (numbered_records recs) as [|[l header] data]; [done|].
  destruct (check_rows _ _) as [[]|e]; cbn [mbind outcome_bind]; [|done].
  destruct (dedup_header_total header) as (names & -> & _ & Hnd).
  intros [= <-]. split; cbn [f_cols f_nrows].
  - by rewrite fst_imap_pair.
  - apply Forall_lookup. intros j [n v] Hj. rewrite list_lookup_imap in Hj.
    destruct (names !! j); simpl in Hj; [|done]. injection Hj as <- <-. simpl.
    rewrite length_infer_column. unfold column_tokens. by rewrite length_map.
Qed.

(** The first row with too many fields raises, naming its line. *)
Lemma check_rows_first_long expected k pre r post :
  Forall (fun x => length x <= expected) pre -> expected < length r ->
  check_rows expected (imap (fun i x => (k + i, x)) (pre ++ r :: post))
  = Err (tokenize_error expected (k + length pre) (length r)).
Proof.
  revert k. induction pre as [|x pre IH]; intros k Hpre Hr; cbn [app].
  - rewrite imap_cons. simpl. rewrite Nat.add_0_r, decide_True by done. done.
  - apply Forall_cons in Hpre as [Hx Hpre]. rewrite imap_cons. cbn [check_rows].
    rewrite decide_False by lia.
    rewrite (imap_ext _ (fun i y => (S k + i, y))) by (intros i y _; cbn; f_equal; lia).
    rewrite IH by done. simpl. do 2 f_equal. lia.
Qed.

Lemma numbered_records_nonblank recs :
  Forall (fun r => r <> []) recs -> numbered_records recs = imap (fun i r => (S i, r)) recs.
Proof.
  intros Hall. unfold numbered_records. apply filter_all.
  apply Forall_lookup. intros i [l r] Hi. rewrite list_lookup_imap in Hi.
  destruct (recs !! i) eqn:E; simpl in Hi; [|done].
  injection Hi as <- <-. simpl. rewrite Forall_lookup in Hall. by apply (Hall i).
Qed.

Lemma read_frame_records header r0 rest :
  Forall (fun x => x <> []) (header :: r0 :: rest) ->
  read_frame (header :: r0 :: rest) =
  (_ ← check_rows (Nat.max (length header) (length r0)) (imap (fun i x => (3 + i, x)) rest);
   match dedup_header header with
   | None => Err (ValueError "header")
   | Some names =>
       let rows := data_rows header ((2, r0) :: imap (fun i x => (3 + i, x)) rest) in
       mret (mkFrame (length rows) (imap (fun j n => (n, infer_column (column_tokens rows j))) names))
   end).
Proof.
  intros Hall. unfold read_frame. rewrite numbered_records_nonblank by done.
  rewrite !imap_cons. cbn [tail expected_fields snd].
  by rewrite (imap_ext _ (fun i x => (3 + i, x))) by (intros i y _; reflexivity).
Qed.

(** C30: a data row with more fields than the first data row (after
    rows that all fit) stops [pd.read_csv] with the C tokenizer's
    [ParserError], naming the expected and the seen number of fields and
    the line of the row; nothing is read. *)
Theorem read_frame_long_row header r0 pre r post :
  Forall (fun x => x <> []) (header :: r0 :: pre ++ r :: post) ->
  Forall (fun x => length x <= Nat.max (length header) (length r0)) pre ->
  Nat.max (length header) (length r0) < length r ->
  read_frame (header :: r0 :: pre ++ r :: post) =
  Err (tokenize_error (Nat.max (length header) (length r0)) (3 + length pre) (length r)).
Proof.
  intros Hall Hpre Hr. rewrite read_frame_records by done.
  by rewrite check_rows_first_long.
Qed.

(** ** Headers of distinct names *)

Lemma unnamed_id hdr : "" ∉ hdr -> unnamed hdr = hdr.
Proof.
  intros Hne. apply list_eq. intros i. unfold unnamed. rewrite list_lookup_imap.
  destruct (hdr !! i) as [n|] eqn:E; [simpl|done].
  destruct (String.eqb_spec n ""); [|done]. subst. destruct Hne. by eapply list_elem_of_lookup_2.
Qed.

Lemma mangle_cols_id hdr todo : forall counts,
  NoDup hdr -> mangle_inv todo hdr counts ->
  exists c', mangle_cols todo (hdr, counts) = Some (hdr, c').
Proof.
  induction todo as [|i todo IH]; intros counts Hnd Hinv; [by eexists|].
  pose proof Hinv as (Hnd' & Hlt & Hdom & _).
  destruct (lookup_lt_is_Some_2 hdr i ltac:(apply Hlt; set_solver)) as [old Hold].
  assert (Hnone : counts !! old = None).
  { destruct (counts !! old) eqn:E; [|done]. destruct (proj1 (Hdom old) ltac:(by rewrite E)) as (j & Hj & Hk).
    assert (j = i) as -> by (eapply (NoDup_lookup hdr); [exact Hnd|exact Hk|exact Hold]). set_solver. }
  assert (Hstep : mangle_col (hdr, counts) i = Some (hdr, <[old := 1]> counts)).
  { unfold mangle_col. rewrite Hold. cbn [default id]. rewrite Hnone. simpl. by rewrite list_insert_id. }
  pose proof (mangle_inv_step i todo hdr counts old counts Hinv Hnone ltac:(done) ltac:(apply Hinv)) as Hinv'.
  rewrite list_insert_id in Hinv' by done.
  destruct (IH (<[old := 1]> counts) Hnd Hinv') as [c' Hrun].
  exists c'. cbn [mangle_cols]. rewrite Hstep. exact Hrun.
Qed.

(** A header of distinct non-empty names is kept. *)
Lemma dedup_header_id hdr : NoDup hdr -> "" ∉ hdr -> dedup_header hdr = Some hdr.
Proof.
  intros Hnd Hne. pose proof (mangle_inv_init hdr) as Hinv. rewrite unnamed_id in Hinv by done.
  destruct (mangle_cols_id hdr (col_loop_order hdr) ∅ Hnd Hinv) as [c' Hrun].
  unfold dedup_header. by rewrite unnamed_id, Hrun.
Qed.

Lemma check_rows_fit expected l :
  Forall (fun lr => length lr.2 <= expected) l -> check_rows expected l = Ok ().
Proof. induction 1 as [|[k r] l Hr _ IH]; [done|]. simpl in *. by rewrite decide_False by lia. Qed.

Lemma Forall_imap_snd (P : list string -> Prop) (g : nat -> nat) l :
  Forall P l -> Forall (fun lr => P lr.2) (imap (fun i x => (g i, x)) l).
Proof.
  intros Hl. apply Forall_lookup. intros i [k x] Hi. rewrite list_lookup_imap in Hi.
  destruct (l !! i) eqn:E; simpl in Hi; [|done]. injection Hi as <- <-. simpl.
  rewrite Forall_lookup in Hl. by apply (Hl i).
Qed.

Lemma map_snd_imap {B} (f : list string -> B) (g : nat -> nat) l :
  map (fun lr => f lr.2) (imap (fun i x => (g i, x)) l) = map f l.
Proof.
  revert g. induction l as [|x l IH]; intros g; [done|]. rewrite imap_cons. simpl.
  f_equal. apply (IH (fun i => g (S i))).
Qed.

(** A file whose header has distinct non-empty names and whose rows are
    no longer than the header: one column per name of the header, whose
    tokens are the fields of the rows completed to the header's length. *)
Lemma read_frame_plain header rows :
  Forall (fun x => x <> []) (header :: rows) -> Forall (fun x => length x <= length header) rows ->
  NoDup header -> "" ∉ header ->
  read_frame (header :: rows) = Ok (plain_frame header rows).
Proof.
  intros Hall Hfit Hnd Hne. unfold read_frame. rewrite numbered_records_nonblank by done.
  rewrite imap_cons. cbn [tail].
  assert (HE : expected_fields header (imap (fun i x => (S (S i), x)) rows) = length header).
  { destruct rows as [|r0 rows]; [done|]. rewrite imap_cons. simpl.
    apply Forall_cons in Hfit as [? _]. lia. }
  change (imap ((fun i r => (S i, r)) ∘ S) rows) with (imap (fun i x => (S (S i), x)) rows).
  rewrite HE, check_rows_fit; cycle 1.
  { destruct rows as [|r0 rows]; [constructor|]. rewrite imap_cons. simpl.
    apply Forall_cons in Hfit as [_ Hfit]. by apply (Forall_imap_snd (fun x => length x <= length header)). }
  cbn [mbind outcome_bind]. rewrite dedup_header_id by done.
  unfold data_rows. rewrite HE, Nat.sub_diag.
  rewrite (map_snd_imap (fun r => drop 0 (pad_to (length header) r))), length_map.
  rewrite (map_ext (fun r => drop 0 (pad_to (length header) r)) (pad_to (length header)))
    by (intros; apply drop_0).
  reflexivity.
Qed.

(** ** Typed cells *)

Lemma parse_int_na t : is_na t = true -> parse_int t = None.
Proof.
  intros Hna. apply bool_decide_eq_true in Hna. revert t Hna. apply Forall_forall. decide_by_eval.
Qed.

(** In an integer column with a missing token, every integer becomes the
    float of the same value. *)
Lemma infer_column_int_gap toks i t z :
  (forall t', t' ∈ toks -> is_na t' = true \/ is_Some (parse_int t')) ->
  (exists t', t' ∈ toks /\ is_na t' = true) ->
  toks !! i = Some t -> parse_int t = Some z -> infer_column toks !! i = Some (float_of_int z).
Proof.
  intros Hall [t' [Ht' Hna']] Hi Hz. unfold infer_column.
  rewrite (proj2 (forallb_forall _ _)); cycle 1.
  { intros x Hx. apply list_elem_of_In, list_elem_of_filter in Hx as [Hx Hin].
    apply bool_decide_eq_true. destruct (Hall x Hin) as [?|?]; [congruence|done]. }
  rewrite (proj2 (existsb_exists _ _)) by (exists t'; split; [by apply list_elem_of_In|done]).
  rewrite list_lookup_fmap, Hi. simpl.
  destruct (is_na t) eqn:Hna; [by rewrite parse_int_na in Hz|]. by rewrite Hz.
Qed.

(** Up to 2^53 the upcast is exact. *)
Lemma float_of_int_exact z :
  (Z.abs z <= 2 ^ 53)%Z -> float_of_int z = CFloat (Z.ltb z 0) (Z.abs_N z) 0.
Proof.
  intros Hz. unfold float_of_int. f_equal. pose proof (N2Z.inj_abs_N z) as Habs.
  assert (Hn : (Z.abs_N z <= 2 ^ 53)%N) by lia.
  destruct (N.lt_ge_cases (Z.abs_N z) (2 ^ 53)) as [Hlt|Hge].
  - unfold round_to_double. destruct (decide (Z.abs_N z = 0%N)) as [->|Hnz]; [done|].
    assert (N.log2 (Z.abs_N z) < 53)%N by (apply N.log2_lt_pow2; lia).
    by replace (N.log2 (Z.abs_N z) - 52)%N with 0%N by lia.
  - replace (Z.abs_N z) with (2 ^ 53)%N by lia. reflexivity.
Qed.

(** What [to_csv] writes for such a float: the integer and ".0". *)
Lemma cell_str_float_of_int z :
  (Z.abs z <= 2 ^ 53)%Z -> cell_str (float_of_int z) = pretty z +:+ ".0".
Proof.
  intros Hz. rewrite float_of_int_exact by done. pose proof (N2Z.inj_abs_N z) as Habs.
  assert (Hlen : String.length (pretty (Z.abs_N z)) <= 16)
    by (apply pretty_N_length_bound; [lia|simpl; lia]).
  destruct z as [|p|p]; [reflexivity| |]; simpl;
    rewrite float_repr_integral by (simpl in Hlen; done || lia); [done|].
  by rewrite <- string_append_assoc.
Qed.

(** ** refineData.py from the records of program_raw.csv *)

Section PlainFile.
Variable get_text : string -> string.
Variables (header : list string) (rows : list (list string)).
(** A file without blank records, without index fields, whose header has
    distinct non-empty names, among them the 35 the script selects. *)
Hypothesis Hnonblank : Forall (fun x => x <> []) (header :: rows).
Hypothesis Hfit : Forall (fun x => length x <= length header) rows.
Hypothesis Hnd : NoDup header.
Hypothesis Hne : "" ∉ header.
Hypothesis Hsel : selected_columns ⊆ header.

Lemma plain_refine :
  exists df out, read_frame (header :: rows) = Ok df /\ refine_data get_text df = Ok out /\
    forall j c, header !! j = Some c -> c ∈ selected_columns ->
      col_lookup (f_cols out) (renamed c) = Some (map (refine_cell get_text c) (infer_column (plain_tokens header rows j))).
Proof.
  set (df := plain_frame header rows).
  assert (Hcol : forall j c, header !! j = Some c -> col_lookup (f_cols df) c = Some (infer_column (plain_tokens header rows j)))
    by (intros j c Hj; by apply (col_lookup_imap (fun j => infer_column (plain_tokens header rows j)))).
  assert (Hall : forall n, n ∈ selected_columns -> is_Some (col_lookup (f_cols df) n)).
  { intros n Hn. destruct (list_elem_of_lookup_1 header n (Hsel n Hn)) as [j Hj]. rewrite (Hcol j n Hj). by eexists. }
  exists df, (refined_frame get_text df). split_and!; [by apply read_frame_plain|by apply refine_data_ok|].
  intros j c Hj Hc. by apply refined_frame_lookup; [|apply Hcol].
Qed.

(** C31: a record with fewer fields than the header is neither skipped
    nor refused: its missing fields are missing values, so in the
    refined table a flag column reads "가능" there and any other column
    is empty. *)
Theorem short_row_missing_cells i r j c :
  rows !! i = Some r -> header !! j = Some c -> c ∈ selected_columns -> length r <= j ->
  exists df out, read_frame (header :: rows) = Ok df /\ refine_data get_text df = Ok out /\
    col_lookup (f_cols out) (renamed c) ≫= (fun v => v !! i)
      = Some (if decide (c ∈ bool_columns) then CStr possible else CNaN).
Proof.
  intros Hi Hj Hc Hr. destruct plain_refine as (df & out & Hread & Hrun & Hlook).
  exists df, out. split_and!; [done|done|]. rewrite (Hlook j c Hj Hc). simpl.
  rewrite list_lookup_fmap, (infer_column_na _ i ""); [|unfold plain_tokens, column_tokens|reflexivity].
  - unfold refine_cell. simpl. repeat case_decide; done.
  - rewrite !list_lookup_fmap, Hi. simpl. unfold pad_to.
    pose proof (lookup_lt_Some _ _ _ Hj).
    rewrite lookup_app_r, lookup_replicate_2 by lia. done.
Qed.

(** C32: in a column whose fields are integers or missing, one of them
    missing, pandas reads every integer as a float, so the refined CSV
    file writes the integer [z] as [z] followed by ".0" (for integers of
    magnitude at most 2^53, which the upcast keeps exactly). *)
Theorem int_column_gap_written_as_float i j c t z :
  header !! j = Some c -> c ∈ selected_columns -> c ∉ bool_columns ->
  (forall t', t' ∈ plain_tokens header rows j -> is_na t' = true \/ is_Some (parse_int t')) ->
  (exists t', t' ∈ plain_tokens header rows j /\ is_na t' = true) ->
  plain_tokens header rows j !! i = Some t -> parse_int t = Some z -> (Z.abs z <= 2 ^ 53)%Z ->
  exists df out, read_frame (header :: rows) = Ok df /\ refine_data get_text df = Ok out /\
    col_lookup (f_cols out) (renamed c) ≫= (fun v => v !! i) = Some (float_of_int z) /\
    cell_str (float_of_int z) = pretty z +:+ ".0".
Proof.
  intros Hj Hc Hnf Hall Hgap Hi Hz Hlen. destruct plain_refine as (df & out & Hread & Hrun & Hlook).
  exists df, out. split_and!; [done|done| |by apply cell_str_float_of_int].
  rewrite (Hlook j c Hj Hc). simpl.
  rewrite list_lookup_fmap, (infer_column_int_gap _ i t z) by done. simpl.
  unfold refine_cell. rewrite decide_False by done. by case_decide.
Qed.

End PlainFile.

(** ** A file ending inside a quoted field *)

(** C37: a raw export that ends inside a quoted field stops
    refineData.py at [pd.read_csv]: after the records [to_csv] writes, a
    record that opens a quote it never closes makes pandas' tokenizer
    raise [ParserError] "EOF inside string starting at row n", [n] being
    the row where that record starts (the header is row 0); Python's
    [csv] reader, on the same text, returns the open field as a last
    record. *)
Theorem pd_read_csv_eof_in_string header rows cs :
  dquote ∉ cs ->
  pd_read_csv (write_csv header rows ++ dquote :: cs) = Err (eof_in_string (S (length rows))) /\
  (forallb (forallb fits_limit) (header :: rows) && fits_limit (String.string_of_list_ascii cs) = true ->
   read_csv (write_csv header rows ++ dquote :: cs) = Ok (header :: rows ++ [[String.string_of_list_ascii cs]])).
Proof.
  intros Hq. split.
  - unfold pd_read_csv, tokenize, write_csv.
    rewrite read_write_prefix, forallb_str_fits_pandas, read_open_quote_record by done. done.
  - intros [Hrows Hcs]%andb_prop. unfold read_csv, tokenize, write_csv.
    rewrite read_write_prefix. change (forallb (forallb (str_fits PyCsv))) with (forallb (forallb fits_limit)).
    rewrite Hrows, read_open_quote_record by done.
    unfold fits_limit, str_fits in Hcs. rewrite String.list_ascii_of_string_of_list_ascii in Hcs.
    by rewrite Hcs.
Qed.

(** ** Concrete files *)

(** A header with a duplicate and an empty name. *)
Definition sample_records : list (list string) :=
  [["a"; "a"; ""]; ["1"; "x"; "True"]; []; ["2"; ""; "False"]].

(** Witness of C29. *)
Lemma read_frame_wf_witness :
  exists f, read_frame sample_records = Ok f /\ map fst (f_cols f) = ["a"; "a.1"; "Unnamed: 2"] /\ frame_wf f.
Proof.
  eexists. split; [vm_compute; reflexivity|]. split; [reflexivity|].
  apply (read_frame_wf sample_records). vm_compute. reflexivity.
Defined.

(** Witness of C30: the third record has three fields, two expected. *)
Lemma read_frame_long_row_witness :
  read_frame [["a"; "b"]; ["1"; "2"]; ["3"; "4"; "5"]] = Err (tokenize_error 2 3 3).
Proof.
  apply (read_frame_long_row ["a"; "b"] ["1"; "2"] [] ["3"; "4"; "5"] []);
    [decide_by_eval|constructor|simpl; lia].
Defined.

(** The raw export: a program id, the 35 selected columns; the first
    record complete with a team size of 4, the second cut after three
    fields. *)
Definition raw_header : list string := "program_id" :: selected_columns.

Definition raw_rows : list (list string) :=
  [map (fun c => if decide (c = "max_per_team") then "4" else if decide (c ∈ bool_columns) then "True" else c)
       raw_header;
   ["17"; "Jeju"; "2026-01-01"]].

Lemma raw_file_plain :
  Forall (fun x => x <> []) (raw_header :: raw_rows) /\
  Forall (fun x => length x <= length raw_header) raw_rows /\
  NoDup raw_header /\ "" ∉ raw_header /\ selected_columns ⊆ raw_header.
Proof. split_and!; decide_by_eval. Qed.

(** Witness of C31: the pet flag of the short record reads "가능". *)
Lemma short_row_missing_cells_witness :
  exists df out, read_frame (raw_header :: raw_rows) = Ok df /\ refine_data strip_tags df = Ok out /\
    col_lookup (f_cols out) (renamed "pet") ≫= (fun v => v !! 1) = Some (CStr possible).
Proof.
  destruct raw_file_plain as (H1 & H2 & H3 & H4 & H5).
  destruct (short_row_missing_cells strip_tags raw_header raw_rows H1 H2 H3 H4 H5 1 ["17"; "Jeju"; "2026-01-01"] 17 "pet")
    as (df & out & Hread & Hrun & Hcell); [reflexivity|reflexivity|decide_by_eval|simpl; lia|].
  exists df, out. split_and!; [done|done|]. rewrite Hcell. reflexivity.
Defined.

(** Witness of C32: the team size 4 of the first record is written "4.0". *)
Lemma int_column_gap_written_as_float_witness :
  exists df out, read_frame (raw_header :: raw_rows) = Ok df /\ refine_data strip_tags df = Ok out /\
    col_lookup (f_cols out) (renamed "max_per_team") ≫= (fun v => v !! 0) = Some (CFloat false 4 0) /\
    cell_str (CFloat false 4 0) = "4.0".
Proof.
  destruct raw_file_plain as (H1 & H2 & H3 & H4 & H5).
  destruct (int_column_gap_written_as_float strip_tags raw_header raw_rows H1 H2 H3 H4 H5 0 7 "max_per_team" "4" 4)
    as (df & out & Hread & Hrun & Hcell & Hstr);
    [reflexivity|decide_by_eval|decide_by_eval| | |reflexivity|reflexivity|simpl; lia|].
  - apply Forall_forall. decide_by_eval.
  - exists "". split; [decide_by_eval|reflexivity].
  - exists df, out. split_and!; [done|done|exact Hcell|exact Hstr].
Defined.

(** Witness of C37: a header, one row, then a record that opens a quote
    before [x] and a line feed: pandas raises at row 2, the csv reader
    returns the field [x] with its line feed. *)
Lemma pd_read_csv_eof_in_string_witness :
  pd_read_csv (write_csv ["a"] [["1"]] ++ ["034"; "x"; "010"]%char) = Err (eof_in_string 2) /\
  read_csv (write_csv ["a"] [["1"]] ++ ["034"; "x"; "010"]%char) =
    Ok [["a"]; ["1"]; [String.string_of_list_ascii ["x"; "010"]%char]].
Proof.
  destruct (pd_read_csv_eof_in_string ["a"] [["1"]] ["x"; "010"]%char) as [H1 H2]; [decide_by_eval|].
  split; [exact H1|]. apply H2. reflexivity.
Defined.
