(* ===== verification/Pipeline.v ===== *)
(** * The two scripts composed

    refineData.py writes ./files/refined_data.csv and embeddingPrograms.py
    loads it with [CSVLoader] before embedding it.  The theorem of this
    file follows a raw table through [refine_data], [to_csv], the CSV
    text ([write_csv]) and [csv_load]: the ingestion script gets one
    document per raw row, whose text lists the 35 Korean column names
    with the refined cells of that row; and [offline_run], the two
    scripts one after the other, stores exactly those documents.  From
    the raw text, [refine_main] is the whole of refineData.py and
    [offline_text_run] the two scripts; the last theorem follows a raw
    CSV text through [pd.read_csv] into the store. *)

From Stdlib Require Import Ascii.
From S2P Require Import Prelude OpenAI Config Store Ingest Chain Refine Csv Pandas.

Definition refined_path : string := "./files/refined_data.csv".

(** The cell of column [c] in row [i] of a table. *)
Definition raw_cell (df : frame) (c : string) (i : nat) : cell :=
  default CNaN (default [] (col_lookup (f_cols df) c) !! i).

(** The two scripts one after the other: the documents the ingestion
    script loads from the file the refinement script writes. *)
Definition pipeline_documents (get_text : string -> string) (raw : frame) : outcome (list document) :=
  out ← refine_data get_text raw;
  let '(header, rows) := to_csv out in
  csv_load refined_path (write_csv header rows).

(** The refined cells of row [i], as [to_csv] writes them. *)
Definition refined_cells (get_text : string -> string) (raw : frame) (i : nat) : list string :=
  map (fun c => cell_str (refine_cell get_text c (raw_cell raw c i))) selected_columns.

(** Whether the reader of the ingestion script takes every refined cell:
    none has more than 131072 characters. *)
Definition rows_fit (get_text : string -> string) (raw : frame) : bool :=
  forallb (forallb fits_limit) (map (refined_cells get_text raw) (seq 0 (f_nrows raw))).

(** The document [CSVLoader] makes of row [i] of the refined file. *)
Definition row_document (get_text : string -> string) (raw : frame) (i : nat) : document :=
  mkDocument (row_content refined_columns (refined_cells get_text raw i)) refined_path i.

Section Offline.
Context `{OpenAIBackend}.
(** The environment of embeddingPrograms.py after [load_dotenv()]. *)
Variable env : environ.

(** The offline half of the system: refineData.py, then
    embeddingPrograms.py's [csv_loader] and [create_vector_store(csv)]
    with its default batch size. *)
Definition offline_run (get_text : string -> string) (raw : frame) : PyM world (option chroma) :=
  docs <- lift (pipeline_documents get_text raw) ;;
  create_vector_store env docs 150.



End Offline.

(** ** Lemmas *)

Lemma filter_nonempty_rows (rows : list (list string)) :
  Forall (fun row => row <> []) rows -> filter (fun row => row <> []) rows = rows.
Proof. apply filter_all. Qed.

Lemma frame_rows_lookup f i :
  i < f_nrows f ->
  frame_rows f !! i = Some (map (fun '(_, v) => default CNaN (v !! i)) (f_cols f)).
Proof.
  intros Hi. unfold frame_rows. rewrite list_lookup_fmap, lookup_seq_lt by done. reflexivity.
Qed.

Lemma frame_rows_length f : length (frame_rows f) = f_nrows f.
Proof. unfold frame_rows. by rewrite length_map, length_seq. Qed.

Lemma refined_frame_rows_nonempty get_text df :
  Forall (fun row => row <> []) (map (map cell_str) (frame_rows (refined_frame get_text df))).
Proof.
  apply Forall_forall. intros row Hrow.
  apply list_elem_of_fmap_1 in Hrow as (r & -> & Hr).
  unfold frame_rows in Hr. apply list_elem_of_fmap_1 in Hr as (i & -> & _).
  by unfold refined_frame.
Qed.

(** Row [i] of the refined table, as strings. *)
Lemma refined_row_cells get_text df i :
  frame_wf df ->
  (forall n, n ∈ selected_columns -> is_Some (col_lookup (f_cols df) n)) ->
  i < f_nrows df ->
  map cell_str (map (fun '(_, v) => default CNaN (v !! i)) (f_cols (refined_frame get_text df))) =
  map (fun c => cell_str (refine_cell get_text c (raw_cell df c i))) selected_columns.
Proof.
  intros Hwf Hall Hi. unfold refined_frame. cbn [f_cols].
  rewrite !map_map. apply map_ext_in. intros c Hc%list_elem_of_In.
  destruct (Hall c Hc) as [v Hv]. unfold raw_cell. rewrite Hv. simpl.
  pose proof (col_lookup_length df c v Hwf Hv) as Hlen.
  destruct (lookup_lt_is_Some_2 v i) as [x Hx]; [lia|].
  by rewrite list_lookup_fmap, Hx.
Qed.

Lemma refined_columns_fit : forallb fits_limit refined_columns = true.
Proof. vm_compute. reflexivity. Qed.


(** The documents the ingestion loads, one per raw row, when the cells
    fit the reader. *)
Lemma pipeline_documents_eq get_text raw :
  frame_wf raw ->
  (forall n, n ∈ selected_columns -> is_Some (col_lookup (f_cols raw) n)) ->
  pipeline_documents get_text raw =
  if rows_fit get_text raw then Ok (map (row_document get_text raw) (seq 0 (f_nrows raw)))
  else Err field_limit_error.
Proof.
  intros Hwf Hall.
  assert (Hhdr : map fst (f_cols (refined_frame get_text raw)) = refined_columns).
  { unfold refined_frame. cbn [f_cols]. rewrite map_map. apply renamed_columns. }
  assert (Hrows : map (map cell_str) (frame_rows (refined_frame get_text raw)) =
                  map (refined_cells get_text raw) (seq 0 (f_nrows raw))).
  { unfold frame_rows. rewrite map_map. apply map_ext_in. intros i Hi%list_elem_of_In%elem_of_seq.
    unfold refined_cells. rewrite refined_row_cells by (done || simpl in *; lia). done. }
  unfold pipeline_documents. rewrite refine_data_ok by done. cbn [mbind outcome_bind].
  unfold to_csv. rewrite Hhdr, Hrows, csv_load_write. cbn [forallb]. rewrite refined_columns_fit.
  unfold rows_fit. destruct (forallb _ _); [|done]. cbn [andb].
  rewrite filter_all; cycle 1.
  { apply Forall_forall. intros row Hrow. apply list_elem_of_fmap_1 in Hrow as (i & -> & _).
    unfold refined_cells. simpl. discriminate. }
  f_equal. unfold csv_loader. by rewrite imap_map_seq.
Qed.

(** ** The composition *)


Section OfflineTheorems.
Context `{OpenAIBackend}.
Variable env : environ.
Hypothesis Hkey : api_key_set env = true.

(** The offline run is the ingestion of the documents of the pipeline. *)
Lemma offline_run_docs get_text raw docs w0 :
  pipeline_documents get_text raw = Ok docs ->
  offline_run env get_text raw w0 = create_vector_store env docs 150 w0.
Proof. intros Hd. unfold offline_run. rewrite (bind_Ok _ _ _ docs w0); [done|]. unfold lift. by rewrite Hd. Qed.

(** The offline run, computed. *)
Lemma offline_run_effect get_text raw w0 :
  frame_wf raw ->
  (forall n, n ∈ selected_columns -> is_Some (col_lookup (f_cols raw) n)) ->
  rows_fit get_text raw = true ->
  world_wf w0 ->
  embeds_ok_below (w_requests w0 + batch_count (f_nrows raw) 150) ->
  exists vs w1,
    offline_run env get_text raw w0 = (Ok vs, w1) /\
    stored_docs w1 "./db" = stored_docs w0 "./db" ++ map (row_document get_text raw) (seq 0 (f_nrows raw)) /\
    w_requests w1 = w_requests w0 + batch_count (f_nrows raw) 150 /\
    world_wf w1.
Proof.
  intros Hwf Hall Hfit Hw0 Hok.
  set (docs := map (row_document get_text raw) (seq 0 (f_nrows raw))).
  assert (Hlen : length (chunks 150 docs) = batch_count (f_nrows raw) 150).
  { unfold docs. by rewrite length_chunks, length_map, length_seq. }
  rewrite <- Hlen in Hok |- *.
  destruct (create_vector_store_effect env Hkey docs 150 w0 Hw0 Hok) as (w1 & Hrun & _ & Hdocs & Hreq & Hwf1).
  eexists _, w1. split_and!; [|done|done|done].
  rewrite (offline_run_docs _ _ docs); [done|]. by rewrite pipeline_documents_eq, Hfit.
Qed.

(** C24: the offline half of the system end to end.  From a well-formed
    raw table with the selected columns whose refined cells fit the CSV
    reader, refining it, writing and loading the CSV and ingesting the
    documents with the default batch size, when the embedding requests
    succeed, appends to "./db" exactly the documents of the raw rows in
    order, costs [ceil(n / 150)] embedding requests and keeps the store
    invariant. *)
Theorem offline_pipeline_store get_text raw w0 :
  frame_wf raw ->
  (forall n, n ∈ selected_columns -> is_Some (col_lookup (f_cols raw) n)) ->
  rows_fit get_text raw = true ->
  world_wf w0 ->
  embeds_ok_below (w_requests w0 + batch_count (f_nrows raw) 150) ->
  exists vs w1,
    offline_run env get_text raw w0 = (Ok vs, w1) /\
    stored_docs w1 "./db" = stored_docs w0 "./db" ++ map (row_document get_text raw) (seq 0 (f_nrows raw)) /\
    w_requests w1 = w_requests w0 + batch_count (f_nrows raw) 150 /\
    world_wf w1.
Proof. apply offline_run_effect. Qed.

Lemma query_collection_elem q c k x : x ∈ query_collection q c k -> x ∈ c.
Proof.
  destruct (query_collection_spec q c k) as (_ & _ & rest & Hp & _). intros Hx.
  rewrite Hp. apply elem_of_app. by left.
Qed.

(** C27: the answers are grounded in the refined table.  After the
    offline run from an empty world, every document a turn of the chat
    retrieves, for any question vector, is the document of a row of the
    raw table, as the refinement and the CSV made it. *)
Theorem retrieved_docs_are_refined_rows get_text raw vs w1 qv d :
  frame_wf raw ->
  (forall n, n ∈ selected_columns -> is_Some (col_lookup (f_cols raw) n)) ->
  embeds_ok_below (batch_count (f_nrows raw) 150) ->
  offline_run env get_text raw empty_world = (Ok vs, w1) ->
  d ∈ retrieved w1 qv ->
  exists i, i < f_nrows raw /\ d = row_document get_text raw i.
Proof.
  intros Hwf Hall Hok Hrun Hd.
  destruct (rows_fit get_text raw) eqn:Hfit.
  2:{ unfold offline_run in Hrun. rewrite (bind_Err _ _ _ field_limit_error empty_world) in Hrun; [done|].
      unfold lift. by rewrite pipeline_documents_eq, Hfit. }
  destruct (offline_run_effect get_text raw empty_world Hwf Hall Hfit empty_world_wf Hok)
    as (vs' & w1' & Hrun' & Hdocs & _).
  rewrite Hrun in Hrun'. injection Hrun' as <- <-.
  unfold retrieved in Hd. apply list_elem_of_fmap_1 in Hd as (e & -> & He).
  apply query_collection_elem in He.
  assert (Hin : entry_document e ∈ stored_docs w1 "./db") by (by apply list_elem_of_fmap_2).
  rewrite Hdocs in Hin. apply list_elem_of_fmap_1 in Hin as (i & Hi & Hseq%elem_of_seq).
  exists i. split; [lia|done].
Qed.




End OfflineTheorems.


(** Witness of C24: the two-row sample table ingested into an empty
    world stores its two documents with one embedding request. *)
Lemma offline_pipeline_store_witness :
  exists vs w1,
    @offline_run length_backend sample_env strip_tags sample_raw empty_world = (Ok vs, w1) /\
    stored_docs w1 "./db" = map (row_document strip_tags sample_raw) [0; 1] /\
    w_requests w1 = 1.
Proof.
  destruct (@offline_pipeline_store length_backend sample_env sample_env_key strip_tags sample_raw empty_world
              sample_raw_wf sample_raw_complete ltac:(vm_compute; reflexivity) empty_world_wf (embeds_ok_length _))
    as (vs & w1 & Hrun & Hdocs & Hreq & _).
  exists vs, w1. split_and!; [exact Hrun|rewrite Hdocs; reflexivity|rewrite Hreq; reflexivity].
Defined.

(** Witness of C27: after the offline run of the sample table, the first
    row's document is retrieved for the question vector [3], and it is a
    refined row. *)
Lemma retrieved_docs_are_refined_rows_witness :
  let r := @offline_run length_backend sample_env strip_tags sample_raw empty_world in
  row_document strip_tags sample_raw 0 ∈ retrieved (snd r) [3%Z] /\
  exists i, i < 2 /\ row_document strip_tags sample_raw 0 = row_document strip_tags sample_raw i.
Proof.
  intros r.
  assert (Hin : row_document strip_tags sample_raw 0 ∈ retrieved (snd r) [3%Z]).
  { apply list_elem_of_In. vm_compute. tauto. }
  split; [exact Hin|].
  apply (@retrieved_docs_are_refined_rows length_backend sample_env sample_env_key strip_tags sample_raw
           (Some (mkChroma "./db")) (snd r) [3%Z]);
    [apply sample_raw_wf|apply sample_raw_complete|apply embeds_ok_length|vm_compute; reflexivity|exact Hin].
Defined.

