(* ===== verification/Server.v ===== *)
(** * The Streamlit server: one session state per browser session

    The Streamlit server runs main.py once per interaction of a browser
    session, with that session's own [st.session_state] and a blank page;
    the Chroma directory and the OpenAI account are shared by all
    sessions.  A server state is the shared world and the session state of
    every session id; [server_step sid] is one run of main.py for the
    session [sid], and [any_step] a run of any session.  A run is
    [main_script]: [load_dotenv()], the construction of the OpenAI
    clients, then [main_run].  The theorem: a server started without an
    OpenAI key never changes any state, whatever the sessions do. *)

From S2P Require Import Prelude OpenAI Config Store Prompts Chain.

Record server := mkServer {
  srv_world : world;
  srv_sessions : gmap nat (gmap string (list message)) }.

(** The state main.py sees in session [sid]: a new session starts with an
    empty session state. *)
Definition session_app (sv : server) (sid : nat) : app :=
  mkApp (srv_world sv) (default ∅ (srv_sessions sv !! sid)) [].

Section Server.
Context `{OpenAIBackend}.
(** The .env file and the environment the server was started in. *)
Variables (dotenv env0 : environ).

(** One execution of main.py: [load_dotenv()] (line 16), then the
    module's statements.  The first statement that reads the environment
    is [retriever = get_retriever()] (line 29): the client
    [OpenAIEmbeddings(...)] is an argument of [Chroma(...)], so it is
    constructed before the store is opened and before anything else of
    [main_run] happens; [llm = ChatOpenAI(...)] (line 30) needs the same
    key.  Without the key the run raises with nothing done. *)
Definition main_script (now : date) (input : option string) : PyM app unit :=
  on_world (embeddings_client (load_dotenv dotenv env0)) ;;
  main_run now input.

(** One run of main.py for session [sid], at date [now], with what the
    chat input returns; the session's state is stored back, the world is
    shared. *)
Inductive server_step (sid : nat) : server -> server -> Prop :=
| serve sv now input o s' :
    main_script now input (session_app sv sid) = (o, s') ->
    server_step sid sv (mkServer (app_world s') (<[sid := session_state s']> (srv_sessions sv))).

(** A step of any session. *)
Definition any_step (sv sv' : server) : Prop := exists sid, server_step sid sv sv'.

End Server.

Section ServerNoKey.
Context `{OpenAIBackend}.
Variables (dotenv env0 : environ).
(** Neither the environment nor the .env file gives a usable key. *)
Hypothesis Hnokey : api_key_set (load_dotenv dotenv env0) = false.

Lemma main_script_no_key now input s : main_script dotenv env0 now input s = (Err missing_key_error, s).
Proof.
  unfold main_script. apply bind_Err. unfold on_world.
  rewrite embeddings_client_missing by done. by destruct s.
Qed.

Lemma server_step_no_key sid sv sv' :
  server_step dotenv env0 sid sv sv' ->
  srv_world sv' = srv_world sv /\
  srv_sessions sv' = <[sid := default ∅ (srv_sessions sv !! sid)]> (srv_sessions sv).
Proof. intros [sv0 now input o s' Hrun]. rewrite main_script_no_key in Hrun. by injection Hrun as <- <-. Qed.

(** C36: a server started without a usable OpenAI key never changes
    anything, whatever the sessions do: every run of main.py raises
    before its first statement that has an effect, so the Chroma
    directory, the request counter and the log stay as they were, every
    existing session keeps its state, and a session that connects gets
    an empty session state, never a chat history. *)
Theorem server_without_key_inert sv sv' :
  rtc (any_step dotenv env0) sv sv' ->
  srv_world sv' = srv_world sv /\
  (forall sid ss, srv_sessions sv !! sid = Some ss -> srv_sessions sv' !! sid = Some ss) /\
  (forall sid ss, srv_sessions sv' !! sid = Some ss -> srv_sessions sv !! sid = None -> ss = ∅).
Proof.
  induction 1 as [sv|sv1 sv2 sv3 [sid Hstep] _ IH]; [naive_solver|].
  destruct (server_step_no_key sid sv1 sv2 Hstep) as [Hw Hs].
  destruct IH as (Hw' & Hkeep & Hnew). split_and!.
  - by rewrite Hw', Hw.
  - intros k ss Hk. apply Hkeep. rewrite Hs.
    destruct (decide (sid = k)) as [<-|Hne]; [by rewrite lookup_insert_eq, Hk|by rewrite lookup_insert_ne].
  - intros k ss H3 H1. destruct (srv_sessions sv2 !! k) as [g|] eqn:E2; [|by apply (Hnew k)].
    rewrite (Hkeep k g E2) in H3. injection H3 as <-. rewrite Hs in E2.
    destruct (decide (sid = k)) as [<-|Hne].
    + rewrite lookup_insert_eq, H1 in E2. by injection E2 as <-.
    + rewrite lookup_insert_ne, H1 in E2 by done. done.
Qed.

End ServerNoKey.

(** ** Concrete runs *)

Definition sample_server : server :=
  mkServer sample_world {[1 := {[history_key := [HumanMessage "hi"; AIMessage "hello"]]}]}.

(** The server after a run of session [sid]. *)
Definition run_session `{OpenAIBackend} (dotenv env0 : environ) (sv : server) (sid : nat) (now : date)
    (input : option string) : server :=
  let s' := snd (main_script dotenv env0 now input (session_app sv sid)) in
  mkServer (app_world s') (<[sid := session_state s']> (srv_sessions sv)).

Lemma run_session_step `{OpenAIBackend} dotenv env0 sv sid now input :
  server_step dotenv env0 sid sv (run_session dotenv env0 sv sid now input).
Proof.
  apply (serve dotenv env0 sid sv now input (fst (main_script dotenv env0 now input (session_app sv sid)))).
  apply surjective_pairing.
Qed.

(** Witness of C36: the shell exports the key empty, which shadows the
    .env file; two sessions connect and ask, nothing changes. *)
Lemma server_without_key_inert_witness :
  let sv1 := @run_session length_backend sample_dotenv empty_key_env sample_server 2 (mkDate 2026 11 9) (Some "abc") in
  api_key_set (load_dotenv sample_dotenv empty_key_env) = false /\
  rtc (@any_step length_backend sample_dotenv empty_key_env) sample_server sv1 /\
  srv_world sv1 = srv_world sample_server /\ srv_sessions sv1 !! 2 = Some ∅.
Proof.
  intros sv1. assert (Hk : api_key_set (load_dotenv sample_dotenv empty_key_env) = false) by reflexivity.
  assert (Hr : rtc (@any_step length_backend sample_dotenv empty_key_env) sample_server sv1)
    by (apply rtc_once; exists 2; apply run_session_step).
  destruct (@server_without_key_inert length_backend sample_dotenv empty_key_env Hk sample_server sv1 Hr)
    as (Hw & _ & Hnew).
  split_and!; [exact Hk|exact Hr|exact Hw|].
  destruct (srv_sessions sv1 !! 2) as [ss|] eqn:E.
  - by rewrite (Hnew 2 ss E eq_refl).
  - exfalso. unfold sv1, run_session in E. simpl in E. by rewrite lookup_insert_eq in E.
Defined.
